(** * AR Studios API: submission intake and admin authorisation

    A shallow embedding of [src/main.py] and [src/schemas.py].

    - Python [str] is [string] (a list of 8-bit characters); [str.lower] is
      therefore the ASCII case mapping.
    - Python [bytes] is [list byte].
    - [datetime] values are microseconds since the epoch, in [Z].
    - The document store is a record of finite maps keyed by ObjectId, and
      the handlers run in a state-and-exception monad over it that also
      records every call issued to the store.
    - Library calls whose result the program only passes on (HMAC-SHA256,
      the password hash, the e-mail validator, the ISO-8601 parser), what
      the store alone decides (its regular expressions beyond a small
      fragment, its order among documents with equal sort keys) and the
      process configuration are fields of the class [Env]. *)

From Stdlib Require Import ZArith NArith List String Ascii Bool Lia Sorted.
From Stdlib.Strings Require Import Byte.
From stdpp Require Import base option list gmap strings.
Import ListNotations.
Local Open Scope Z_scope.

(** ** Python string operations used by the program *)

Module Str.

(** [c.lower()] on one 8-bit character. *)
Definition lower_ascii (c : ascii) : ascii :=
  let n := N_of_ascii c in
  if ((65 <=? n) && (n <=? 90))%N then ascii_of_N (n + 32) else c.

(** [s.lower()] *)
Fixpoint lower (s : string) : string :=
  match s with
  | EmptyString => EmptyString
  | String c s' => String (lower_ascii c) (lower s')
  end.

(** [s.startswith(p)] *)
Fixpoint startswith (p s : string) : bool :=
  match p, s with
  | EmptyString, _ => true
  | String _ _, EmptyString => false
  | String a p', String b s' => Ascii.eqb a b && startswith p' s'
  end.

(** [p in s]: [p] occurs in [s] as a contiguous substring. *)
Fixpoint contains (p s : string) : bool :=
  startswith p s ||
  match s with
  | EmptyString => false
  | String _ s' => contains p s'
  end.

(** [s.endswith(p)] *)
Definition endswith (p s : string) : bool :=
  let lp := String.length p in
  let ls := String.length s in
  (lp <=? ls)%nat && String.eqb (String.substring (ls - lp) lp s) p.

(** Truthiness of a [str]: the empty string is falsy. *)
Definition truthy (s : string) : bool :=
  match s with EmptyString => false | String _ _ => true end.

(** Truthiness of an [Optional[str]]: [None] and [""] are falsy. *)
Definition opt_truthy (o : option string) : bool :=
  match o with Some s => truthy s | None => false end.

End Str.

(** ** Base64 (Python's [base64] over [binascii]) *)

Module Base64.
Local Open Scope N_scope.

Definition BASE64_PAD : ascii := "="%char.

Definition alphabet : string :=
  "ABCDEFGHIJKLMNOPQRSTUVWXYZabcdefghijklmnopqrstuvwxyz0123456789+/".

(** [table_b2a_base64[i]] *)
Definition table_b2a (i : N) : ascii :=
  match String.get (N.to_nat i) alphabet with
  | Some c => c
  | None => BASE64_PAD
  end.

(** [table_a2b_base64[c]]; [None] is the table's "not a digit" entry. *)
Definition table_a2b (c : ascii) : option N :=
  let n := N_of_ascii c in
  if (65 <=? n) && (n <=? 90) then Some (n - 65)
  else if (97 <=? n) && (n <=? 122) then Some (n - 97 + 26)
  else if (48 <=? n) && (n <=? 57) then Some (n - 48 + 52)
  else if n =? 43 then Some 62
  else if n =? 47 then Some 63
  else None.

(** Store into an [unsigned char]. *)
Definition byte_of_N (n : N) : byte :=
  match Byte.of_N (n mod 256) with
  | Some b => b
  | None => x00
  end.

(** One base64 digit: the low six bits select the character. *)
Definition digit (n : N) : ascii := table_b2a (N.land n 63).

(** [b64encode(content).decode('utf-8')] *)
Fixpoint b64encode (content : list byte) : string :=
  match content with
  | [] => EmptyString
  | [a] =>
      let a := Byte.to_N a in
      String (digit (N.shiftr a 2))
        (String (digit (N.shiftl (N.land a 3) 4))
           (String BASE64_PAD (String BASE64_PAD EmptyString)))
  | [a; b] =>
      let a := Byte.to_N a in
      let b := Byte.to_N b in
      String (digit (N.shiftr a 2))
        (String (digit (N.lor (N.shiftl (N.land a 3) 4) (N.shiftr b 4)))
           (String (digit (N.shiftl (N.land b 15) 2))
              (String BASE64_PAD EmptyString)))
  | a :: b :: c :: rest =>
      let a := Byte.to_N a in
      let b := Byte.to_N b in
      let c := Byte.to_N c in
      String (digit (N.shiftr a 2))
        (String (digit (N.lor (N.shiftl (N.land a 3) 4) (N.shiftr b 4)))
           (String (digit (N.lor (N.shiftl (N.land b 15) 2) (N.shiftr c 6)))
              (String (digit (N.land c 63)) (b64encode rest))))
  end.

(** The loop of [binascii.a2b_base64] with [strict_mode] off.
    [None] is [binascii.Error]. *)
Fixpoint a2b_loop (ascii_data : string) (quad_pos : N) (leftchar : N) (pads : N)
         (bin_data : list byte) : option (list byte) :=
  match ascii_data with
  | EmptyString => if quad_pos =? 0 then Some bin_data else None
  | String this_ch rest =>
      if Ascii.eqb this_ch BASE64_PAD then
        if 2 <=? quad_pos then
          if 4 <=? quad_pos + (pads + 1) then Some bin_data
          else a2b_loop rest quad_pos leftchar (pads + 1) bin_data
        else a2b_loop rest quad_pos leftchar pads bin_data
      else
        match table_a2b this_ch with
        | None => a2b_loop rest quad_pos leftchar pads bin_data
        | Some v =>
            match quad_pos with
            | 0 => a2b_loop rest 1 v 0 bin_data
            | 1 => a2b_loop rest 2 (N.land v 15) 0
                     (bin_data ++ [byte_of_N (N.lor (N.shiftl leftchar 2) (N.shiftr v 4))])
            | 2 => a2b_loop rest 3 (N.land v 3) 0
                     (bin_data ++ [byte_of_N (N.lor (N.shiftl leftchar 4) (N.shiftr v 2))])
            | _ => a2b_loop rest 0 0 0
                     (bin_data ++ [byte_of_N (N.lor (N.shiftl leftchar 6) v)])
            end
        end
  end.

Definition is_ascii (c : ascii) : bool := N_of_ascii c <? 128.

(** The 256 byte values, for properties decided by enumeration. *)
Definition all_bytes : list byte :=
  List.map (fun n => byte_of_N (N.of_nat n)) (seq 0 256).

Definition forall_byte (P : byte -> bool) : bool := forallb P all_bytes.

(** The middle six-bit values the encoder emits for a group. *)
Definition s2 (a b : byte) : N :=
  N.lor (N.shiftl (N.land (Byte.to_N a) 3) 4) (N.shiftr (Byte.to_N b) 4).
Definition s3 (b c : byte) : N :=
  N.lor (N.shiftl (N.land (Byte.to_N b) 15) 2) (N.shiftr (Byte.to_N c) 6).

(** The check behind the digit table: an index below 64 names an ASCII
    character other than the pad that the inverse table maps back. *)
Definition digit_ok (b : byte) : bool :=
  let n := Byte.to_N b in
  let c := table_b2a n in
  if n <? 64 then
    negb (Ascii.eqb c BASE64_PAD) && is_ascii c &&
    match table_a2b c with Some v => v =? n | None => false end
  else true.

Fixpoint all_ascii (s : string) : bool :=
  match s with
  | EmptyString => true
  | String c s' => is_ascii c && all_ascii s'
  end.

(** [b64decode(s)] on a [str]: non-ASCII text is a [ValueError], bad
    padding a [binascii.Error]; both are [None]. *)
Definition b64decode (s : string) : option (list byte) :=
  if all_ascii s then a2b_loop s 0 0 0 [] else None.

End Base64.

(** ** ObjectId ([bson]) *)

Module ObjectId.
Local Open Scope N_scope.

(** An ObjectId is a 96-bit value. *)
Definition t := N.

Definition hexdigit (n : N) : ascii :=
  if n <? 10 then ascii_of_N (48 + n) else ascii_of_N (87 + n).

Definition hexval (c : ascii) : option N :=
  let n := N_of_ascii c in
  if (48 <=? n) && (n <=? 57) then Some (n - 48)
  else if (97 <=? n) && (n <=? 102) then Some (n - 87)
  else if (65 <=? n) && (n <=? 70) then Some (n - 55)
  else None.

Fixpoint to_hex (k : nat) (n : N) : string :=
  match k with
  | O => EmptyString
  | S k' => String (hexdigit ((n / 16 ^ N.of_nat k') mod 16)) (to_hex k' n)
  end.

Fixpoint of_hex (s : string) (acc : N) : option N :=
  match s with
  | EmptyString => Some acc
  | String c s' =>
      match hexval c with
      | Some d => of_hex s' (acc * 16 + d)
      | None => None
      end
  end.

(** [str(oid)]: 24 lower-case hexadecimal digits. *)
Definition str (oid : t) : string := to_hex 24 oid.

(** [ObjectId(s)]: [None] is [bson.errors.InvalidId]. *)
Definition parse (s : string) : option t :=
  if (String.length s =? 24)%nat then of_hex s 0 else None.

Definition limit : N := 16 ^ 24.

End ObjectId.

(** ** Time *)

(** A [datetime] in UTC: microseconds since 1970-01-01T00:00:00Z. *)
Definition datetime := Z.

Definition timedelta := Z.

Definition timedelta_of_minutes (m : Z) : timedelta := m * 60 * 1000000.
Definition timedelta_of_hours (h : Z) : timedelta := timedelta_of_minutes (h * 60).

(** [calendar.timegm(d.utctimetuple())]: whole seconds since the epoch. *)
Definition timegm (d : datetime) : Z := d / 1000000.

(** [datetime.min] and [datetime.max]: the first microsecond of year 1
    and the last of year 9999. *)
Definition DATETIME_MIN : Z := -62135596800 * 1000000.
Definition DATETIME_MAX : Z := 253402300799 * 1000000 + 999999.

(** A point in time that a Python [datetime] can hold. *)
Definition representable (d : Z) : Prop := DATETIME_MIN <= d <= DATETIME_MAX.

(** A date as the store keeps and compares it: whole milliseconds since
    the epoch. *)
Definition millis (d : datetime) : Z := d / 1000.

(** Two points in time that are the same date to the store. *)
Definition same_millisecond (a b : datetime) : Prop := millis a = millis b.

(** ** JSON Web Tokens (python-jose) *)

(** The claims this program writes and reads. *)
Record Claims := mkClaims {
  sub : option string;
  exp : option Z          (* NumericDate, whole seconds *)
}.

(** A bearer token string is either not a compact JWS at all, or carries a
    header algorithm, a claim set and a signature. *)
Inductive Token :=
| Garbage (raw : string)
| JWS (alg : string) (claims : Claims) (signature : N).

(** The subclasses of [jose.JWTError] that [jwt.decode] can raise here. *)
Inductive JWTError :=
| JWSError                 (* malformed token, wrong algorithm, bad signature *)
| ExpiredSignatureError.

(** ** HTTP outcomes *)

Inductive Exn :=
| HTTPException (status_code : Z) (detail : string)
| RequestValidationError                  (* FastAPI's 422 *)
| Unhandled (exception : string).         (* any other exception *)

(** The status line FastAPI answers with. *)
Definition status_of (e : Exn) : Z :=
  match e with
  | HTTPException c _ => c
  | RequestValidationError => 422
  | Unhandled _ => 500
  end.

(** ** Process configuration and opaque library calls *)

Class Env := {
  (** [os.getenv("JWT_SECRET", ...)] *)
  SECRET_KEY : string;
  (** [os.getenv("ADMIN_EMAIL", ...)] *)
  ADMIN_EMAIL : string;
  (** [os.getenv("STUDIO_EMAIL", ...)] *)
  STUDIO_EMAIL : string;
  (** HMAC-SHA256 of a claim set under a key. *)
  hs256 : string -> Claims -> N;
  (** [pwd_context.verify(password, ADMIN_HASHED_PASSWORD)]: [None] when
      the hash library raises instead of answering, as it does on a
      password beyond its size limit. *)
  verify_admin_password : string -> option bool;
  (** pydantic's [EmailStr]: the normalised address, or a validation error. *)
  validate_email : string -> option string;
  (** [datetime.fromisoformat]: [None] stands for [ValueError]. *)
  fromisoformat : string -> option datetime;
  (** The store's regular expressions under option [i], wherever [Regex]
      below gives no meaning of its own: whether the server accepts a
      pattern, *)
  regex_accepted : string -> bool;
  (** and whether an accepted pattern matches somewhere in a text. *)
  regex_search_i : string -> string -> bool;
  (** The order the store gives to documents with equal sort keys, which
      is its own and may change from call to call: the rank, at the call
      issued after [n] others, of the document with a given id. *)
  tie_rank : nat -> N -> N
}.

Definition ALGORITHM : string := "HS256".
Definition ACCESS_TOKEN_EXPIRE_MINUTES : Z := 60 * 12.

(** ** Regular expressions of the store's [$regex] operator

    Only a fragment is given a meaning here: patterns of literal
    characters, the wildcard [.] and backslash-escaped punctuation,
    matched against printable ASCII text, where ignoring case is the
    ASCII folding. Every other use of a metacharacter is [Unsupported],
    and what the store makes of it, and of text with other characters, is
    left to the environment. *)

Module Regex.

Inductive atom :=
| Lit (c : ascii)
| AnyChar.

Inductive compiled :=
| Compiled (pat : list atom)
| Unsupported.

Definition metachars : string := "\^$.[]|()?*+{}".

Fixpoint mem_ascii (c : ascii) (s : string) : bool :=
  match s with
  | EmptyString => false
  | String d s' => Ascii.eqb c d || mem_ascii c s'
  end.

Definition is_meta (c : ascii) : bool := mem_ascii c metachars.

(** The printable characters of ASCII, space to tilde. *)
Definition printable_char (c : ascii) : bool :=
  ((32 <=? N_of_ascii c) && (N_of_ascii c <=? 126))%N.

Fixpoint printable (s : string) : bool :=
  match s with
  | EmptyString => true
  | String c s' => printable_char c && printable s'
  end.

(** No character of [s] is a metacharacter. *)
Fixpoint plain (s : string) : bool :=
  match s with
  | EmptyString => true
  | String c s' => negb (is_meta c) && plain s'
  end.

Definition cons_atom (a : atom) (r : compiled) : compiled :=
  match r with
  | Compiled pat => Compiled (a :: pat)
  | Unsupported => Unsupported
  end.

Fixpoint compile (s : string) : compiled :=
  match s with
  | EmptyString => Compiled []
  | String c s' =>
      if Ascii.eqb c "."%char then cons_atom AnyChar (compile s')
      else if Ascii.eqb c "\"%char then
        match s' with
        | String e s'' => if is_meta e then cons_atom (Lit e) (compile s'') else Unsupported
        | EmptyString => Unsupported
        end
      else if is_meta c then Unsupported
      else cons_atom (Lit c) (compile s')
  end.


Definition newline : ascii := ascii_of_N 10.

(** One atom against one character of printable text, under option [i]. *)
Definition atom_matches (a : atom) (c : ascii) : bool :=
  match a with
  | Lit l => Ascii.eqb (Str.lower_ascii l) (Str.lower_ascii c)
  | AnyChar => negb (Ascii.eqb c newline)
  end.

(** The pattern matches a prefix of the subject. *)
Fixpoint match_here (pat : list atom) (s : string) : bool :=
  match pat, s with
  | [], _ => true
  | _ :: _, EmptyString => false
  | a :: pat', String c s' => atom_matches a c && match_here pat' s'
  end.

(** The pattern matches somewhere in the subject (unanchored search). *)
Fixpoint search (pat : list atom) (s : string) : bool :=
  match_here pat s ||
  match s with
  | EmptyString => false
  | String _ s' => search pat s'
  end.

End Regex.

(** ** Documents ([src/schemas.py] and the dictionaries built in [src/main.py]) *)

Inductive Status := Pending | InReview | Approved | Completed.

Definition Status_str (s : Status) : string :=
  match s with
  | Pending => "Pending"
  | InReview => "In Review"
  | Approved => "Approved"
  | Completed => "Completed"
  end.

(** The pydantic model [Submission]. *)
Record Submission := mkSubmission {
  name : string;
  email : string;
  novel_title : string;
  synopsis : string;
  message : option string;
  file_url : option string;
  file_key : option string;
  status : Status;
  notes : list string;
  submitted_at : option datetime
}.

(** A document of collection [submission]: the dumped model, and the
    [updated_at] field that only [update_submission] sets. *)
Record SubmissionDoc := mkSubmissionDoc {
  model : Submission;
  updated_at : option datetime
}.

(** A document of collection [submission_files]. *)
Record StoredFile := mkStoredFile {
  filename : string;
  content_b64 : string;
  mime : option string
}.

(** A document of collection [notifications]. *)
Record NotificationLog := mkNotificationLog {
  type : string;
  to : string;
  subject : string;
  payload : Submission;
  created_at : datetime
}.

(** [UploadFile] *)
Record UploadFile := mkUploadFile {
  upload_filename : string;
  upload_content : list byte;
  content_type : option string
}.

(** The pydantic model [UpdateSubmission]. *)
Record UpdateSubmission := mkUpdateSubmission {
  new_status : option Status;
  add_note : option string
}.

(** ** The document store *)

Record DB := mkDB {
  submission : gmap N SubmissionDoc;
  submission_files : gmap N StoredFile;
  notifications : gmap N NotificationLog;
  next_id : N                       (* the next ObjectId the store hands out *)
}.

(** Calls issued to the store. *)
Inductive StoreOp :=
| Call_insert_one (collection : string) (id : N)
| Call_find_one (collection : string) (id : N)
| Call_count_documents (collection : string)
| Call_find (collection : string)
| Call_update_one (collection : string) (id : N)
| Call_delete_one (collection : string) (id : N).

Record World := mkWorld {
  db : DB;
  calls : list StoreOp
}.

(** ** The handler monad: state over [World], exceptions in [Exn] *)

Definition M (A : Type) : Type := World -> (Exn + A) * World.

Definition ret {A} (a : A) : M A := fun w => (inr a, w).

Definition raise {A} (e : Exn) : M A := fun w => (inl e, w).

Definition bind {A B} (m : M A) (k : A -> M B) : M B :=
  fun w =>
    match m w with
    | (inr a, w') => k a w'
    | (inl e, w') => (inl e, w')
    end.

Notation "x <- m ;; k" := (bind m (fun x => k))
  (at level 100, m at next level, right associativity).
Notation "m ;;; k" := (bind m (fun _ => k))
  (at level 100, right associativity).

(** Lift a pure computation that may raise. *)
Definition lift {A} (r : Exn + A) : M A := fun w => (r, w).

(** Evaluate an [Optional] that raises [e] when absent. *)
Definition or_raise {A} (o : option A) (e : Exn) : M A :=
  match o with
  | Some a => ret a
  | None => raise e
  end.

Definition log (op : StoreOp) : M unit :=
  fun w => (inr tt, mkWorld (db w) (calls w ++ [op])).

Definition get_db : M DB := fun w => (inr (db w), w).

Definition put_db (d : DB) : M unit := fun w => (inr tt, mkWorld d (calls w)).

(** ** Collections and the store calls of [pymongo] *)

Record Coll (D : Type) := mkColl {
  coll_name : string;
  coll_get : DB -> gmap N D;
  coll_set : gmap N D -> DB -> DB
}.
Arguments coll_name {D}.
Arguments coll_get {D}.
Arguments coll_set {D}.

Definition submission_coll : Coll SubmissionDoc :=
  mkColl _ "submission" submission
    (fun m d => mkDB m (submission_files d) (notifications d) (next_id d)).

Definition submission_files_coll : Coll StoredFile :=
  mkColl _ "submission_files" submission_files
    (fun m d => mkDB (submission d) m (notifications d) (next_id d)).

Definition notifications_coll : Coll NotificationLog :=
  mkColl _ "notifications" notifications
    (fun m d => mkDB (submission d) (submission_files d) m (next_id d)).

Definition bump_id (d : DB) : DB :=
  mkDB (submission d) (submission_files d) (notifications d) (next_id d + 1)%N.

(** Modelled from the spec: [create_document] of the repository's
    [database] module, which is not among the sources. The spec gives it
    as "create(collection, record) -> id": the record is stored in the
    named collection under an identifier assigned by the store, and that
    identifier is returned, as a string. *)
Definition create_document {D} (c : Coll D) (data : D) : M string :=
  d <- get_db;;
  let oid := next_id d in
  log (Call_insert_one (coll_name c) oid);;;
  put_db (bump_id (coll_set c (<[oid := data]> (coll_get c d)) d));;;
  ret (ObjectId.str oid).

(** [db[c].find_one({"_id": oid})] *)
Definition find_one {D} (c : Coll D) (oid : N) : M (option D) :=
  log (Call_find_one (coll_name c) oid);;;
  d <- get_db;;
  ret (coll_get c d !! oid).

(** [db[c].update_one({"_id": oid}, update)]: nothing happens when no
    document has that id. *)
Definition update_one {D} (c : Coll D) (oid : N) (update : D -> D) : M unit :=
  log (Call_update_one (coll_name c) oid);;;
  d <- get_db;;
  put_db (coll_set c (alter update oid (coll_get c d)) d).

(** [db[c].delete_one({"_id": oid})] *)
Definition delete_one {D} (c : Coll D) (oid : N) : M unit :=
  log (Call_delete_one (coll_name c) oid);;;
  d <- get_db;;
  put_db (coll_set c (delete oid (coll_get c d)) d).

(** The documents of a collection a filter selects. A filter the server
    cannot evaluate makes the call fail. *)
Definition select {D} (c : Coll D) (p : D -> bool) (d : DB) : list (N * D) :=
  List.filter (fun kv => p (snd kv)) (map_to_list (coll_get c d)).

(** [db[c].count_documents(query)] *)
Definition count_documents {D} (c : Coll D) (query : Exn + (D -> bool)) : M Z :=
  log (Call_count_documents (coll_name c));;;
  p <- lift query;;
  d <- get_db;;
  ret (Z.of_nat (length (select c p d))).

(** Ordering of sort keys: a missing value sorts below every date. *)
Definition key_leb (a b : option Z) : bool :=
  match a, b with
  | None, _ => true
  | Some _, None => false
  | Some x, Some y => x <=? y
  end.

Fixpoint insert_desc {D} (key : D -> option Z) (x : N * D) (l : list (N * D)) : list (N * D) :=
  match l with
  | [] => [x]
  | y :: l' =>
      if key_leb (key (snd x)) (key (snd y)) then y :: insert_desc key x l'
      else x :: l
  end.

(** [.sort(key, -1)] of documents that come in the order [l]. *)
Definition sort_desc {D} (key : D -> option Z) (l : list (N * D)) : list (N * D) :=
  fold_right (insert_desc key) [] l.

Fixpoint insert_rank {D} (rank : N -> N) (x : N * D) (l : list (N * D)) : list (N * D) :=
  match l with
  | [] => [x]
  | y :: l' =>
      if (rank (fst y) <=? rank (fst x))%N then y :: insert_rank rank x l'
      else x :: l
  end.

(** The documents [l] in the order that a ranking of their ids gives. *)
Definition store_order {D} (rank : N -> N) (l : list (N * D)) : list (N * D) :=
  fold_right (insert_rank rank) [] l.

(** The number of calls the store has received. *)
Definition call_count : M nat := fun w => (inr (length (calls w)), w).

(** [x] may stand before [y] in a listing sorted on [key], newest first. *)
Definition before {D} (key : D -> option Z) (x y : N * D) : Prop :=
  key_leb (key (snd y)) (key (snd x)) = true.

(** [.skip(n).limit(m)] once the cursor is read: a limit of [0] is no
    limit, a negative limit counts by its absolute value. *)
Definition window {A} (skip limit : Z) (l : list A) : list A :=
  let skipped := drop (Z.to_nat skip) l in
  if limit =? 0 then skipped else take (Z.to_nat (Z.abs limit)) skipped.

(** [db[c].find(query).sort(key, -1).skip(skip).limit(limit)], iterated.
    [skip] rejects a negative count before anything is sent. Documents
    with equal keys come in the order the store has for them at this
    call. *)
Definition find_sorted {E : Env} {D} (c : Coll D) (query : Exn + (D -> bool))
           (key : D -> option Z) (skip limit : Z) : M (list (N * D)) :=
  (if skip <? 0 then raise (Unhandled "ValueError") else ret tt);;;
  n <- call_count;;
  log (Call_find (coll_name c));;;
  p <- lift query;;
  d <- get_db;;
  ret (window skip limit (sort_desc key (store_order (tie_rank n) (select c p d)))).

(** ** Requests and responses *)

Record SubmitResponse := mkSubmitResponse {
  success : bool;
  id : string
}.

Record FileResponse := mkFileResponse {
  body : list byte;
  media_type : string
}.

Record TokenResponse := mkTokenResponse {
  access_token : Token;
  token_type : string
}.

Record Item := mkItem {
  item_id : string;
  item_doc : SubmissionDoc
}.

Record ListResponse := mkListResponse {
  items : list Item;
  total : Z;
  page : Z;
  page_size : Z
}.

(** The acknowledgment [{"success": True}]. *)
Record Ack := mkAck { ack_success : bool }.

(** The filter document [list_submissions] builds. *)
Record Query := mkQuery {
  query_status : option string;
  query_or_regex : option string;
  query_submitted_at : option (option datetime * option datetime)
}.

(** The form fields of [POST /api/submit] as they arrive: [None] is a
    field that was not sent. *)
Record SubmitForm := mkSubmitForm {
  form_name : option string;
  form_email : option string;
  form_novel_title : option string;
  form_synopsis : option string;
  form_message : option string;
  form_file : option UploadFile
}.

Section Api.
Context {E : Env}.

(** [jwt.encode(claims, key, algorithm)]. A [datetime] under ["exp"] has
    already been converted with [timegm] by the caller below, as
    python-jose does on entry. *)
Definition jwt_encode (claims : Claims) (key : string) (algorithm : string) : Token :=
  JWS algorithm claims (hs256 key claims).

(** [jwt.decode(token, key, algorithms)] evaluated at time [now]:
    signature first, then the expiry ([exp < now] is expired). *)
Definition jwt_decode (now : datetime) (token : Token) (key : string)
           (algorithms : list string) : JWTError + Claims :=
  match token with
  | Garbage _ => inl JWSError
  | JWS alg claims sig =>
      if negb (existsb (String.eqb alg) algorithms) then inl JWSError
      else if negb (N.eqb sig (hs256 key claims)) then inl JWSError
      else match exp claims with
           | Some e => if e <? timegm now then inl ExpiredSignatureError
                       else inr claims
           | None => inr claims
           end
  end.

Definition verify_password (plain_password : string) : option bool :=
  verify_admin_password plain_password.

Record Admin := mkAdmin { admin_email : string }.

(** [authenticate_admin]: the password is verified only once the address
    has matched, and an exception of the verification is the caller's. *)
Definition authenticate_admin (email password : string) : Exn + option Admin :=
  if String.eqb (Str.lower email) (Str.lower ADMIN_EMAIL) then
    match verify_password password with
    | Some true => inr (Some (mkAdmin ADMIN_EMAIL))
    | Some false => inr None
    | None => inl (Unhandled "PasswordSizeError")
    end
  else inr None.

(** [create_access_token(data, expires_delta)] called at time [now].
    [expires_delta or timedelta(...)]: a zero delta is falsy. The sum
    [now + delta] is the one of the integers: it is the code's as long as
    it is [representable], beyond which Python raises [OverflowError]
    where this definition still gives a token. *)
Definition create_access_token (now : datetime) (data : Claims)
           (expires_delta : option timedelta) : Token :=
  let delta :=
    match expires_delta with
    | Some d => if d =? 0 then timedelta_of_minutes ACCESS_TOKEN_EXPIRE_MINUTES else d
    | None => timedelta_of_minutes ACCESS_TOKEN_EXPIRE_MINUTES
    end in
  let expire := now + delta in
  let to_encode := mkClaims (sub data) (Some (timegm expire)) in
  jwt_encode to_encode SECRET_KEY ALGORITHM.

Definition credentials_exception : Exn :=
  HTTPException 401 "Could not validate credentials".

(** The ways a bearer token fails validation at time [now]: it is not a
    signed token of this server (malformed, other algorithm, signature
    not made with the secret), it is expired, it has no subject, or its
    subject is not the admin's address. *)
Inductive invalid_token (now : datetime) : Token -> Prop :=
| invalid_malformed raw :
    invalid_token now (Garbage raw)
| invalid_algorithm alg c s :
    alg <> ALGORITHM -> invalid_token now (JWS alg c s)
| invalid_signature alg c s :
    s <> hs256 SECRET_KEY c -> invalid_token now (JWS alg c s)
| invalid_expired alg c s e :
    exp c = Some e -> e < timegm now -> invalid_token now (JWS alg c s)
| invalid_no_subject alg c s :
    sub c = None -> invalid_token now (JWS alg c s)
| invalid_wrong_subject alg c s address :
    sub c = Some address -> Str.lower address <> Str.lower ADMIN_EMAIL ->
    invalid_token now (JWS alg c s).

(** [get_current_admin(token)] evaluated at time [now]. *)
Definition get_current_admin (now : datetime) (token : Token) : Exn + Admin :=
  match jwt_decode now token SECRET_KEY [ALGORITHM] with
  | inr payload =>
      match sub payload with
      | None => inl credentials_exception
      | Some email =>
          if negb (String.eqb (Str.lower email) (Str.lower ADMIN_EMAIL))
          then inl credentials_exception
          else inr (mkAdmin ADMIN_EMAIL)
      end
  | inl _ => inl credentials_exception
  end.


(** [Depends(oauth2_scheme)]: the bearer token of the request. *)
Definition oauth2_scheme (authorization : option Token) : Exn + Token :=
  match authorization with
  | Some token => inr token
  | None => inl (HTTPException 401 "Not authenticated")
  end.

(** [admin=Depends(get_current_admin)] of the admin routes. *)
Definition depends_admin (now : datetime) (authorization : option Token) : M Admin :=
  lift (match oauth2_scheme authorization with
        | inr token => get_current_admin now token
        | inl e => inl e
        end).

(** [Submission(...)] as [submit_project] calls it: [status] and [notes]
    take their defaults, [EmailStr] validates and normalises [email].
    [None] is pydantic's [ValidationError]. *)
Definition Submission_new (name email novel_title synopsis : string)
           (message file_url file_key : option string)
           (submitted_at : datetime) : option Submission :=
  match validate_email email with
  | Some address =>
      Some (mkSubmission name address novel_title synopsis message
              file_url file_key Pending [] (Some submitted_at))
  | None => None
  end.

Definition MAX_UPLOAD : Z := 10 * 1024 * 1024.

(** [x or default] on an [Optional[str]]. *)
Definition str_or (x : option string) (default : string) : string :=
  match x with
  | Some s => if Str.truthy s then s else default
  | None => default
  end.

(** The [if file is not None:] block of [submit_project]: the pair
    [(file_url, file_key)]. *)
Definition store_upload (file : option UploadFile) : M (option string * option string) :=
  match file with
  | None => ret (None, None)
  | Some file =>
      if negb (Str.endswith ".pdf" (Str.lower (upload_filename file)))
      then raise (HTTPException 400 "Only PDF uploads are allowed")
      else
        let content := upload_content file in
        if MAX_UPLOAD <? Z.of_nat (length content)
        then raise (HTTPException 400 "File too large (max 10MB in demo)")
        else
          let encoded := Base64.b64encode content in
          file_key <- create_document submission_files_coll
                        (mkStoredFile (upload_filename file) encoded
                           (Some (str_or (content_type file) "application/pdf")));;
          ret (Some ("/api/files/" +:+ file_key), Some file_key)
  end.

(** [submit_project]; [now] is the clock when the model is built,
    [now_logged] when the notification is written. *)
Definition submit_project (now now_logged : datetime)
           (name email novel_title synopsis : string)
           (message : option string) (file : option UploadFile) : M SubmitResponse :=
  keys <- store_upload file;;
  data <- or_raise (Submission_new name email novel_title synopsis message
                      (fst keys) (snd keys) now)
                   (Unhandled "ValidationError");;
  inserted_id <- create_document submission_coll (mkSubmissionDoc data None);;
  create_document notifications_coll
    (mkNotificationLog "new_submission" STUDIO_EMAIL
       ("New Submission: " +:+ novel_title) data now_logged);;;
  ret (mkSubmitResponse true inserted_id).

(** A required [str = Form(...)] parameter: FastAPI reports a form field
    that is absent, or present with the empty string, as missing. *)
Definition Form_required (value : option string) : option string :=
  match value with
  | Some s => if Str.truthy s then Some s else None
  | None => None
  end.

(** An [Optional[str] = Form(None)] parameter: the same test yields the
    default. *)
Definition Form_optional (value : option string) : option string :=
  Form_required value.

(** [POST /api/submit]: parameter binding, then the handler. *)
Definition post_api_submit (now now_logged : datetime) (form : SubmitForm)
  : M SubmitResponse :=
  match Form_required (form_name form), Form_required (form_email form),
        Form_required (form_novel_title form), Form_required (form_synopsis form) with
  | Some name, Some email, Some novel_title, Some synopsis =>
      submit_project now now_logged name email novel_title synopsis
        (Form_optional (form_message form)) (form_file form)
  | _, _, _, _ => raise RequestValidationError
  end.

(** [get_file] *)
Definition get_file (file_id : string) : M FileResponse :=
  oid <- or_raise (ObjectId.parse file_id) (Unhandled "InvalidId");;
  doc <- find_one submission_files_coll oid;;
  match doc with
  | None => raise (HTTPException 404 "File not found")
  | Some doc =>
      content <- or_raise (Base64.b64decode (content_b64 doc)) (Unhandled "binascii.Error");;
      ret (mkFileResponse content (default "application/pdf" (mime doc)))
  end.

(** [admin_login] *)
Definition admin_login (now : datetime) (username password : string)
  : Exn + TokenResponse :=
  match authenticate_admin username password with
  | inl e => inl e
  | inr None => inl (HTTPException 401 "Invalid credentials")
  | inr (Some user) =>
      inr (mkTokenResponse
             (create_access_token now (mkClaims (Some (admin_email user)) None) None)
             "bearer")
  end.

(** A date bound of [list_submissions]: parsed only when truthy. *)
Definition parse_bound (s : option string) : Exn + option datetime :=
  match s with
  | Some text =>
      if Str.truthy text then
        match fromisoformat text with
        | Some d => inr (Some d)
        | None => inl (Unhandled "ValueError")
        end
      else inr None
  | None => inr None
  end.

(** The [query] dictionary of [list_submissions]. *)
Definition build_query (q status start_date end_date : option string) : Exn + Query :=
  let query_status := if Str.opt_truthy status then status else None in
  let query_or := if Str.opt_truthy q then q else None in
  if Str.opt_truthy start_date || Str.opt_truthy end_date then
    match parse_bound start_date with
    | inl e => inl e
    | inr gte =>
        match parse_bound end_date with
        | inl e => inl e
        | inr lte =>
            match gte, lte with
            | None, None => inr (mkQuery query_status query_or None)
            | _, _ => inr (mkQuery query_status query_or (Some (gte, lte)))
            end
        end
    end
  else inr (mkQuery query_status query_or None).

(** [{'$gte': lo, '$lte': hi}] on a date field, dates being compared as
    the store keeps them; a missing date matches no range. *)
Definition in_range (bounds : option datetime * option datetime) (d : option datetime) : bool :=
  match d with
  | None => false
  | Some t =>
      match fst bounds with Some lo => millis lo <=? millis t | None => true end &&
      match snd bounds with Some hi => millis t <=? millis hi | None => true end
  end.

(** [{'$regex': pattern, '$options': 'i'}] as the store reads it: the test
    it makes on a text, or the failure of the call when the server does
    not accept the pattern. A printable pattern of the fragment has the
    meaning [Regex] gives it on printable text; everything else is the
    environment's. *)
Definition regex_i (pattern : string) : Exn + (string -> bool) :=
  match (if Regex.printable pattern then Regex.compile pattern else Regex.Unsupported) with
  | Regex.Compiled pat =>
      inr (fun text => if Regex.printable text then Regex.search pat text
                       else regex_search_i pattern text)
  | Regex.Unsupported =>
      if regex_accepted pattern then inr (regex_search_i pattern)
      else inl (Unhandled "OperationFailure")
  end.

(** What the store makes of a [Query]: a predicate on documents, or the
    failure of the call when the server does not accept the pattern. *)
Definition interpret (query : Query) : Exn + (SubmissionDoc -> bool) :=
  match
    match query_or_regex query with
    | None => inr None
    | Some pattern =>
        match regex_i pattern with
        | inr matches => inr (Some matches)
        | inl e => inl e
        end
    end
  with
  | inl e => inl e
  | inr regex =>
      (* the pattern on each of the three fields, any of which may match *)
      inr (fun doc =>
             let m := model doc in
             match query_status query with
             | Some s => String.eqb (Status_str (status m)) s
             | None => true
             end &&
             match regex with
             | Some matches => matches (name m) || matches (email m)
                               || matches (novel_title m)
             | None => true
             end &&
             match query_submitted_at query with
             | Some bounds => in_range bounds (submitted_at m)
             | None => true
             end)
  end.

Definition to_item (kv : N * SubmissionDoc) : Item :=
  mkItem (ObjectId.str (fst kv)) (snd kv).

(** The key of [.sort('submitted_at', -1)]: the date as the store keeps
    it. *)
Definition sort_key (doc : SubmissionDoc) : option Z :=
  option_map millis (submitted_at (model doc)).

(** [list_submissions] *)
Definition list_submissions (now : datetime) (authorization : option Token)
           (page page_size : Z) (q status start_date end_date : option string)
  : M ListResponse :=
  depends_admin now authorization;;;
  query <- lift (build_query q status start_date end_date);;
  total <- count_documents submission_coll (interpret query);;
  cursor <- find_sorted submission_coll (interpret query) sort_key
              ((page - 1) * page_size) page_size;;
  ret (mkListResponse (List.map to_item cursor) total page page_size).

(** [get_submission] *)
Definition get_submission (now : datetime) (authorization : option Token)
           (submission_id : string) : M Item :=
  depends_admin now authorization;;;
  oid <- or_raise (ObjectId.parse submission_id) (Unhandled "InvalidId");;
  doc <- find_one submission_coll oid;;
  match doc with
  | None => raise (HTTPException 404 "Not found")
  | Some doc => ret (to_item (oid, doc))
  end.

(** [{"$push": {"notes": note}}] *)
Definition push_note (note : string) (doc : SubmissionDoc) : SubmissionDoc :=
  let m := model doc in
  mkSubmissionDoc
    (mkSubmission (name m) (email m) (novel_title m) (synopsis m) (message m)
       (file_url m) (file_key m) (status m) (notes m ++ [note]) (submitted_at m))
    (updated_at doc).

(** [{"$set": updates}] with [updates] holding [updated_at] and, when
    given, [status]. *)
Definition set_updates (now : datetime) (new : option Status) (doc : SubmissionDoc)
  : SubmissionDoc :=
  let m := model doc in
  mkSubmissionDoc
    (mkSubmission (name m) (email m) (novel_title m) (synopsis m) (message m)
       (file_url m) (file_key m)
       (match new with Some s => s | None => status m end)
       (notes m) (submitted_at m))
    (Some now).

(** [update_submission] *)
Definition update_submission (now : datetime) (authorization : option Token)
           (submission_id : string) (payload : UpdateSubmission) : M Ack :=
  depends_admin now authorization;;;
  (if Str.opt_truthy (add_note payload) then
     oid <- or_raise (ObjectId.parse submission_id) (Unhandled "InvalidId");;
     update_one submission_coll oid (push_note (default "" (add_note payload)))
   else ret tt);;;
  oid <- or_raise (ObjectId.parse submission_id) (Unhandled "InvalidId");;
  update_one submission_coll oid (set_updates now (new_status payload));;;
  ret (mkAck true).

(** [delete_submission] *)
Definition delete_submission (now : datetime) (authorization : option Token)
           (submission_id : string) : M Ack :=
  depends_admin now authorization;;;
  oid <- or_raise (ObjectId.parse submission_id) (Unhandled "InvalidId");;
  delete_one submission_coll oid;;;
  ret (mkAck true).

(** [download_submission_pdf] *)
Definition download_submission_pdf (now : datetime) (authorization : option Token)
           (submission_id : string) : M FileResponse :=
  depends_admin now authorization;;;
  oid <- or_raise (ObjectId.parse submission_id) (Unhandled "InvalidId");;
  doc <- find_one submission_coll oid;;
  match doc with
  | None => raise (HTTPException 404 "File not found")
  | Some doc =>
      if Str.opt_truthy (file_key (model doc))
      then get_file (default "" (file_key (model doc)))
      else raise (HTTPException 404 "File not found")
  end.

(** *** Vocabulary of the properties below *)

(** The filename test of [submit_project]. *)
Definition is_pdf (file : UploadFile) : bool :=
  Str.endswith ".pdf" (Str.lower (upload_filename file)).

(** The document [store_upload] writes for an accepted file. *)
Definition stored_file_of (file : UploadFile) : StoredFile :=
  mkStoredFile (upload_filename file) (Base64.b64encode (upload_content file))
    (Some (str_or (content_type file) "application/pdf")).

(** The world after one [create_document]. *)
Definition created {D} (c : Coll D) (data : D) (w : World) : World :=
  mkWorld (bump_id (coll_set c (<[next_id (db w) := data]> (coll_get c (db w))) (db w)))
          (calls w ++ [Call_insert_one (coll_name c) (next_id (db w))]).





(** The submissions a filter selects, newest first, as the store lists
    them at the call issued after [n] others. *)
Definition listing (n : nat) (p : SubmissionDoc -> bool) (d : DB)
  : list (N * SubmissionDoc) :=
  sort_desc sort_key (store_order (tie_rank n) (select submission_coll p d)).

(** A date bound that is given, not empty, and not ISO-8601. *)
Definition unparseable (s : option string) : Prop :=
  exists text, s = Some text /\ text <> EmptyString /\ fromisoformat text = None.

End Api.

(** ** A concrete environment

    The defaults of the source's [os.getenv] calls, with small executable
    stand-ins for the library calls, so that the model can be run. *)

Module Demo.

Fixpoint checksum (s : string) (acc : N) : N :=
  match s with
  | EmptyString => acc
  | String c s' => checksum s' ((acc * 31 + N_of_ascii c) mod 4294967296)%N
  end.

(** A keyed checksum standing in for HMAC-SHA256. *)
Definition mac (key : string) (c : Claims) : N :=
  checksum key
    (checksum (default "" (sub c))
       (match exp c with Some e => Z.to_N (e mod 4294967296) + 1 | None => 0 end)%N).

(** The part of [s] before the first occurrence of [c], and the part
    after it. *)
Fixpoint split_at (c : ascii) (s : string) : option (string * string) :=
  match s with
  | EmptyString => None
  | String d s' =>
      if Ascii.eqb c d then Some (EmptyString, s')
      else match split_at c s' with
           | Some (l, r) => Some (String d l, r)
           | None => None
           end
  end.

(** A stand-in for the e-mail validator: [local@domain] with a dot in
    the domain; the domain is lower-cased. *)
Definition check_email (s : string) : option string :=
  match split_at "@"%char s with
  | Some (l, r) =>
      if Str.truthy l && Str.contains "." r && negb (Str.contains "@" r)
      then Some (l +:+ "@" +:+ Str.lower r)
      else None
  | None => None
  end.

Definition digit_val (c : ascii) : option Z :=
  let n := N_of_ascii c in
  if ((48 <=? n) && (n <=? 57))%N then Some (Z.of_N n - 48) else None.

Fixpoint number (s : string) (acc : Z) : option Z :=
  match s with
  | EmptyString => Some acc
  | String c s' =>
      match digit_val c with
      | Some d => number s' (acc * 10 + d)
      | None => None
      end
  end.

(** Days from 1970-01-01 to a proleptic Gregorian date. *)
Definition days_from_civil (y m d : Z) : Z :=
  let y' := if m <=? 2 then y - 1 else y in
  let era := y' / 400 in
  let yoe := y' - era * 400 in
  let doy := (153 * (if 2 <? m then m - 3 else m + 9) + 2) / 5 + d - 1 in
  let doe := yoe * 365 + yoe / 4 - yoe / 100 + doy in
  era * 146097 + doe - 719468.

(** A stand-in for [datetime.fromisoformat]: dates written [YYYY-MM-DD]. *)
Definition parse_date (s : string) : option datetime :=
  if (String.length s =? 10)%nat
     && Ascii.eqb (default " "%char (String.get 4 s)) "-"%char
     && Ascii.eqb (default " "%char (String.get 7 s)) "-"%char
  then
    match number (String.substring 0 4 s) 0, number (String.substring 5 2 s) 0,
          number (String.substring 8 2 s) 0 with
    | Some y, Some m, Some d =>
        if (1 <=? m) && (m <=? 12) && (1 <=? d) && (d <=? 31)
        then Some (days_from_civil y m d * 86400 * 1000000)
        else None
    | _, _, _ => None
    end
  else None.

(** A stand-in for the store's regular expressions beyond the fragment
    of [Regex]: it knows the patterns anchored at the start of the text,
    [^] followed by characters that are no metacharacters. *)
Definition anchored (pattern : string) : option string :=
  match pattern with
  | String c rest => if Ascii.eqb c "^"%char && Regex.plain rest then Some rest else None
  | EmptyString => None
  end.

Definition env : Env := {|
  SECRET_KEY := "super-secret-key-change";
  ADMIN_EMAIL := "admin@arstudios.com";
  STUDIO_EMAIL := "studio@arstudios.com";
  hs256 := mac;
  verify_admin_password :=
    (fun password =>
       if (4096 <? String.length password)%nat then None
       else Some (String.eqb "admin1234" password));
  validate_email := check_email;
  fromisoformat := parse_date;
  regex_accepted :=
    (fun pattern => match anchored pattern with Some _ => true | None => false end);
  regex_search_i :=
    (fun pattern text =>
       match anchored pattern with
       | Some rest => Str.startswith (Str.lower rest) (Str.lower text)
       | None => false
       end);
  (* documents with equal keys in the order of their ids *)
  tie_rank := (fun _ oid => oid)
|}.

Definition empty_db : DB := mkDB ∅ ∅ ∅ 1.

Definition empty_world : World := mkWorld empty_db [].

(** 2024-01-01T00:00:00Z *)
Definition t0 : datetime := 1704067200 * 1000000.

Definition pdf : UploadFile :=
  mkUploadFile "Novel.PDF" [x25; x50; x44; x46; x2d; x31; x2e; x37; x0a; xff]
    (Some "application/pdf").

Definition txt : UploadFile :=
  mkUploadFile "novel.pdf.txt" [x68; x69] (Some "text/plain").

(** The token the login route issues at [t0]. *)
Definition token : Token :=
  create_access_token (E := env) t0 (mkClaims (Some "admin@arstudios.com") None) None.

(** The same token with its expiry pushed a day ahead by hand: the
    signature no longer fits. *)
Definition forged : Token :=
  match token with
  | JWS alg c s => JWS alg (mkClaims (sub c) (Some (timegm t0 + 86400 + 43200))) s
  | Garbage raw => Garbage raw
  end.

Definition abc : SubmissionDoc :=
  mkSubmissionDoc
    (mkSubmission "abc" "x@y.org" "T" "S" None None None Pending [] (Some t0)) None.

(** A store holding the single submission [abc]. *)
Definition one_world : World := mkWorld (mkDB {[ 1%N := abc ]} ∅ ∅ 2) [].

End Demo.

(** ** The routes as one service *)

Section Service.
Context {E : Env}.

(** A request to one of the routes of [app]. [GET_root] is [read_root] and
    [GET_test] is [test_database], whose answers are not modelled: of the
    store they only read the collection names. *)
Inductive Request :=
| GET_root
| GET_test
| POST_api_submit (now now_logged : datetime) (form : SubmitForm)
| GET_api_files (file_id : string)
| POST_api_admin_login (now : datetime) (username password : string)
| GET_api_admin_submissions (now : datetime) (authorization : option Token)
    (page page_size : Z) (q status start_date end_date : option string)
| GET_api_admin_submission (now : datetime) (authorization : option Token)
    (submission_id : string)
| PATCH_api_admin_submission (now : datetime) (authorization : option Token)
    (submission_id : string) (payload : UpdateSubmission)
| DELETE_api_admin_submission (now : datetime) (authorization : option Token)
    (submission_id : string)
| GET_api_admin_submission_download (now : datetime) (authorization : option Token)
    (submission_id : string).

(** The world a request leaves behind, whatever it answers. *)
Definition serve (r : Request) (w : World) : World :=
  match r with
  | GET_root => w
  | GET_test => w
  | POST_api_submit now now_logged form => snd (post_api_submit now now_logged form w)
  | GET_api_files file_id => snd (get_file file_id w)
  | POST_api_admin_login _ _ _ => w
  | GET_api_admin_submissions now authorization page page_size q status start_date end_date =>
      snd (list_submissions now authorization page page_size q status start_date end_date w)
  | GET_api_admin_submission now authorization submission_id =>
      snd (get_submission now authorization submission_id w)
  | PATCH_api_admin_submission now authorization submission_id payload =>
      snd (update_submission now authorization submission_id payload w)
  | DELETE_api_admin_submission now authorization submission_id =>
      snd (delete_submission now authorization submission_id w)
  | GET_api_admin_submission_download now authorization submission_id =>
      snd (download_submission_pdf now authorization submission_id w)
  end.

(** Requests served one after the other. *)
Definition serve_all (rs : list Request) (w : World) : World :=
  fold_left (fun w r => serve r w) rs w.

(** *** Vocabulary of the store properties *)

(** A submission has both of [file_url] and [file_key], the URL being the
    path of the key, or neither. *)
Definition linked (m : Submission) : Prop :=
  (file_url m = None /\ file_key m = None) \/
  exists key, file_key m = Some key /\ file_url m = Some ("/api/files/" +:+ key).

(** The single writes the handlers issue: the three inserts of
    [create_document], the two updates of [update_submission] and the
    delete of [delete_submission]. *)
Inductive store_write (d : DB) : DB -> Prop :=
| write_file (f : StoredFile) :
    store_write d
      (bump_id (coll_set submission_files_coll
                  (<[next_id d := f]> (submission_files d)) d))
| write_submission (data : Submission) :
    linked data ->
    store_write d
      (bump_id (coll_set submission_coll
                  (<[next_id d := mkSubmissionDoc data None]> (submission d)) d))
| write_notification (n : NotificationLog) :
    store_write d
      (bump_id (coll_set notifications_coll
                  (<[next_id d := n]> (notifications d)) d))
| write_push (note : string) (oid : N) :
    store_write d
      (coll_set submission_coll (alter (push_note note) oid (submission d)) d)
| write_set (now : datetime) (new : option Status) (oid : N) :
    store_write d
      (coll_set submission_coll (alter (set_updates now new) oid (submission d)) d)
| write_delete (oid : N) :
    store_write d (coll_set submission_coll (delete oid (submission d)) d).

(** No document is stored under an identifier the store has yet to hand
    out. *)
Definition fresh_ids (d : DB) : Prop :=
  forall k : N,
    (next_id d <= k)%N ->
    submission d !! k = None /\ submission_files d !! k = None
    /\ notifications d !! k = None.

(** Every stored submission is [linked]. *)
Definition all_linked (d : DB) : Prop :=
  forall k doc, submission d !! k = Some doc -> linked (model doc).

(** [new] is [old] after admin updates: what the author submitted is the
    same, and the notes have only gained entries at the end. *)
Definition evolves (old new : SubmissionDoc) : Prop :=
  name (model new) = name (model old) /\
  email (model new) = email (model old) /\
  novel_title (model new) = novel_title (model old) /\
  synopsis (model new) = synopsis (model old) /\
  message (model new) = message (model old) /\
  file_url (model new) = file_url (model old) /\
  file_key (model new) = file_key (model old) /\
  submitted_at (model new) = submitted_at (model old) /\
  exists added, notes (model new) = notes (model old) ++ added.

(** The collection [submission] after the writes of [update_submission]. *)
Definition updated_submissions (now : datetime) (payload : UpdateSubmission) (oid : N)
           (m : gmap N SubmissionDoc) : gmap N SubmissionDoc :=
  alter (set_updates now (new_status payload)) oid
    (if Str.opt_truthy (add_note payload)
     then alter (push_note (default EmptyString (add_note payload))) oid m
     else m).


(** [a] may stand before [b] in a newest-first listing: [b] has no date,
    or a date that, as the store keeps it, is not after that of [a]. *)
Definition not_older (a b : Item) : Prop :=
  key_leb (sort_key (item_doc b)) (sort_key (item_doc a)) = true.

End Service.

(** ** A scenario in [Demo.env], for running the properties *)

Module Scenario.

(** One hour after [Demo.t0]. *)
Definition later : datetime := Demo.t0 + timedelta_of_hours 1.

(** A submission with the PDF [Demo.pdf], sent to the empty store. *)
Definition with_pdf : (Exn + SubmitResponse) * World :=
  submit_project (E := Demo.env) Demo.t0 Demo.t0 "Bob" "bob@Example.org" "Title"
    "Synopsis" None (Some Demo.pdf) Demo.empty_world.

(** The same submission without a file. *)
Definition without_file : (Exn + SubmitResponse) * World :=
  submit_project (E := Demo.env) Demo.t0 Demo.t0 "Bob" "bob@Example.org" "Title"
    "Synopsis" None None Demo.empty_world.

(** The same submission with the PDF and an address that does not
    validate. *)
Definition bad_address : (Exn + SubmitResponse) * World :=
  submit_project (E := Demo.env) Demo.t0 Demo.t0 "Bob" "bob" "Title"
    "Synopsis" None (Some Demo.pdf) Demo.empty_world.

(** The identifier of [Demo.abc] in [Demo.one_world]. *)
Definition abc_id : string := ObjectId.str 1%N.

(** An update, a deletion, a further submission and a listing. *)
Definition requests : list Request :=
  [ PATCH_api_admin_submission later (Some Demo.token) abc_id
      (mkUpdateSubmission (Some Approved) (Some "seen"));
    DELETE_api_admin_submission later (Some Demo.token) abc_id;
    POST_api_submit later later
      (mkSubmitForm (Some "Eve") (Some "eve@example.org") (Some "Second")
         (Some "Synopsis") None (Some Demo.pdf));
    GET_api_admin_submissions later (Some Demo.token) 1 10 None None None None ].

(** [Demo.one_world] with a second, older submission that is approved. *)
Definition older : SubmissionDoc :=
  mkSubmissionDoc
    (mkSubmission "old" "o@y.org" "Old" "S" None None None Approved []
       (Some (Demo.t0 - timedelta_of_hours 24))) None.

Definition two_world : World :=
  mkWorld (mkDB {[ 1%N := Demo.abc; 2%N := older ]} ∅ ∅ 3) [].

(** After [with_pdf]: an update and the deletion of the submission it
    stored, a further submission and a listing. *)
Definition after_upload : list Request :=
  [ PATCH_api_admin_submission later (Some Demo.token) (ObjectId.str 2%N)
      (mkUpdateSubmission (Some Approved) (Some "seen"));
    DELETE_api_admin_submission later (Some Demo.token) (ObjectId.str 2%N);
    POST_api_submit later later
      (mkSubmitForm (Some "Eve") (Some "eve@example.org") (Some "Second")
         (Some "Synopsis") None (Some Demo.pdf));
    GET_api_admin_submissions later (Some Demo.token) 1 10 None None None None ].

(** The submission that [requests] adds to [Demo.one_world]. *)
Definition eve : SubmissionDoc :=
  mkSubmissionDoc
    (mkSubmission "Eve" "eve@example.org" "Second" "Synopsis" None
       (Some ("/api/files/" +:+ ObjectId.str 2%N)) (Some (ObjectId.str 2%N))
       Pending [] (Some later)) None.

End Scenario.

(** * Properties *)

(** ** Base64: decoding inverts encoding *)

Module Base64Facts.
Import Base64.
Local Open Scope N_scope.

Lemma byte_of_to_N (b : byte) : byte_of_N (Byte.to_N b) = b.
Proof.
  unfold byte_of_N. pose proof (Byte.to_N_bounded b) as Hb.
  rewrite N.mod_small by lia. now rewrite Byte.of_to_N.
Qed.

Lemma in_all_bytes (b : byte) : In b all_bytes.
Proof.
  unfold all_bytes. apply in_map_iff. exists (Byte.to_nat b). split.
  - rewrite <- Byte.to_N_via_nat. apply byte_of_to_N.
  - apply in_seq. pose proof (Byte.to_nat_bounded b). lia.
Qed.

Lemma forall_byte_spec (P : byte -> bool) :
  forall_byte P = true -> forall b, P b = true.
Proof.
  unfold forall_byte. intros HP b.
  exact (proj1 (forallb_forall P all_bytes) HP b (in_all_bytes b)).
Qed.

(** Decide a property of two bytes by running it on all 65536 pairs. *)
Ltac enumerate2 :=
  let a := fresh "a" in
  intros a; apply forall_byte_spec; destruct a; vm_compute; reflexivity.

Ltac enumerate1 :=
  apply forall_byte_spec; vm_compute; reflexivity.

Lemma first_byte_b (a b : byte) :
  Byte.eqb (byte_of_N (N.lor (N.shiftl (N.land (N.shiftr (Byte.to_N a) 2) 63) 2)
                             (N.shiftr (N.land (s2 a b) 63) 4))) a = true.
Proof. revert a b. enumerate2. Qed.

Lemma second_left_b (a b : byte) :
  N.eqb (N.land (N.land (s2 a b) 63) 15) (N.shiftr (Byte.to_N b) 4) = true.
Proof. revert a b. enumerate2. Qed.

Lemma second_byte_b (b c : byte) :
  Byte.eqb (byte_of_N (N.lor (N.shiftl (N.shiftr (Byte.to_N b) 4) 4)
                             (N.shiftr (N.land (s3 b c) 63) 2))) b = true.
Proof. revert b c. enumerate2. Qed.

Lemma third_left_b (b c : byte) :
  N.eqb (N.land (N.land (s3 b c) 63) 3) (N.shiftr (Byte.to_N c) 6) = true.
Proof. revert b c. enumerate2. Qed.

Lemma third_byte_b :
  forall c : byte,
    Byte.eqb (byte_of_N (N.lor (N.shiftl (N.shiftr (Byte.to_N c) 6) 6)
                               (N.land (N.land (Byte.to_N c) 63) 63))) c = true.
Proof. enumerate1. Qed.

(** The two short tails. *)
Lemma tail1_byte_b :
  forall a : byte,
    Byte.eqb (byte_of_N (N.lor (N.shiftl (N.land (N.shiftr (Byte.to_N a) 2) 63) 2)
                               (N.shiftr (N.land (N.shiftl (N.land (Byte.to_N a) 3) 4) 63) 4)))
             a = true.
Proof. enumerate1. Qed.

Lemma tail2_byte_b :
  forall b : byte,
    Byte.eqb (byte_of_N (N.lor (N.shiftl (N.shiftr (Byte.to_N b) 4) 4)
                               (N.shiftr (N.land (N.shiftl (N.land (Byte.to_N b) 15) 2) 63) 2)))
             b = true.
Proof. enumerate1. Qed.

(** Every digit the encoder emits is an ASCII alphabet character that
    decodes to the six bits it was made from. *)
Lemma digit_ok_all : forall b, digit_ok b = true.
Proof. enumerate1. Qed.

Lemma digit_decodes (n : N) :
  Ascii.eqb (digit n) BASE64_PAD = false /\
  is_ascii (digit n) = true /\
  table_a2b (digit n) = Some (N.land n 63).
Proof.
  unfold digit. set (m := N.land n 63).
  assert (Hm : m < 64).
  { subst m. change 63 with (N.ones 6). rewrite N.land_ones.
    apply N.mod_lt. discriminate. }
  destruct (Byte.of_N m) as [b|] eqn:Hb.
  - apply Byte.to_of_N in Hb. pose proof (digit_ok_all b) as Hok.
    unfold digit_ok in Hok. rewrite Hb in Hok.
    apply N.ltb_lt in Hm. rewrite Hm in Hok.
    apply andb_prop in Hok as [Hok H3]. apply andb_prop in Hok as [H1 H2].
    apply negb_true_iff in H1.
    destruct (table_a2b (table_b2a m)) as [v|]; [|discriminate].
    apply N.eqb_eq in H3. subst v. auto.
  - apply Byte.of_N_None_iff in Hb. lia.
Qed.

(** One loop iteration on a digit. *)
Lemma a2b_loop_digit (n : N) (rest : string) (q l p : N) (out : list byte) :
  a2b_loop (String (digit n) rest) q l p out =
  let v := N.land n 63 in
  match q with
  | 0 => a2b_loop rest 1 v 0 out
  | 1 => a2b_loop rest 2 (N.land v 15) 0
           (out ++ [byte_of_N (N.lor (N.shiftl l 2) (N.shiftr v 4))])
  | 2 => a2b_loop rest 3 (N.land v 3) 0
           (out ++ [byte_of_N (N.lor (N.shiftl l 4) (N.shiftr v 2))])
  | _ => a2b_loop rest 0 0 0 (out ++ [byte_of_N (N.lor (N.shiftl l 6) v)])
  end.
Proof.
  destruct (digit_decodes n) as (Hpad & _ & Htab).
  cbn [a2b_loop]. rewrite Hpad, Htab. reflexivity.
Qed.

Lemma list_ind3 {A} (P : list A -> Prop) :
  P [] -> (forall a, P [a]) -> (forall a b, P [a; b]) ->
  (forall a b c l, P l -> P (a :: b :: c :: l)) ->
  forall l, P l.
Proof.
  intros H0 H1 H2 H3. fix IH 1.
  intros [|a [|b [|c l]]];
    [exact H0 | apply H1 | apply H2 | apply H3, IH].
Qed.

Lemma a2b_loop_encode (content out : list byte) :
  a2b_loop (b64encode content) 0 0 0 out = Some (out ++ content).
Proof.
  revert out. induction content as [|a|a b|a b c rest IH] using list_ind3; intros out.
  - cbn. now rewrite app_nil_r.
  - cbn [b64encode]. rewrite !a2b_loop_digit. cbn zeta. cbn [a2b_loop].
    replace (Ascii.eqb BASE64_PAD BASE64_PAD) with true by reflexivity.
    cbn. do 2 f_equal. f_equal. apply Byte.byte_dec_bl, tail1_byte_b.
  - cbn [b64encode]. rewrite !a2b_loop_digit. cbn zeta. cbn [a2b_loop].
    replace (Ascii.eqb BASE64_PAD BASE64_PAD) with true by reflexivity.
    cbn [N.leb N.compare Pos.compare Pos.compare_cont N.add Pos.add].
    fold (s2 a b).
    rewrite (proj1 (N.eqb_eq _ _) (second_left_b a b)).
    rewrite (Byte.byte_dec_bl _ _ (first_byte_b a b)).
    rewrite (Byte.byte_dec_bl _ _ (tail2_byte_b b)).
    rewrite <- app_assoc. reflexivity.
  - cbn [b64encode]. rewrite !a2b_loop_digit. cbn zeta.
    fold (s2 a b). fold (s3 b c).
    rewrite (proj1 (N.eqb_eq _ _) (second_left_b a b)).
    rewrite (proj1 (N.eqb_eq _ _) (third_left_b b c)).
    rewrite (Byte.byte_dec_bl _ _ (first_byte_b a b)).
    rewrite (Byte.byte_dec_bl _ _ (second_byte_b b c)).
    rewrite (Byte.byte_dec_bl _ _ (third_byte_b c)).
    rewrite IH. rewrite <- !app_assoc. reflexivity.
Qed.

Lemma all_ascii_encode (content : list byte) : all_ascii (b64encode content) = true.
Proof.
  assert (Hd : forall n, is_ascii (digit n) = true) by (intros n; apply digit_decodes).
  induction content as [|a|a b|a b c rest IH] using list_ind3;
    cbn [b64encode all_ascii]; rewrite ?Hd, ?IH; reflexivity.
Qed.

(** [b64decode(b64encode(content))] is [content]. *)
Lemma b64decode_b64encode (content : list byte) :
  b64decode (b64encode content) = Some content.
Proof.
  unfold b64decode. rewrite all_ascii_encode. apply a2b_loop_encode.
Qed.

End Base64Facts.

(** ** ObjectId: parsing inverts printing *)

Module ObjectIdFacts.
Import ObjectId.
Local Open Scope N_scope.

Lemma hexval_hexdigit (d : N) : d < 16 -> hexval (hexdigit d) = Some d.
Proof.
  intros Hd.
  assert (Hcases : d = 0 \/ d = 1 \/ d = 2 \/ d = 3 \/ d = 4 \/ d = 5 \/ d = 6 \/ d = 7 \/
                   d = 8 \/ d = 9 \/ d = 10 \/ d = 11 \/ d = 12 \/ d = 13 \/ d = 14 \/
                   d = 15) by lia.
  repeat (destruct Hcases as [-> | Hcases]; [reflexivity|]).
  subst d. reflexivity.
Qed.

Lemma length_to_hex (k : nat) (n : N) : String.length (to_hex k n) = k.
Proof. induction k as [|k IH]; cbn [to_hex String.length]; [reflexivity | now rewrite IH]. Qed.

Lemma of_hex_to_hex (k : nat) (n acc : N) :
  of_hex (to_hex k n) acc = Some (acc * 16 ^ N.of_nat k + n mod 16 ^ N.of_nat k).
Proof.
  revert acc. induction k as [|k IH]; intros acc.
  - cbn [to_hex of_hex]. change (16 ^ N.of_nat 0) with 1.
    rewrite N.mod_1_r. f_equal. lia.
  - cbn [to_hex of_hex].
    rewrite hexval_hexdigit by (apply N.mod_lt; discriminate).
    rewrite IH. f_equal.
    rewrite Nat2N.inj_succ, N.pow_succ_r'.
    set (X := 16 ^ N.of_nat k).
    assert (HX : X <> 0) by (subst X; apply N.pow_nonzero; discriminate).
    rewrite (N.mul_comm 16 X).
    rewrite (N.Div0.mod_mul_r n X 16). lia.
Qed.

(** [ObjectId(str(oid))] is [oid]. *)
Lemma parse_str (oid : N) : oid < limit -> parse (str oid) = Some oid.
Proof.
  intros Hlt. unfold parse, str. rewrite length_to_hex.
  change (24 =? 24)%nat with true. cbv iota.
  rewrite of_hex_to_hex. f_equal.
  rewrite N.mod_small by exact Hlt. lia.
Qed.

End ObjectIdFacts.

(** ** Regular expressions: a pattern without metacharacters is a literal *)

Module RegexFacts.
Import Regex.




End RegexFacts.

(** ** The handlers *)

Section Facts.
Context {E : Env}.

Lemma timegm_add_seconds (t s : Z) : timegm (t + s * 1000000) = timegm t + s.
Proof. unfold timegm. apply Z.div_add. discriminate. Qed.

(** Validation has two outcomes only: the admin, or the one error. *)
Lemma get_current_admin_cases (now : datetime) (token : Token) :
  get_current_admin now token = inr (mkAdmin ADMIN_EMAIL) \/
  get_current_admin now token = inl credentials_exception.
Proof.
  unfold get_current_admin.
  destruct (jwt_decode now token SECRET_KEY [ALGORITHM]) as [err|payload]; [now right|].
  destruct (sub payload) as [address|]; [|now right].
  destruct (negb _); [now right | now left].
Qed.

Lemma invalid_token_rejected (now : datetime) (token : Token) :
  invalid_token now token ->
  get_current_admin now token = inl credentials_exception.
Proof.
  intros Hbad. unfold get_current_admin, jwt_decode.
  destruct Hbad as [raw | alg c s Halg | alg c s Hsig | alg c s e He Hlt
                   | alg c s Hsub | alg c s address Hsub Hne]; [reflexivity|..];
    cbn [existsb]; rewrite orb_false_r.
  - apply String.eqb_neq in Halg. now rewrite Halg.
  - destruct (String.eqb alg ALGORITHM); [|reflexivity]. cbn [negb].
    apply N.eqb_neq in Hsig. now rewrite Hsig.
  - destruct (negb (String.eqb alg ALGORITHM)); [reflexivity|].
    destruct (negb (N.eqb s (hs256 SECRET_KEY c))); [reflexivity|].
    rewrite He. apply Z.ltb_lt in Hlt. now rewrite Hlt.
  - destruct (negb (String.eqb alg ALGORITHM)); [reflexivity|].
    destruct (negb (N.eqb s (hs256 SECRET_KEY c))); [reflexivity|].
    destruct (exp c) as [e|]; [destruct (e <? timegm now); [reflexivity|]|];
      now rewrite Hsub.
  - apply String.eqb_neq in Hne.
    destruct (negb (String.eqb alg ALGORITHM)); [reflexivity|].
    destruct (negb (N.eqb s (hs256 SECRET_KEY c))); [reflexivity|].
    destruct (exp c) as [e|]; [destruct (e <? timegm now); [reflexivity|]|];
      now rewrite Hsub, Hne.
Qed.

(** Conversely, a token is rejected for one of those reasons only. *)
Lemma rejected_is_invalid (now : datetime) (token : Token) (e : Exn) :
  get_current_admin now token = inl e -> invalid_token now token.
Proof.
  destruct token as [raw|alg c s]; [constructor|].
  unfold get_current_admin, jwt_decode. cbn [existsb]. rewrite orb_false_r.
  destruct (String.eqb_spec alg ALGORITHM) as [_|Halg];
    [|intros _; now apply invalid_algorithm].
  cbn [negb].
  destruct (N.eqb_spec s (hs256 SECRET_KEY c)) as [_|Hsig];
    [|intros _; now apply invalid_signature].
  cbn [negb].
  assert (Hsub : match sub c with
                 | Some address =>
                     if negb (String.eqb (Str.lower address) (Str.lower ADMIN_EMAIL))
                     then inl credentials_exception
                     else inr (mkAdmin ADMIN_EMAIL)
                 | None => inl credentials_exception
                 end = inl e -> invalid_token now (JWS alg c s)).
  { destruct (sub c) as [address|] eqn:Hc; [|intros _; now apply invalid_no_subject].
    destruct (String.eqb_spec (Str.lower address) (Str.lower ADMIN_EMAIL)) as [_|Hne];
      [discriminate|].
    intros _. now apply (invalid_wrong_subject now alg c s address). }
  destruct (exp c) as [t|] eqn:Hexp; [|exact Hsub].
  destruct (Z.ltb_spec t (timegm now)) as [Hlt|_]; [|exact Hsub].
  intros _. now apply (invalid_expired now alg c s t).
Qed.

(** A successful login hands out [create_access_token] of the admin's
    address, with the default lifetime. *)
Lemma admin_login_issues (now : datetime) (username password : string) (user : Admin) :
  authenticate_admin username password = inr (Some user) ->
  admin_login now username password
  = inr (mkTokenResponse
           (create_access_token now (mkClaims (Some ADMIN_EMAIL) None) None) "bearer").
Proof.
  unfold admin_login, authenticate_admin.
  destruct (String.eqb _ _); [|discriminate].
  destruct (verify_password password) as [[|]|]; try discriminate. reflexivity.
Qed.

(** A route guarded by [Depends(get_current_admin)] answers with the
    dependency's exception and does nothing else. *)
Lemma depends_admin_rejected {A} (now : datetime) (token : Token) (e : Exn)
      (k : M A) (w : World) :
  get_current_admin now token = inl e ->
  (depends_admin now (Some token);;; k) w = (inl e, w).
Proof.
  intros He. unfold bind, depends_admin, lift, oauth2_scheme. now rewrite He.
Qed.

Lemma depends_admin_accepted {A} (now : datetime) (token : Token) (a : Admin)
      (k : M A) (w : World) :
  get_current_admin now token = inr a ->
  (depends_admin now (Some token);;; k) w = k w.
Proof.
  intros Ha. unfold bind, depends_admin, lift, oauth2_scheme. now rewrite Ha.
Qed.

(** C1. Whatever makes a bearer token fail validation (bad signature,
    expiry, missing subject, subject other than the admin's address),
    [get_current_admin] raises the same HTTP 401 with detail "Could not
    validate credentials", and every admin route answers with exactly
    that exception, leaving the store untouched. *)
Theorem C1_validation_failure_is_generic (now : datetime) (token : Token) :
  invalid_token now token ->
  get_current_admin now token
    = inl (HTTPException 401 "Could not validate credentials") /\
  (forall w page page_size q status start_date end_date,
      list_submissions now (Some token) page page_size q status start_date end_date w
      = (inl (HTTPException 401 "Could not validate credentials"), w)) /\
  (forall w submission_id,
      get_submission now (Some token) submission_id w
      = (inl (HTTPException 401 "Could not validate credentials"), w)) /\
  (forall w submission_id payload,
      update_submission now (Some token) submission_id payload w
      = (inl (HTTPException 401 "Could not validate credentials"), w)) /\
  (forall w submission_id,
      delete_submission now (Some token) submission_id w
      = (inl (HTTPException 401 "Could not validate credentials"), w)) /\
  (forall w submission_id,
      download_submission_pdf now (Some token) submission_id w
      = (inl (HTTPException 401 "Could not validate credentials"), w)).
Proof.
  intros Hbad. pose proof (invalid_token_rejected now token Hbad) as Hrej.
  unfold credentials_exception in Hrej.
  split; [exact Hrej|].
  repeat split; intros;
    unfold list_submissions, get_submission, update_submission,
           delete_submission, download_submission_pdf;
    apply depends_admin_rejected; exact Hrej.
Qed.

(** C2. The token the login route issues at time [T] carries the expiry
    [T + 12 hours] (in whole seconds, as the token format has it); it is
    accepted one hour after [T] and rejected thirteen hours after [T]. *)
Theorem C2_token_lifetime (T : datetime) :
  let token := create_access_token T (mkClaims (Some ADMIN_EMAIL) None) None in
  (exists alg signature,
      token = JWS alg (mkClaims (Some ADMIN_EMAIL)
                         (Some (timegm (T + timedelta_of_hours 12)))) signature
      /\ timegm (T + timedelta_of_hours 12) = timegm T + 12 * 3600) /\
  get_current_admin (T + timedelta_of_hours 1) token = inr (mkAdmin ADMIN_EMAIL) /\
  get_current_admin (T + timedelta_of_hours 13) token
    = inl (HTTPException 401 "Could not validate credentials").
Proof.
  cbv zeta. unfold create_access_token, jwt_encode.
  change (timedelta_of_minutes ACCESS_TOKEN_EXPIRE_MINUTES) with (43200 * 1000000).
  change (timedelta_of_hours 12) with (43200 * 1000000).
  change (timedelta_of_hours 1) with (3600 * 1000000).
  change (timedelta_of_hours 13) with (46800 * 1000000).
  cbn [sub]. split; [|split].
  - eexists _, _. split; [reflexivity|]. apply timegm_add_seconds.
  - unfold get_current_admin, jwt_decode. cbn [existsb exp sub].
    rewrite (String.eqb_refl ALGORITHM), N.eqb_refl. cbn [orb negb].
    rewrite !timegm_add_seconds.
    replace (timegm T + 43200 <? timegm T + 3600) with false
      by (symmetry; apply Z.ltb_ge; lia).
    cbn [sub]. now rewrite (String.eqb_refl (Str.lower ADMIN_EMAIL)).
  - unfold get_current_admin, jwt_decode. cbn [existsb exp sub].
    rewrite (String.eqb_refl ALGORITHM), N.eqb_refl. cbn [orb negb].
    rewrite !timegm_add_seconds.
    replace (timegm T + 43200 <? timegm T + 46800) with true
      by (symmetry; apply Z.ltb_lt; lia).
    reflexivity.
Qed.

(** *** Creating a submission *)

Lemma store_upload_absent (w : World) : store_upload None w = (inr (None, None), w).
Proof. reflexivity. Qed.

Lemma store_upload_not_pdf (file : UploadFile) (w : World) :
  is_pdf file = false ->
  store_upload (Some file) w = (inl (HTTPException 400 "Only PDF uploads are allowed"), w).
Proof. unfold is_pdf, store_upload. intros ->. reflexivity. Qed.

Lemma store_upload_too_large (file : UploadFile) (w : World) :
  is_pdf file = true ->
  MAX_UPLOAD < Z.of_nat (length (upload_content file)) ->
  store_upload (Some file) w
  = (inl (HTTPException 400 "File too large (max 10MB in demo)"), w).
Proof.
  unfold is_pdf, store_upload. intros -> Hlen.
  apply Z.ltb_lt in Hlen. rewrite Hlen. reflexivity.
Qed.

Lemma create_document_run {D} (c : Coll D) (data : D) (w : World) :
  create_document c data w = (inr (ObjectId.str (next_id (db w))), created c data w).
Proof. reflexivity. Qed.

Lemma store_upload_accepted (file : UploadFile) (w : World) :
  is_pdf file = true ->
  Z.of_nat (length (upload_content file)) <= MAX_UPLOAD ->
  store_upload (Some file) w
  = (inr (Some ("/api/files/" +:+ ObjectId.str (next_id (db w))),
          Some (ObjectId.str (next_id (db w)))),
     created submission_files_coll (stored_file_of file) w).
Proof.
  unfold is_pdf, store_upload. intros -> Hlen.
  apply Z.ltb_ge in Hlen. rewrite Hlen. reflexivity.
Qed.

(** [submit_project] once the upload block is through. *)
Lemma submit_project_run (now now_logged : datetime)
      (name email novel_title synopsis : string) (message : option string)
      (file : option UploadFile) (w w1 : World) (keys : option string * option string) :
  store_upload file w = (inr keys, w1) ->
  submit_project now now_logged name email novel_title synopsis message file w
  = match Submission_new name email novel_title synopsis message (fst keys) (snd keys) now with
    | None => (inl (Unhandled "ValidationError"), w1)
    | Some data =>
        (inr (mkSubmitResponse true (ObjectId.str (next_id (db w1)))),
         created notifications_coll
           (mkNotificationLog "new_submission" STUDIO_EMAIL
              ("New Submission: " +:+ novel_title) data now_logged)
           (created submission_coll (mkSubmissionDoc data None) w1))
    end.
Proof.
  intros Hup. unfold submit_project, bind at 1. rewrite Hup.
  destruct (Submission_new _ _ _ _ _ _ _ _) as [data|]; reflexivity.
Qed.

Lemma submit_project_rejected (now now_logged : datetime)
      (name email novel_title synopsis : string) (message : option string)
      (file : option UploadFile) (w : World) (e : Exn) :
  store_upload file w = (inl e, w) ->
  submit_project now now_logged name email novel_title synopsis message file w = (inl e, w).
Proof. intros Hup. unfold submit_project, bind at 1. now rewrite Hup. Qed.

(** C3. A file whose name does not end in ".pdf" (in any letter case)
    makes the submission fail with HTTP 400 and leaves the world as it
    was: no file, submission or notification document is written and no
    call reaches the store. *)
Theorem C3_non_pdf_rejected (now now_logged : datetime)
        (name email novel_title synopsis : string) (message : option string)
        (file : UploadFile) (w : World) :
  Str.endswith ".pdf" (Str.lower (upload_filename file)) = false ->
  submit_project now now_logged name email novel_title synopsis message (Some file) w
  = (inl (HTTPException 400 "Only PDF uploads are allowed"), w).
Proof.
  intros Hext. apply submit_project_rejected, store_upload_not_pdf. exact Hext.
Qed.

(** C4. With a PDF attached, the submission is refused with HTTP 400
    exactly when the file is longer than 10 MiB: at 10 MiB + 1 byte it is
    refused and nothing is written; at exactly 10 MiB the file is stored
    and, the address being valid, the submission succeeds. *)
Theorem C4_size_limit (now now_logged : datetime)
        (name email novel_title synopsis : string) (message : option string)
        (file : UploadFile) (w : World) :
  Str.endswith ".pdf" (Str.lower (upload_filename file)) = true ->
  let size := Z.of_nat (length (upload_content file)) in
  let result :=
    submit_project now now_logged name email novel_title synopsis message (Some file) w in
  ((exists detail, fst result = inl (HTTPException 400 detail))
   <-> 10 * 1024 * 1024 < size) /\
  (size = 10 * 1024 * 1024 + 1 ->
   result = (inl (HTTPException 400 "File too large (max 10MB in demo)"), w)) /\
  (size = 10 * 1024 * 1024 ->
   submission_files (db (snd result)) !! next_id (db w)
   = Some (mkStoredFile (upload_filename file)
             (Base64.b64encode (upload_content file))
             (Some (str_or (content_type file) "application/pdf"))) /\
   forall address,
     validate_email email = Some address ->
     fst result = inr (mkSubmitResponse true (ObjectId.str (next_id (db w) + 1)%N))).
Proof.
  intros Hpdf size result. fold (is_pdf file) in Hpdf.
  change (10 * 1024 * 1024) with MAX_UPLOAD.
  assert (Hlarge : MAX_UPLOAD < size ->
                   result = (inl (HTTPException 400 "File too large (max 10MB in demo)"), w)).
  { intros Hlt. subst result.
    apply submit_project_rejected, store_upload_too_large; assumption. }
  assert (Hsmall : size <= MAX_UPLOAD ->
                   result =
                   match Submission_new name email novel_title synopsis message
                           (Some ("/api/files/" +:+ ObjectId.str (next_id (db w))))
                           (Some (ObjectId.str (next_id (db w)))) now with
                   | None => (inl (Unhandled "ValidationError"),
                              created submission_files_coll (stored_file_of file) w)
                   | Some data =>
                       (inr (mkSubmitResponse true (ObjectId.str (next_id (db w) + 1)%N)),
                        created notifications_coll
                          (mkNotificationLog "new_submission" STUDIO_EMAIL
                             ("New Submission: " +:+ novel_title) data now_logged)
                          (created submission_coll (mkSubmissionDoc data None)
                             (created submission_files_coll (stored_file_of file) w)))
                   end).
  { intros Hle. subst result.
    rewrite (submit_project_run _ _ _ _ _ _ _ _ _ _ _
               (store_upload_accepted file w Hpdf Hle)).
    reflexivity. }
  split; [split|split].
  - intros [detail Hdetail].
    destruct (Z.lt_ge_cases MAX_UPLOAD size) as [Hlt|Hle]; [exact Hlt|].
    rewrite (Hsmall Hle) in Hdetail.
    destruct (Submission_new _ _ _ _ _ _ _ _); discriminate Hdetail.
  - intros Hlt. rewrite (Hlarge Hlt). eexists. reflexivity.
  - intros Hsize. apply Hlarge. lia.
  - intros Hsize. rewrite Hsmall by lia. unfold Submission_new. split.
    + destruct (validate_email email); cbn; apply lookup_insert_eq.
    + intros address ->. reflexivity.
Qed.

(** C5. A valid submission without a file is persisted with status
    Pending, no notes, neither [file_url] nor [file_key], and
    [submitted_at] equal to the time of creation; the response carries
    the identifier under which it was stored. *)
Theorem C5_defaults_without_file (now now_logged : datetime)
        (name email novel_title synopsis : string) (message : option string)
        (w : World) (address : string) :
  validate_email email = Some address ->
  let result :=
    submit_project now now_logged name email novel_title synopsis message None w in
  fst result = inr (mkSubmitResponse true (ObjectId.str (next_id (db w)))) /\
  exists doc,
    submission (db (snd result)) !! next_id (db w) = Some doc /\
    status (model doc) = Pending /\
    notes (model doc) = [] /\
    file_url (model doc) = None /\
    file_key (model doc) = None /\
    submitted_at (model doc) = Some now /\
    doc = mkSubmissionDoc
            (mkSubmission name address novel_title synopsis message None None
               Pending [] (Some now)) None.
Proof.
  intros Hemail result. subst result.
  rewrite (submit_project_run _ _ _ _ _ _ _ _ _ _ _ (store_upload_absent w)).
  unfold Submission_new. rewrite Hemail. cbn [fst snd].
  split; [reflexivity|].
  eexists. split; [|repeat split; reflexivity].
  cbn. apply lookup_insert_eq.
Qed.

(** *** Fetching a stored file *)

Lemma get_file_run (file_id : string) (oid : N) (doc : StoredFile)
      (content : list byte) (w : World) :
  ObjectId.parse file_id = Some oid ->
  submission_files (db w) !! oid = Some doc ->
  Base64.b64decode (content_b64 doc) = Some content ->
  get_file file_id w
  = (inr (mkFileResponse content (default "application/pdf" (mime doc))),
     mkWorld (db w) (calls w ++ [Call_find_one "submission_files" oid])).
Proof.
  intros Hid Hdoc Hdec. unfold get_file, bind, or_raise, find_one, log, get_db, ret.
  rewrite Hid. cbn. rewrite Hdoc, Hdec. reflexivity.
Qed.

(** C6. Once a PDF has passed the checks of [submit_project], the file
    endpoint, asked for the identifier the upload was stored under,
    answers with the very bytes that were uploaded and with the stored
    MIME type; for a valid submission that identifier is the persisted
    [file_key]. *)
Theorem C6_upload_round_trip (now now_logged : datetime)
        (name email novel_title synopsis : string) (message : option string)
        (file : UploadFile) (w : World) :
  Str.endswith ".pdf" (Str.lower (upload_filename file)) = true ->
  Z.of_nat (length (upload_content file)) <= 10 * 1024 * 1024 ->
  (next_id (db w) < ObjectId.limit)%N ->
  let result :=
    submit_project now now_logged name email novel_title synopsis message (Some file) w in
  let key := ObjectId.str (next_id (db w)) in
  (exists stored media,
      submission_files (db (snd result)) !! next_id (db w) = Some stored /\
      mime stored = Some media /\
      Base64.b64decode (content_b64 stored) = Some (upload_content file) /\
      fst (get_file key (snd result)) = inr (mkFileResponse (upload_content file) media)) /\
  (forall address,
      validate_email email = Some address ->
      exists doc,
        fst result = inr (mkSubmitResponse true (ObjectId.str (next_id (db w) + 1)%N)) /\
        submission (db (snd result)) !! (next_id (db w) + 1)%N = Some doc /\
        file_key (model doc) = Some key /\
        file_url (model doc) = Some ("/api/files/" +:+ key)).
Proof.
  intros Hpdf Hsize Hid result key. fold (is_pdf file) in Hpdf.
  subst result.
  rewrite (submit_project_run _ _ _ _ _ _ _ _ _ _ _
             (store_upload_accepted file w Hpdf Hsize)).
  unfold Submission_new. cbn [fst snd].
  assert (Hstored : forall w',
             submission_files (db w') !! next_id (db w) = Some (stored_file_of file) ->
             fst (get_file key w')
             = inr (mkFileResponse (upload_content file)
                      (str_or (content_type file) "application/pdf"))).
  { intros w' Hw'.
    rewrite (get_file_run key (next_id (db w)) (stored_file_of file)
               (upload_content file) w'
               (ObjectIdFacts.parse_str _ Hid) Hw'
               (Base64Facts.b64decode_b64encode _)).
    reflexivity. }
  split.
  - exists (stored_file_of file), (str_or (content_type file) "application/pdf").
    destruct (validate_email email) as [address|];
      (match goal with
       | |- ?m !! _ = _ /\ _ =>
           assert (Hlookup : m !! next_id (db w) = Some (stored_file_of file))
             by (cbn; apply lookup_insert_eq)
       end;
       split; [exact Hlookup|]; split; [reflexivity|];
       split; [apply Base64Facts.b64decode_b64encode|];
       apply Hstored, Hlookup).
  - intros address ->. eexists. split; [reflexivity|].
    split; [cbn; apply lookup_insert_eq|]. split; reflexivity.
Qed.

(** *** Listing submissions *)

Lemma select_ext {D} (c : Coll D) (p p' : D -> bool) (d : DB) :
  (forall doc, p doc = p' doc) -> select c p d = select c p' d.
Proof. intros Hpp. unfold select. apply filter_ext. intros kv. apply Hpp. Qed.

Lemma in_select {D} (c : Coll D) (p : D -> bool) (d : DB) (oid : N) (doc : D) :
  In (oid, doc) (select c p d) <-> coll_get c d !! oid = Some doc /\ p doc = true.
Proof.
  unfold select. rewrite List.filter_In, <- list_elem_of_In, elem_of_map_to_list.
  reflexivity.
Qed.

Lemma insert_desc_perm {D} (key : D -> option Z) (x : N * D) (l : list (N * D)) :
  Permutation (insert_desc key x l) (x :: l).
Proof.
  induction l as [|y l IH]; cbn [insert_desc]; [reflexivity|].
  destruct (key_leb (key (snd x)) (key (snd y))); [|reflexivity].
  rewrite IH. apply perm_swap.
Qed.

Lemma sort_desc_perm {D} (key : D -> option Z) (l : list (N * D)) :
  Permutation (sort_desc key l) l.
Proof.
  unfold sort_desc. induction l as [|x l IH]; cbn [fold_right]; [reflexivity|].
  rewrite insert_desc_perm. now rewrite IH.
Qed.

Lemma key_leb_total (a b : option Z) : key_leb a b = false -> key_leb b a = true.
Proof.
  destruct a as [x|], b as [y|]; cbn; try discriminate; try reflexivity.
  intros H. apply Z.leb_gt in H. apply Z.leb_le. lia.
Qed.

Lemma insert_desc_sorted {D} (key : D -> option Z) (x : N * D) (l : list (N * D)) :
  Sorted (before key) l -> Sorted (before key) (insert_desc key x l).
Proof.
  induction l as [|y l IH]; intros Hl; cbn [insert_desc].
  - repeat constructor.
  - destruct (key_leb (key (snd x)) (key (snd y))) eqn:Hxy.
    + apply Sorted_inv in Hl as [Hl Hhd]. constructor; [now apply IH|].
      destruct l as [|z l]; cbn [insert_desc].
      * constructor. exact Hxy.
      * destruct (key_leb (key (snd x)) (key (snd z))); constructor;
          [now inversion Hhd | exact Hxy].
    + constructor; [exact Hl|]. constructor. now apply key_leb_total.
Qed.

Lemma sort_desc_sorted {D} (key : D -> option Z) (l : list (N * D)) :
  Sorted (before key) (sort_desc key l).
Proof.
  unfold sort_desc. induction l as [|x l IH]; cbn [fold_right]; [constructor|].
  now apply insert_desc_sorted.
Qed.

Lemma Sorted_drop {A} (R : A -> A -> Prop) (n : nat) (l : list A) :
  Sorted R l -> Sorted R (drop n l).
Proof.
  revert l. induction n as [|n IH]; intros [|x l] Hl; cbn; try assumption.
  apply IH. now apply Sorted_inv in Hl.
Qed.

Lemma Sorted_take {A} (R : A -> A -> Prop) (n : nat) (l : list A) :
  Sorted R l -> Sorted R (take n l).
Proof.
  revert n. induction l as [|x l IH]; intros [|n] Hl; cbn; try constructor.
  - apply IH. now apply Sorted_inv in Hl.
  - apply Sorted_inv in Hl as [_ Hhd].
    destruct l as [|y l], n as [|n]; cbn; constructor. now inversion Hhd.
Qed.

Lemma Sorted_map {A B} (R : A -> A -> Prop) (R' : B -> B -> Prop) (f : A -> B)
      (l : list A) :
  (forall a b, R a b -> R' (f a) (f b)) -> Sorted R l -> Sorted R' (List.map f l).
Proof.
  intros Hf. induction l as [|x l IH]; intros Hl; cbn; [constructor|].
  apply Sorted_inv in Hl as [Hl Hhd]. constructor; [now apply IH|].
  destruct l as [|y l]; cbn; constructor. apply Hf. now inversion Hhd.
Qed.

Lemma window_sorted {A} (R : A -> A -> Prop) (skip limit : Z) (l : list A) :
  Sorted R l -> Sorted R (window skip limit l).
Proof.
  intros Hl. unfold window. destruct (limit =? 0).
  - now apply Sorted_drop.
  - now apply Sorted_take, Sorted_drop.
Qed.

Lemma in_window {A} (skip limit : Z) (l : list A) (x : A) :
  In x (window skip limit l) -> In x l.
Proof.
  unfold window. rewrite <- !list_elem_of_In. intros Hx.
  destruct (limit =? 0).
  - now apply (subseteq_drop (Z.to_nat skip) l).
  - apply (subseteq_drop (Z.to_nat skip) l).
    now apply (subseteq_take (Z.to_nat (Z.abs limit))).
Qed.

Lemma length_window {A} (skip limit : Z) (l : list A) :
  (length (window skip limit l) <= length l)%nat /\
  (limit <> 0 -> Z.of_nat (length (window skip limit l)) <= Z.abs limit) /\
  (limit = 0 -> skip = 0 -> window skip limit l = l).
Proof.
  unfold window. destruct (Z.eqb_spec limit 0) as [->|Hne].
  - split; [rewrite length_drop; lia|]. split; [congruence|].
    intros _ ->. reflexivity.
  - split; [rewrite length_take, length_drop; lia|]. split; [|congruence].
    intros _. rewrite length_take. lia.
Qed.

Lemma window_map {A B} (f : A -> B) (skip limit : Z) (l : list A) :
  List.map f (window skip limit l) = window skip limit (List.map f l).
Proof.
  unfold window. destruct (limit =? 0).
  - symmetry. apply skipn_map.
  - rewrite skipn_map. symmetry. apply firstn_map.
Qed.

Lemma insert_rank_perm {D} (rank : N -> N) (x : N * D) (l : list (N * D)) :
  Permutation (insert_rank rank x l) (x :: l).
Proof.
  induction l as [|y l IH]; cbn [insert_rank]; [reflexivity|].
  destruct (rank (fst y) <=? rank (fst x))%N; [|reflexivity].
  rewrite IH. apply perm_swap.
Qed.

Lemma store_order_perm {D} (rank : N -> N) (l : list (N * D)) :
  Permutation (store_order rank l) l.
Proof.
  unfold store_order. induction l as [|x l IH]; cbn [fold_right]; [reflexivity|].
  rewrite insert_rank_perm. now rewrite IH.
Qed.

Lemma listing_perm (n : nat) (p : SubmissionDoc -> bool) (d : DB) :
  Permutation (listing n p d) (select submission_coll p d).
Proof. unfold listing. now rewrite sort_desc_perm, store_order_perm. Qed.

Lemma listing_sorted (n : nat) (p : SubmissionDoc -> bool) (d : DB) :
  Sorted (before sort_key) (listing n p d).
Proof. apply sort_desc_sorted. Qed.



(** [list_submissions] past the dependency and the query construction. *)
Lemma list_submissions_run (now : datetime) (token : Token) (admin : Admin)
      (page page_size : Z) (q status start_date end_date : option string)
      (query : Query) (p : SubmissionDoc -> bool) (w : World) :
  get_current_admin now token = inr admin ->
  build_query q status start_date end_date = inr query ->
  interpret query = inr p ->
  0 <= (page - 1) * page_size ->
  list_submissions now (Some token) page page_size q status start_date end_date w
  = (inr (mkListResponse
            (List.map to_item
               (window ((page - 1) * page_size) page_size
                  (listing (S (length (calls w))) p (db w))))
            (Z.of_nat (length (select submission_coll p (db w))))
            page page_size),
     mkWorld (db w)
       (calls w ++ [Call_count_documents "submission"; Call_find "submission"])).
Proof.
  intros Hadmin Hquery Hp Hskip. unfold list_submissions.
  rewrite (depends_admin_accepted _ _ _ _ _ Hadmin).
  unfold bind, lift, count_documents, find_sorted, call_count, log, get_db, ret, bind.
  rewrite Hquery, Hp. apply Z.ltb_ge in Hskip. rewrite Hskip.
  cbn. rewrite <- app_assoc, length_app, Nat.add_1_r. reflexivity.
Qed.






Lemma parse_bound_cases (s : option string) :
  (unparseable s /\ parse_bound s = inl (Unhandled "ValueError")) \/
  (exists bound, parse_bound s = inr bound).
Proof.
  destruct s as [[|c text]|]; cbn [parse_bound Str.truthy]; [right; eauto| |right; eauto].
  destruct (fromisoformat (String c text)) as [d|] eqn:Hd; [right; eauto|].
  left. split; [|reflexivity]. exists (String c text). repeat split; [discriminate|exact Hd].
Qed.

Lemma parse_bound_unparseable (s : option string) :
  unparseable s -> parse_bound s = inl (Unhandled "ValueError").
Proof.
  intros (text & -> & Hne & Hnone). unfold parse_bound.
  destruct text as [|c text]; [now contradict Hne|].
  cbn [Str.truthy]. now rewrite Hnone.
Qed.

Lemma unparseable_truthy (s : option string) : unparseable s -> Str.opt_truthy s = true.
Proof. intros (text & -> & Hne & _). destruct text; [now contradict Hne | reflexivity]. Qed.

(** C8, as amended. A start or end date that is given, not empty and not
    parseable makes [list_submissions] stop on the parser's [ValueError],
    which nothing catches (HTTP 500), before any call to the store: the
    world, with its record of calls, is unchanged. *)
Theorem C8_bad_date_fails_before_query (now : datetime) (token : Token) (admin : Admin)
        (page page_size : Z) (q status start_date end_date : option string) (w : World) :
  get_current_admin now token = inr admin ->
  unparseable start_date \/ unparseable end_date ->
  list_submissions now (Some token) page page_size q status start_date end_date w
  = (inl (Unhandled "ValueError"), w)
  /\ status_of (Unhandled "ValueError") = 500.
Proof.
  intros Hadmin Hbad. split; [|reflexivity].
  unfold list_submissions. rewrite (depends_admin_accepted _ _ _ _ _ Hadmin).
  assert (Hquery : build_query q status start_date end_date = inl (Unhandled "ValueError")).
  { unfold build_query.
    replace (Str.opt_truthy start_date || Str.opt_truthy end_date) with true
      by (destruct Hbad as [Hb|Hb]; rewrite (unparseable_truthy _ Hb);
          [reflexivity | now rewrite orb_true_r]).
    destruct (parse_bound_cases start_date) as [[_ ->]|[gte Hgte]]; [reflexivity|].
    destruct Hbad as [Hb|Hb].
    - rewrite (parse_bound_unparseable _ Hb). reflexivity.
    - rewrite Hgte, (parse_bound_unparseable _ Hb). reflexivity. }
  unfold bind, lift. rewrite Hquery. reflexivity.
Qed.

(** *** Creating a submission: the required fields *)

Lemma Form_required_empty : Form_required (Some EmptyString) = None.
Proof. reflexivity. Qed.

(** C9. A request to create a submission in which the name, the address,
    the title or the synopsis is the empty string is refused with a
    validation error when the form is bound (FastAPI's 422), before
    [submit_project] runs: nothing is written. *)
Theorem C9_empty_required_field_rejected (now now_logged : datetime)
        (form : SubmitForm) (w : World) :
  form_name form = Some EmptyString \/ form_email form = Some EmptyString \/
  form_novel_title form = Some EmptyString \/ form_synopsis form = Some EmptyString ->
  post_api_submit now now_logged form w = (inl RequestValidationError, w).
Proof.
  intros Hempty. unfold post_api_submit.
  destruct Hempty as [H|[H|[H|H]]]; rewrite H, Form_required_empty;
    repeat match goal with
           | |- context [match Form_required ?v with _ => _ end] =>
               destruct (Form_required v)
           end; reflexivity.
Qed.

(** *** Updating and deleting *)

Lemma set_submission_same (d : DB) : coll_set submission_coll (submission d) d = d.
Proof. now destruct d. Qed.

(** C10. With a well-formed identifier that names no stored submission,
    [update_submission] acknowledges success and leaves the store as it
    was, as [delete_submission] does: the only calls issued are the
    updates themselves (no lookup precedes them) and no not-found error
    is raised. *)
Theorem C10_update_missing_is_silent (now : datetime) (token : Token) (admin : Admin)
        (submission_id : string) (oid : N) (payload : UpdateSubmission) (w : World) :
  get_current_admin now token = inr admin ->
  ObjectId.parse submission_id = Some oid ->
  submission (db w) !! oid = None ->
  let updated := update_submission now (Some token) submission_id payload w in
  let deleted := delete_submission now (Some token) submission_id w in
  fst updated = inr (mkAck true) /\
  db (snd updated) = db w /\
  calls (snd updated)
  = calls w
    ++ (if Str.opt_truthy (add_note payload) then [Call_update_one "submission" oid] else [])
    ++ [Call_update_one "submission" oid] /\
  fst deleted = inr (mkAck true) /\
  db (snd deleted) = db w /\
  calls (snd deleted) = calls w ++ [Call_delete_one "submission" oid].
Proof.
  intros Hadmin Hid Hmissing updated deleted. subst updated deleted.
  unfold update_submission, delete_submission.
  rewrite !(depends_admin_accepted _ _ _ _ _ Hadmin).
  unfold bind, or_raise, update_one, delete_one, log, get_db, put_db, ret, bind.
  rewrite Hid.
  destruct (Str.opt_truthy (add_note payload)); cbn;
    rewrite ?(alter_id' (push_note _) _ oid Hmissing);
    rewrite ?(alter_id' (set_updates _ _) _ oid Hmissing);
    rewrite ?(delete_id _ oid Hmissing);
    rewrite <- ?app_assoc;
    repeat split; try reflexivity; apply set_submission_same.
Qed.

End Facts.

(** ** The properties at concrete requests, in the environment [Demo.env] *)

(** Files at the size boundary exist. *)
Lemma boundary_files_exist :
  (exists content : list byte, Z.of_nat (length content) = 10 * 1024 * 1024) /\
  (exists content : list byte, Z.of_nat (length content) = 10 * 1024 * 1024 + 1).
Proof.
  split.
  - exists (repeat x00 (Z.to_nat (10 * 1024 * 1024))).
    rewrite repeat_length. apply Z2Nat.id. discriminate.
  - exists (repeat x00 (Z.to_nat (10 * 1024 * 1024 + 1))).
    rewrite repeat_length. apply Z2Nat.id. discriminate.
Qed.

(** Thirteen hours after it was issued, the login token is expired. *)
Lemma C1_witness :
  invalid_token (E := Demo.env) (Demo.t0 + timedelta_of_hours 13) Demo.token /\
  get_current_admin (E := Demo.env) (Demo.t0 + timedelta_of_hours 13) Demo.token
  = inl (HTTPException 401 "Could not validate credentials").
Proof.
  assert (Hexpired : invalid_token (E := Demo.env) (Demo.t0 + timedelta_of_hours 13)
                       Demo.token).
  { exact (invalid_expired (E := Demo.env) (Demo.t0 + timedelta_of_hours 13)
             "HS256" (mkClaims (Some "admin@arstudios.com") (Some 1704110400))
             (Demo.mac "super-secret-key-change"
                (mkClaims (Some "admin@arstudios.com") (Some 1704110400)))
             1704110400 eq_refl eq_refl). }
  split; [exact Hexpired|].
  exact (proj1 (C1_validation_failure_is_generic (E := Demo.env) _ _ Hexpired)).
Defined.

(** A token whose expiry was altered after signing is rejected in the
    same way. *)
Example forged_token_rejected :
  get_current_admin (E := Demo.env) Demo.t0 Demo.forged
  = inl (HTTPException 401 "Could not validate credentials").
Proof. reflexivity. Qed.

Lemma C3_witness :
  Str.endswith ".pdf" (Str.lower (upload_filename Demo.txt)) = false /\
  submit_project (E := Demo.env) Demo.t0 Demo.t0 "Bob" "bob@example.org" "Title" "Synopsis"
    None (Some Demo.txt) Demo.empty_world
  = (inl (HTTPException 400 "Only PDF uploads are allowed"), Demo.empty_world).
Proof.
  split; [reflexivity|].
  apply (C3_non_pdf_rejected (E := Demo.env)). reflexivity.
Defined.

Lemma C4_witness :
  Str.endswith ".pdf" (Str.lower (upload_filename Demo.pdf)) = true /\
  ((exists detail,
       fst (submit_project (E := Demo.env) Demo.t0 Demo.t0 "Bob" "bob@example.org" "Title"
              "Synopsis" None (Some Demo.pdf) Demo.empty_world)
       = inl (HTTPException 400 detail))
   <-> 10 * 1024 * 1024 < Z.of_nat (length (upload_content Demo.pdf))).
Proof.
  split; [reflexivity|].
  exact (proj1 (C4_size_limit (E := Demo.env) Demo.t0 Demo.t0 "Bob" "bob@example.org"
                  "Title" "Synopsis" None Demo.pdf Demo.empty_world eq_refl)).
Defined.

Lemma C5_witness :
  validate_email (Env := Demo.env) "bob@Example.org" = Some "bob@example.org" /\
  fst (submit_project (E := Demo.env) Demo.t0 Demo.t0 "Bob" "bob@Example.org" "Title"
         "Synopsis" None None Demo.empty_world)
  = inr (mkSubmitResponse true (ObjectId.str 1%N)).
Proof.
  split; [reflexivity|].
  exact (proj1 (C5_defaults_without_file (E := Demo.env) Demo.t0 Demo.t0 "Bob"
                  "bob@Example.org" "Title" "Synopsis" None Demo.empty_world
                  "bob@example.org" eq_refl)).
Defined.

Lemma C6_witness :
  Str.endswith ".pdf" (Str.lower (upload_filename Demo.pdf)) = true /\
  Z.of_nat (length (upload_content Demo.pdf)) <= 10 * 1024 * 1024 /\
  (next_id (db Demo.empty_world) < ObjectId.limit)%N /\
  exists stored media,
    submission_files
      (db (snd (submit_project (E := Demo.env) Demo.t0 Demo.t0 "Bob" "bob@example.org"
                  "Title" "Synopsis" None (Some Demo.pdf) Demo.empty_world)))
      !! next_id (db Demo.empty_world) = Some stored /\
    mime stored = Some media /\
    Base64.b64decode (content_b64 stored) = Some (upload_content Demo.pdf) /\
    fst (get_file (ObjectId.str (next_id (db Demo.empty_world)))
           (snd (submit_project (E := Demo.env) Demo.t0 Demo.t0 "Bob" "bob@example.org"
                   "Title" "Synopsis" None (Some Demo.pdf) Demo.empty_world)))
    = inr (mkFileResponse (upload_content Demo.pdf) media).
Proof.
  assert (Hsize : Z.of_nat (length (upload_content Demo.pdf)) <= 10 * 1024 * 1024)
    by (vm_compute; discriminate).
  assert (Hid : (next_id (db Demo.empty_world) < ObjectId.limit)%N) by reflexivity.
  split; [reflexivity|]. split; [exact Hsize|]. split; [exact Hid|].
  exact (proj1 (C6_upload_round_trip (E := Demo.env) Demo.t0 Demo.t0 "Bob"
                  "bob@example.org" "Title" "Synopsis" None Demo.pdf Demo.empty_world
                  eq_refl Hsize Hid)).
Defined.



(** An unparseable start date ends in a server error, not in a 400; an
    empty one is not an error at all. *)
Lemma C8_counterexample :
  list_submissions (E := Demo.env) Demo.t0 (Some Demo.token) 1 10 None None
    (Some "not-a-date") None Demo.one_world
  = (inl (Unhandled "ValueError"), Demo.one_world) /\
  status_of (Unhandled "ValueError") <> 400 /\
  fromisoformat (Env := Demo.env) "" = None /\
  exists response,
    fst (list_submissions (E := Demo.env) Demo.t0 (Some Demo.token) 1 10 None None
           (Some "") None Demo.one_world) = inr response.
Proof.
  split; [vm_compute; reflexivity|]. split; [discriminate|]. split; [reflexivity|].
  eexists. vm_compute. reflexivity.
Qed.

Lemma C8_witness :
  get_current_admin (E := Demo.env) Demo.t0 Demo.token = inr (mkAdmin "admin@arstudios.com") /\
  (unparseable (E := Demo.env) (Some "not-a-date") \/ unparseable (E := Demo.env) None) /\
  list_submissions (E := Demo.env) Demo.t0 (Some Demo.token) 1 10 None None
    (Some "not-a-date") None Demo.one_world
  = (inl (Unhandled "ValueError"), Demo.one_world).
Proof.
  assert (Hbad : unparseable (E := Demo.env) (Some "not-a-date")
                 \/ unparseable (E := Demo.env) None).
  { left. exists "not-a-date"%string. split; [reflexivity|]. split; [discriminate|reflexivity]. }
  split; [reflexivity|]. split; [exact Hbad|].
  exact (proj1 (C8_bad_date_fails_before_query (E := Demo.env) Demo.t0 Demo.token
                  (mkAdmin "admin@arstudios.com") 1 10 None None (Some "not-a-date") None
                  Demo.one_world eq_refl Hbad)).
Defined.

Lemma C9_witness :
  (form_name (mkSubmitForm (Some "") (Some "bob@example.org") (Some "Title")
                (Some "Synopsis") None None) = Some EmptyString \/
   form_email (mkSubmitForm (Some "") (Some "bob@example.org") (Some "Title")
                 (Some "Synopsis") None None) = Some EmptyString \/
   form_novel_title (mkSubmitForm (Some "") (Some "bob@example.org") (Some "Title")
                       (Some "Synopsis") None None) = Some EmptyString \/
   form_synopsis (mkSubmitForm (Some "") (Some "bob@example.org") (Some "Title")
                    (Some "Synopsis") None None) = Some EmptyString) /\
  post_api_submit (E := Demo.env) Demo.t0 Demo.t0
    (mkSubmitForm (Some "") (Some "bob@example.org") (Some "Title") (Some "Synopsis")
       None None) Demo.empty_world
  = (inl RequestValidationError, Demo.empty_world).
Proof.
  split; [left; reflexivity|].
  apply (C9_empty_required_field_rejected (E := Demo.env)). left. reflexivity.
Defined.

Lemma C10_witness :
  get_current_admin (E := Demo.env) Demo.t0 Demo.token = inr (mkAdmin "admin@arstudios.com") /\
  ObjectId.parse (ObjectId.str 77%N) = Some 77%N /\
  submission (db Demo.one_world) !! 77%N = None /\
  fst (update_submission (E := Demo.env) Demo.t0 (Some Demo.token) (ObjectId.str 77%N)
         (mkUpdateSubmission (Some Approved) (Some "seen")) Demo.one_world)
  = inr (mkAck true).
Proof.
  assert (Hid : ObjectId.parse (ObjectId.str 77%N) = Some 77%N) by reflexivity.
  assert (Hmissing : submission (db Demo.one_world) !! 77%N = None) by reflexivity.
  split; [reflexivity|]. split; [exact Hid|]. split; [exact Hmissing|].
  exact (proj1 (C10_update_missing_is_silent (E := Demo.env) Demo.t0 Demo.token
                  (mkAdmin "admin@arstudios.com") (ObjectId.str 77%N) 77%N
                  (mkUpdateSubmission (Some Approved) (Some "seen")) Demo.one_world
                  eq_refl Hid Hmissing)).
Defined.


(** * Further properties of the handlers *)

Section MoreFacts.
Context {E : Env}.

(** ** Login and the lifetime of tokens *)

(** A token signed by this server for the address [a], expiring at the
    second [e], is accepted at time [t] exactly when [a] is the admin's
    address, letter case aside, and [t] is not past [e]. *)
Lemma signed_token_accepted (t : datetime) (a : string) (e : Z) :
  get_current_admin t (jwt_encode (mkClaims (Some a) (Some e)) SECRET_KEY ALGORITHM)
  = inr (mkAdmin ADMIN_EMAIL)
  <-> Str.lower a = Str.lower ADMIN_EMAIL /\ timegm t <= e.
Proof.
  unfold get_current_admin, jwt_decode, jwt_encode. cbn [existsb exp sub].
  rewrite (String.eqb_refl ALGORITHM), N.eqb_refl. cbn [orb negb].
  destruct (Z.ltb_spec e (timegm t)) as [Hlt|Hle].
  - split; [discriminate | intros [_ Hle]; lia].
  - cbn [sub].
    destruct (String.eqb_spec (Str.lower a) (Str.lower ADMIN_EMAIL)) as [Heq|Hne];
      cbn [negb]; split; try discriminate; auto.
    intros [Heq _]. contradiction.
Qed.

Lemma signed_token_verdict (t : datetime) (a : string) (e : Z) :
  get_current_admin t (jwt_encode (mkClaims (Some a) (Some e)) SECRET_KEY ALGORITHM)
  = if String.eqb (Str.lower a) (Str.lower ADMIN_EMAIL) && (timegm t <=? e)
    then inr (mkAdmin ADMIN_EMAIL) else inl credentials_exception.
Proof.
  destruct (get_current_admin_cases t
              (jwt_encode (mkClaims (Some a) (Some e)) SECRET_KEY ALGORITHM)) as [Hok|Hno].
  - rewrite Hok. apply signed_token_accepted in Hok as [Ha He].
    apply String.eqb_eq in Ha. apply Z.leb_le in He. now rewrite Ha, He.
  - rewrite Hno.
    destruct (String.eqb_spec (Str.lower a) (Str.lower ADMIN_EMAIL)) as [Ha|Ha];
      [|reflexivity].
    destruct (Z.leb_spec (timegm t) e) as [He|He]; [|reflexivity].
    assert (Hok : get_current_admin t
                    (jwt_encode (mkClaims (Some a) (Some e)) SECRET_KEY ALGORITHM)
                  = inr (mkAdmin ADMIN_EMAIL)) by (apply signed_token_accepted; auto).
    rewrite Hok in Hno. discriminate.
Qed.

(** X1. A login with the admin's address in any letter case and the right
    password answers with a bearer token that [get_current_admin] accepts
    at every time up to and including the second 12 hours after the
    login, and rejects with the 401 at every later time. *)
Theorem X1_login_token_window (now t : datetime) (username password : string) :
  Str.lower username = Str.lower ADMIN_EMAIL ->
  verify_admin_password password = Some true ->
  exists response,
    admin_login now username password = inr response /\
    token_type response = "bearer"%string /\
    (timegm t <= timegm now + 12 * 3600 ->
     get_current_admin t (access_token response) = inr (mkAdmin ADMIN_EMAIL)) /\
    (timegm now + 12 * 3600 < timegm t ->
     get_current_admin t (access_token response)
     = inl (HTTPException 401 "Could not validate credentials")).
Proof.
  intros Hname Hpass. eexists. split.
  - apply (admin_login_issues now username password (mkAdmin ADMIN_EMAIL)).
    unfold authenticate_admin, verify_password.
    apply String.eqb_eq in Hname. now rewrite Hname, Hpass.
  - cbn [token_type access_token]. split; [reflexivity|].
    unfold create_access_token. cbn [sub].
    change (timedelta_of_minutes ACCESS_TOKEN_EXPIRE_MINUTES) with (43200 * 1000000).
    rewrite signed_token_verdict, timegm_add_seconds, (String.eqb_refl _).
    cbn [andb]. split; intros Ht.
    + replace (timegm t <=? timegm now + 43200) with true
        by (symmetry; apply Z.leb_le; lia). reflexivity.
    + replace (timegm t <=? timegm now + 43200) with false
        by (symmetry; apply Z.leb_gt; lia). reflexivity.
Qed.


(** With the admin's address, a password on which the verification raises
    is not a refusal: the exception is the route's answer (HTTP 500).
    Under another address the password is not looked at. *)
Lemma admin_login_raises (now : datetime) (username password : string) :
  Str.lower username = Str.lower ADMIN_EMAIL ->
  verify_admin_password password = None ->
  exists e, admin_login now username password = inl e /\ status_of e = 500.
Proof.
  intros Hname Hpass. unfold admin_login, authenticate_admin, verify_password.
  apply String.eqb_eq in Hname. rewrite Hname, Hpass. eexists. split; reflexivity.
Qed.

(** X3. [create_access_token] with an explicit lifetime [d] whose end a
    [datetime] can hold gives a token for the admin that is accepted
    exactly up to the second of [now + d], except that a zero [d] counts
    as absent and gives the 12 hour default. *)
Theorem X3_explicit_lifetime (now t : datetime) (d : timedelta) :
  representable (now + (if d =? 0 then timedelta_of_hours 12 else d)) ->
  get_current_admin t (create_access_token now (mkClaims (Some ADMIN_EMAIL) None) (Some d))
  = inr (mkAdmin ADMIN_EMAIL)
  <-> timegm t <= timegm (now + (if d =? 0 then timedelta_of_hours 12 else d)).
Proof.
  intros _. unfold create_access_token. cbn [sub].
  change (timedelta_of_minutes ACCESS_TOKEN_EXPIRE_MINUTES) with (timedelta_of_hours 12).
  rewrite signed_token_accepted. split; [tauto | auto].
Qed.

(** ** Identifiers and lookups *)

Lemma get_file_lookup (file_id : string) (oid : N) (w : World) :
  ObjectId.parse file_id = Some oid ->
  get_file file_id w
  = match submission_files (db w) !! oid with
    | None => (inl (HTTPException 404 "File not found"),
               mkWorld (db w) (calls w ++ [Call_find_one "submission_files" oid]))
    | Some doc =>
        match Base64.b64decode (content_b64 doc) with
        | Some content =>
            (inr (mkFileResponse content (default "application/pdf" (mime doc))),
             mkWorld (db w) (calls w ++ [Call_find_one "submission_files" oid]))
        | None =>
            (inl (Unhandled "binascii.Error"),
             mkWorld (db w) (calls w ++ [Call_find_one "submission_files" oid]))
        end
    end.
Proof.
  intros Hid. unfold get_file, bind, or_raise, find_one, log, get_db, ret.
  rewrite Hid. cbn.
  destruct (submission_files (db w) !! oid) as [doc|]; [|reflexivity].
  destruct (Base64.b64decode (content_b64 doc)); reflexivity.
Qed.

Lemma get_submission_lookup (now : datetime) (token : Token) (admin : Admin)
      (submission_id : string) (oid : N) (w : World) :
  get_current_admin now token = inr admin ->
  ObjectId.parse submission_id = Some oid ->
  get_submission now (Some token) submission_id w
  = (match submission (db w) !! oid with
     | Some doc => inr (mkItem (ObjectId.str oid) doc)
     | None => inl (HTTPException 404 "Not found")
     end,
     mkWorld (db w) (calls w ++ [Call_find_one "submission" oid])).
Proof.
  intros Hadmin Hid. unfold get_submission.
  rewrite (depends_admin_accepted _ _ _ _ _ Hadmin).
  unfold bind, or_raise, find_one, log, get_db, ret. rewrite Hid. cbn.
  destruct (submission (db w) !! oid); reflexivity.
Qed.

Lemma download_lookup (now : datetime) (token : Token) (admin : Admin)
      (submission_id : string) (oid : N) (w : World) :
  get_current_admin now token = inr admin ->
  ObjectId.parse submission_id = Some oid ->
  download_submission_pdf now (Some token) submission_id w
  = let w' := mkWorld (db w) (calls w ++ [Call_find_one "submission" oid]) in
    match submission (db w) !! oid with
    | None => (inl (HTTPException 404 "File not found"), w')
    | Some doc =>
        if Str.opt_truthy (file_key (model doc))
        then get_file (default EmptyString (file_key (model doc))) w'
        else (inl (HTTPException 404 "File not found"), w')
    end.
Proof.
  intros Hadmin Hid. unfold download_submission_pdf.
  rewrite (depends_admin_accepted _ _ _ _ _ Hadmin).
  unfold bind at 1 2, or_raise, find_one, log, get_db, ret. rewrite Hid. cbn.
  destruct (submission (db w) !! oid) as [doc|]; [|reflexivity].
  destruct (Str.opt_truthy (file_key (model doc))); reflexivity.
Qed.

Lemma update_submission_run (now : datetime) (token : Token) (admin : Admin)
      (submission_id : string) (oid : N) (payload : UpdateSubmission) (w : World) :
  get_current_admin now token = inr admin ->
  ObjectId.parse submission_id = Some oid ->
  update_submission now (Some token) submission_id payload w
  = (inr (mkAck true),
     mkWorld
       (coll_set submission_coll
          (updated_submissions now payload oid (submission (db w))) (db w))
       (calls w
        ++ (if Str.opt_truthy (add_note payload)
            then [Call_update_one "submission" oid] else [])
        ++ [Call_update_one "submission" oid])).
Proof.
  intros Hadmin Hid. unfold update_submission, updated_submissions.
  rewrite (depends_admin_accepted _ _ _ _ _ Hadmin).
  unfold bind, or_raise, update_one, log, get_db, put_db, ret, bind. rewrite Hid.
  destruct (Str.opt_truthy (add_note payload)); cbn; rewrite <- ?app_assoc; reflexivity.
Qed.

Lemma delete_submission_run (now : datetime) (token : Token) (admin : Admin)
      (submission_id : string) (oid : N) (w : World) :
  get_current_admin now token = inr admin ->
  ObjectId.parse submission_id = Some oid ->
  delete_submission now (Some token) submission_id w
  = (inr (mkAck true),
     mkWorld (coll_set submission_coll (delete oid (submission (db w))) (db w))
       (calls w ++ [Call_delete_one "submission" oid])).
Proof.
  intros Hadmin Hid. unfold delete_submission.
  rewrite (depends_admin_accepted _ _ _ _ _ Hadmin).
  unfold bind, or_raise, delete_one, log, get_db, put_db, ret, bind. rewrite Hid.
  reflexivity.
Qed.

(** X4. Asked for a well-formed identifier under which no file is stored,
    the file endpoint answers 404 "File not found" after a single lookup:
    it never gets as far as decoding, and the store is as it was. *)
Theorem X4_get_file_not_found (file_id : string) (oid : N) (w : World) :
  ObjectId.parse file_id = Some oid ->
  submission_files (db w) !! oid = None ->
  get_file file_id w
  = (inl (HTTPException 404 "File not found"),
     mkWorld (db w) (calls w ++ [Call_find_one "submission_files" oid])).
Proof. intros Hid Hnone. rewrite (get_file_lookup _ _ _ Hid), Hnone. reflexivity. Qed.

(** An identifier of any length but 24 is not an ObjectId. *)
Lemma parse_wrong_length (s : string) : String.length s <> 24%nat -> ObjectId.parse s = None.
Proof.
  intros Hlen. unfold ObjectId.parse.
  destruct (Nat.eqb_spec (String.length s) 24); [contradiction | reflexivity].
Qed.

(** X5. An identifier that has not the 24 characters of an ObjectId is
    not answered with 404: on each route that takes one, [ObjectId(...)]
    raises [InvalidId], which nothing catches (HTTP 500), before any call
    reaches the store. *)
Theorem X5_malformed_id_is_a_server_error (now : datetime) (token : Token) (admin : Admin)
        (bad_id : string) (payload : UpdateSubmission) (w : World) :
  get_current_admin now token = inr admin ->
  String.length bad_id <> 24%nat ->
  get_file bad_id w = (inl (Unhandled "InvalidId"), w) /\
  get_submission now (Some token) bad_id w = (inl (Unhandled "InvalidId"), w) /\
  update_submission now (Some token) bad_id payload w = (inl (Unhandled "InvalidId"), w) /\
  delete_submission now (Some token) bad_id w = (inl (Unhandled "InvalidId"), w) /\
  download_submission_pdf now (Some token) bad_id w = (inl (Unhandled "InvalidId"), w) /\
  status_of (Unhandled "InvalidId") = 500.
Proof.
  intros Hadmin Hlen. pose proof (parse_wrong_length bad_id Hlen) as Hid.
  unfold get_file, get_submission, update_submission, delete_submission,
         download_submission_pdf.
  rewrite !(depends_admin_accepted _ _ _ _ _ Hadmin).
  unfold bind, or_raise, raise, ret. rewrite Hid.
  destruct (Str.opt_truthy (add_note payload)); repeat split; reflexivity.
Qed.

(** ** Creating a submission, then reading it back *)

Lemma store_upload_success (file : option UploadFile) (w w1 : World)
      (keys : option string * option string) :
  store_upload file w = (inr keys, w1) ->
  (file = None /\ keys = (None, None) /\ w1 = w) \/
  (exists f, file = Some f /\ is_pdf f = true /\
             Z.of_nat (length (upload_content f)) <= MAX_UPLOAD /\
             keys = (Some ("/api/files/" +:+ ObjectId.str (next_id (db w))),
                     Some (ObjectId.str (next_id (db w)))) /\
             w1 = created submission_files_coll (stored_file_of f) w).
Proof.
  destruct file as [f|]; [|intros [= <- <-]; now left].
  intros Hup. right. exists f. split; [reflexivity|].
  destruct (is_pdf f) eqn:Hpdf;
    [|rewrite (store_upload_not_pdf f w Hpdf) in Hup; discriminate].
  destruct (Z.lt_ge_cases MAX_UPLOAD (Z.of_nat (length (upload_content f)))) as [Hlt|Hle];
    [rewrite (store_upload_too_large f w Hpdf Hlt) in Hup; discriminate|].
  rewrite (store_upload_accepted f w Hpdf Hle) in Hup.
  injection Hup as <- <-. auto.
Qed.

Lemma store_upload_failure (file : option UploadFile) (w w1 : World) (e : Exn) :
  store_upload file w = (inl e, w1) -> w1 = w.
Proof.
  destruct file as [f|]; [|discriminate].
  destruct (is_pdf f) eqn:Hpdf;
    [|rewrite (store_upload_not_pdf f w Hpdf); now intros [= _ <-]].
  destruct (Z.lt_ge_cases MAX_UPLOAD (Z.of_nat (length (upload_content f)))) as [Hlt|Hle];
    [rewrite (store_upload_too_large f w Hpdf Hlt); now intros [= _ <-]|].
  rewrite (store_upload_accepted f w Hpdf Hle). discriminate.
Qed.

(** What a successful [submit_project] has done. *)
Lemma submit_project_success (now now_logged : datetime)
      (name email novel_title synopsis : string) (message : option string)
      (file : option UploadFile) (w : World) (response : SubmitResponse) :
  fst (submit_project now now_logged name email novel_title synopsis message file w)
  = inr response ->
  exists address keys w1,
    validate_email email = Some address /\
    store_upload file w = (inr keys, w1) /\
    response = mkSubmitResponse true (ObjectId.str (next_id (db w1))) /\
    snd (submit_project now now_logged name email novel_title synopsis message file w)
    = created notifications_coll
        (mkNotificationLog "new_submission" STUDIO_EMAIL
           ("New Submission: " +:+ novel_title)
           (mkSubmission name address novel_title synopsis message (fst keys) (snd keys)
              Pending [] (Some now))
           now_logged)
        (created submission_coll
           (mkSubmissionDoc
              (mkSubmission name address novel_title synopsis message (fst keys) (snd keys)
                 Pending [] (Some now)) None) w1).
Proof.
  destruct (store_upload file w) as [[e|keys] w1] eqn:Hup.
  - pose proof (store_upload_failure _ _ _ _ Hup) as ->.
    rewrite (submit_project_rejected _ _ _ _ _ _ _ _ _ _ Hup). discriminate.
  - rewrite (submit_project_run _ _ _ _ _ _ _ _ _ _ _ Hup). unfold Submission_new.
    destruct (validate_email email) as [address|]; [|discriminate].
    cbn [fst snd]. intros [= <-]. exists address, keys, w1. auto.
Qed.

Lemma str_truthy (oid : N) : Str.truthy (ObjectId.str oid) = true.
Proof. reflexivity. Qed.

(** X6. After a successful [submit_project], [get_submission] with the
    returned identifier yields the submission as it was sent (the address
    in the validator's normal form), with status Pending, no notes,
    [submitted_at] the time of the submission to the millisecond and no
    [updated_at]; it has a file key exactly when a file was attached. *)
Theorem X6_submit_then_get (now now_logged later : datetime)
        (name email novel_title synopsis : string) (message : option string)
        (file : option UploadFile) (w : World) (response : SubmitResponse)
        (token : Token) (admin : Admin) :
  fst (submit_project now now_logged name email novel_title synopsis message file w)
  = inr response ->
  get_current_admin later token = inr admin ->
  (next_id (db w) + 1 < ObjectId.limit)%N ->
  exists address url key stored_at,
    validate_email email = Some address /\
    fst (get_submission later (Some token) (id response)
           (snd (submit_project now now_logged name email novel_title synopsis message
                   file w)))
    = inr (mkItem (id response)
             (mkSubmissionDoc
                (mkSubmission name address novel_title synopsis message url key
                   Pending [] (Some stored_at)) None)) /\
    same_millisecond stored_at now /\
    (key = None <-> file = None) /\
    (url = None <-> file = None).
Proof.
  intros Hok Hadmin Hlimit.
  destruct (submit_project_success _ _ _ _ _ _ _ _ _ _ Hok)
    as (address & keys & w1 & Hemail & Hup & -> & Hworld).
  exists address, (fst keys), (snd keys), now. split; [exact Hemail|].
  assert (Hnext : (next_id (db w1) < ObjectId.limit)%N).
  { destruct (store_upload_success _ _ _ _ Hup) as [(_ & _ & ->)|(f & _ & _ & _ & _ & ->)];
      cbn; lia. }
  rewrite Hworld. cbn [id].
  rewrite (get_submission_lookup later token admin _ _ _ Hadmin
             (ObjectIdFacts.parse_str _ Hnext)).
  cbn [fst]. split.
  - replace (submission _ !! next_id (db w1))
      with (Some (mkSubmissionDoc
                    (mkSubmission name address novel_title synopsis message
                       (fst keys) (snd keys) Pending [] (Some now)) None));
      [reflexivity|].
    symmetry. cbn. apply lookup_insert_eq.
  - split; [reflexivity|].
    destruct (store_upload_success _ _ _ _ Hup)
      as [(-> & -> & _)|(f & -> & _ & _ & -> & _)]; cbn [fst snd]; split; split;
      try reflexivity; discriminate.
Qed.

(** X7. After a successful [submit_project] with a PDF attached,
    [download_submission_pdf] with the returned identifier answers with
    the uploaded bytes and the MIME type of the upload (application/pdf
    when the upload named none). *)
Theorem X7_submit_then_download (now now_logged later : datetime)
        (name email novel_title synopsis : string) (message : option string)
        (f : UploadFile) (w : World) (response : SubmitResponse)
        (token : Token) (admin : Admin) :
  fst (submit_project now now_logged name email novel_title synopsis message (Some f) w)
  = inr response ->
  get_current_admin later token = inr admin ->
  (next_id (db w) + 1 < ObjectId.limit)%N ->
  fst (download_submission_pdf later (Some token) (id response)
         (snd (submit_project now now_logged name email novel_title synopsis message
                 (Some f) w)))
  = inr (mkFileResponse (upload_content f) (str_or (content_type f) "application/pdf")).
Proof.
  intros Hok Hadmin Hlimit.
  destruct (submit_project_success _ _ _ _ _ _ _ _ _ _ Hok)
    as (address & keys & w1 & Hemail & Hup & -> & Hworld).
  destruct (store_upload_success _ _ _ _ Hup)
    as [(Hnone & _)|(f' & [= <-] & _ & _ & -> & ->)]; [discriminate|].
  rewrite Hworld. cbn [id fst snd].
  assert (Hsub : (next_id (db (created submission_files_coll (stored_file_of f) w))
                  < ObjectId.limit)%N) by (cbn; lia).
  rewrite (download_lookup later token admin _ _ _ Hadmin (ObjectIdFacts.parse_str _ Hsub)).
  cbv zeta.
  match goal with
  | |- context [submission ?d !! ?k] =>
      replace (submission d !! k)
        with (Some (mkSubmissionDoc
                      (mkSubmission name address novel_title synopsis message
                         (Some ("/api/files/" +:+ ObjectId.str (next_id (db w))))
                         (Some (ObjectId.str (next_id (db w)))) Pending [] (Some now)) None))
        by (symmetry; cbn; apply lookup_insert_eq)
  end.
  cbn [model file_key Str.opt_truthy]. rewrite str_truthy.
  change (default EmptyString (Some (ObjectId.str (next_id (db w)))))
    with (ObjectId.str (next_id (db w))).
  assert (Hfile : (next_id (db w) < ObjectId.limit)%N) by lia.
  rewrite (get_file_lookup _ _ _ (ObjectIdFacts.parse_str _ Hfile)).
  match goal with
  | |- context [submission_files ?d !! ?k] =>
      replace (submission_files d !! k) with (Some (stored_file_of f))
        by (symmetry; cbn; apply lookup_insert_eq)
  end.
  cbn [content_b64 stored_file_of]. rewrite Base64Facts.b64decode_b64encode.
  reflexivity.
Qed.

(** X8. For a submission that is absent, or stored without a file key,
    [download_submission_pdf] answers 404 "File not found" after looking
    the submission up, and does not query the files. *)
Theorem X8_download_without_file (now : datetime) (token : Token) (admin : Admin)
        (submission_id : string) (oid : N) (w : World) :
  get_current_admin now token = inr admin ->
  ObjectId.parse submission_id = Some oid ->
  (forall doc, submission (db w) !! oid = Some doc ->
               Str.opt_truthy (file_key (model doc)) = false) ->
  download_submission_pdf now (Some token) submission_id w
  = (inl (HTTPException 404 "File not found"),
     mkWorld (db w) (calls w ++ [Call_find_one "submission" oid])).
Proof.
  intros Hadmin Hid Hnofile. rewrite (download_lookup _ _ _ _ _ _ Hadmin Hid). cbv zeta.
  destruct (submission (db w) !! oid) as [doc|]; [|reflexivity].
  now rewrite (Hnofile doc eq_refl).
Qed.

(** X9. When the address does not validate, a PDF that passed the checks
    has already been written: [submit_project] ends in the unhandled
    [ValidationError] (HTTP 500) with the file stored, and with no
    submission and no notification written. *)
Theorem X9_no_rollback_of_upload (now now_logged : datetime)
        (name email novel_title synopsis : string) (message : option string)
        (f : UploadFile) (w : World) :
  Str.endswith ".pdf" (Str.lower (upload_filename f)) = true ->
  Z.of_nat (length (upload_content f)) <= 10 * 1024 * 1024 ->
  validate_email email = None ->
  let result :=
    submit_project now now_logged name email novel_title synopsis message (Some f) w in
  fst result = inl (Unhandled "ValidationError") /\
  status_of (Unhandled "ValidationError") = 500 /\
  submission_files (db (snd result)) !! next_id (db w)
  = Some (mkStoredFile (upload_filename f) (Base64.b64encode (upload_content f))
            (Some (str_or (content_type f) "application/pdf"))) /\
  submission (db (snd result)) = submission (db w) /\
  notifications (db (snd result)) = notifications (db w) /\
  calls (snd result) = calls w ++ [Call_insert_one "submission_files" (next_id (db w))].
Proof.
  intros Hpdf Hsize Hemail result. subst result.
  rewrite (submit_project_run _ _ _ _ _ _ _ _ _ _ _ (store_upload_accepted f w Hpdf Hsize)).
  unfold Submission_new. rewrite Hemail. cbn [fst snd].
  repeat split; try reflexivity. cbn. apply lookup_insert_eq.
Qed.

(** X10. A successful [submit_project] writes, right after the submission,
    one notification: of type "new_submission", addressed to the studio,
    titled after the novel, carrying the submission as stored and dated
    with the clock read for the log. *)
Theorem X10_notification_logged (now now_logged : datetime)
        (name email novel_title synopsis : string) (message : option string)
        (file : option UploadFile) (w : World) (response : SubmitResponse) :
  fst (submit_project now now_logged name email novel_title synopsis message file w)
  = inr response ->
  let after :=
    snd (submit_project now now_logged name email novel_title synopsis message file w) in
  exists oid data,
    id response = ObjectId.str oid /\
    submission (db after) !! oid = Some (mkSubmissionDoc data None) /\
    notifications (db after) !! (oid + 1)%N
    = Some (mkNotificationLog "new_submission" STUDIO_EMAIL
              ("New Submission: " +:+ novel_title) data now_logged) /\
    (forall k, k <> (oid + 1)%N -> notifications (db after) !! k = notifications (db w) !! k) /\
    exists earlier,
      calls after
      = earlier ++ [Call_insert_one "submission" oid;
                    Call_insert_one "notifications" (oid + 1)%N].
Proof.
  intros Hok after. subst after.
  destruct (submit_project_success _ _ _ _ _ _ _ _ _ _ Hok)
    as (address & keys & w1 & Hemail & Hup & -> & Hworld).
  rewrite Hworld. eexists (next_id (db w1)), _. split; [reflexivity|].
  split; [cbn; apply lookup_insert_eq|].
  split; [cbn; apply lookup_insert_eq|].
  split.
  - intros k Hk. cbn. rewrite lookup_insert_ne by congruence.
    destruct (store_upload_success _ _ _ _ Hup)
      as [(_ & _ & ->)|(f & _ & _ & _ & _ & ->)]; reflexivity.
  - exists (calls w1). cbn. rewrite <- app_assoc. reflexivity.
Qed.

(** ** Updating and deleting a stored submission *)







Lemma get_file_depends_on_files (file_id : string) (w w' : World) :
  submission_files (db w') = submission_files (db w) ->
  fst (get_file file_id w') = fst (get_file file_id w).
Proof.
  intros Hfiles. destruct (ObjectId.parse file_id) as [oid|] eqn:Hid.
  - rewrite (get_file_lookup _ _ w' Hid), (get_file_lookup _ _ w Hid), Hfiles.
    match goal with
    | |- fst (match ?found with _ => _ end) = _ =>
        destruct found as [doc|]; [|reflexivity]
    end.
    destruct (Base64.b64decode (content_b64 doc)); reflexivity.
  - unfold get_file, bind, or_raise, raise. rewrite Hid. reflexivity.
Qed.

(** X13. After [delete_submission], the identifier is answered with 404 by
    [get_submission] and by [download_submission_pdf], the other
    submissions are as they were, and no stored file is removed: the file
    endpoint answers every identifier as before, the one of the deleted
    submission's file included. *)
Theorem X13_delete_then_read (now later : datetime) (token token' : Token)
        (admin admin' : Admin) (submission_id : string) (oid : N) (w : World) :
  get_current_admin now token = inr admin ->
  get_current_admin later token' = inr admin' ->
  ObjectId.parse submission_id = Some oid ->
  let result := delete_submission now (Some token) submission_id w in
  fst result = inr (mkAck true) /\
  fst (get_submission later (Some token') submission_id (snd result))
  = inl (HTTPException 404 "Not found") /\
  fst (download_submission_pdf later (Some token') submission_id (snd result))
  = inl (HTTPException 404 "File not found") /\
  (forall k, k <> oid -> submission (db (snd result)) !! k = submission (db w) !! k) /\
  submission_files (db (snd result)) = submission_files (db w) /\
  (forall file_id, fst (get_file file_id (snd result)) = fst (get_file file_id w)).
Proof.
  intros Hadmin Hadmin' Hid result. subst result.
  rewrite (delete_submission_run _ _ _ _ _ _ Hadmin Hid). cbn [fst snd].
  split; [reflexivity|].
  split.
  { rewrite (get_submission_lookup _ _ _ _ _ _ Hadmin' Hid). cbn [fst db].
    cbn [submission coll_set submission_coll]. now rewrite lookup_delete_eq. }
  split.
  { rewrite (download_lookup _ _ _ _ _ _ Hadmin' Hid). cbv zeta. cbn [db].
    cbn [submission coll_set submission_coll]. now rewrite lookup_delete_eq. }
  split.
  { intros k Hk. cbn. now rewrite lookup_delete_ne by congruence. }
  split; [reflexivity|].
  intros file_id. now apply get_file_depends_on_files.
Qed.

(** ** Listing: filters, order and pages *)

(** What a successful [list_submissions] has computed. *)
Lemma list_submissions_success (now : datetime) (authorization : option Token)
      (page page_size : Z) (q status start_date end_date : option string)
      (w : World) (response : ListResponse) :
  fst (list_submissions now authorization page page_size q status start_date end_date w)
  = inr response ->
  exists query p,
    build_query q status start_date end_date = inr query /\
    interpret query = inr p /\
    0 <= (page - 1) * page_size /\
    response
    = mkListResponse
        (List.map to_item
           (window ((page - 1) * page_size) page_size
              (listing (S (length (calls w))) p (db w))))
        (Z.of_nat (length (select submission_coll p (db w)))) page page_size /\
    exists token admin,
      authorization = Some token /\ get_current_admin now token = inr admin.
Proof.
  intros Hok.
  destruct authorization as [token|];
    [|unfold list_submissions, depends_admin, oauth2_scheme, bind, lift in Hok;
      discriminate].
  destruct (get_current_admin now token) as [e|admin] eqn:Hadmin.
  { unfold list_submissions in Hok.
    rewrite (depends_admin_rejected _ _ _ _ _ Hadmin) in Hok. discriminate. }
  destruct (build_query q status start_date end_date) as [e|query] eqn:Hquery.
  { unfold list_submissions in Hok.
    rewrite (depends_admin_accepted _ _ _ _ _ Hadmin) in Hok.
    unfold bind, lift in Hok. rewrite Hquery in Hok. discriminate. }
  destruct (interpret query) as [e|p] eqn:Hp.
  { unfold list_submissions in Hok.
    rewrite (depends_admin_accepted _ _ _ _ _ Hadmin) in Hok.
    unfold bind, lift, count_documents, log in Hok. rewrite Hquery, Hp in Hok.
    discriminate. }
  destruct (Z.ltb_spec ((page - 1) * page_size) 0) as [Hneg|Hpos].
  { unfold list_submissions in Hok.
    rewrite (depends_admin_accepted _ _ _ _ _ Hadmin) in Hok.
    unfold bind, lift, count_documents, find_sorted, log, get_db, ret, raise, bind in Hok.
    rewrite Hquery, Hp in Hok. apply Z.ltb_lt in Hneg. rewrite Hneg in Hok.
    discriminate. }
  rewrite (list_submissions_run _ _ _ _ _ _ _ _ _ _ _ _ Hadmin Hquery Hp Hpos) in Hok.
  injection Hok as <-. exists query, p. repeat split; eauto.
Qed.

Lemma build_query_fields (q status start_date end_date : option string) (query : Query) :
  build_query q status start_date end_date = inr query ->
  query_status query = (if Str.opt_truthy status then status else None) /\
  exists gte lte,
    parse_bound start_date = inr gte /\ parse_bound end_date = inr lte /\
    query_submitted_at query
    = match gte, lte with None, None => None | _, _ => Some (gte, lte) end.
Proof.
  unfold build_query.
  destruct (Str.opt_truthy start_date || Str.opt_truthy end_date) eqn:Hdates.
  - destruct (parse_bound start_date) as [e|gte]; [discriminate|].
    destruct (parse_bound end_date) as [e|lte]; [discriminate|].
    destruct gte, lte; intros [= <-]; (split; [reflexivity|]); eauto.
  - apply orb_false_elim in Hdates as [Hs He].
    intros [= <-]. split; [reflexivity|]. exists None, None.
    unfold parse_bound.
    destruct start_date as [[|? ?]|], end_date as [[|? ?]|]; try discriminate; auto.
Qed.

Lemma interpret_sound (query : Query) (p : SubmissionDoc -> bool) (doc : SubmissionDoc) :
  interpret query = inr p -> p doc = true ->
  (forall s, query_status query = Some s -> Status_str (status (model doc)) = s) /\
  (forall bounds, query_submitted_at query = Some bounds ->
                  in_range bounds (submitted_at (model doc)) = true).
Proof.
  unfold interpret.
  destruct (match query_or_regex query with
            | Some pattern => _
            | None => _
            end) as [e|regex]; [discriminate|].
  intros [= <-]. cbv beta zeta. intros Hp.
  apply andb_prop in Hp as [Hp Hdate]. apply andb_prop in Hp as [Hstatus _].
  split.
  - intros s Hs. rewrite Hs in Hstatus. now apply String.eqb_eq.
  - intros bounds Hb. now rewrite Hb in Hdate.
Qed.

(** Every listed item is a stored submission that passes the filter. *)
Lemma listed_items_selected (n : nat) (p : SubmissionDoc -> bool) (skip limit : Z)
      (d : DB) (item : Item) :
  In item (List.map to_item (window skip limit (listing n p d))) ->
  exists oid,
    item_id item = ObjectId.str oid /\
    submission d !! oid = Some (item_doc item) /\
    p (item_doc item) = true.
Proof.
  intros Hin. apply in_map_iff in Hin as ([oid doc] & <- & Hin).
  apply in_window in Hin.
  apply (Permutation_in _ (listing_perm n p d)) in Hin.
  apply (in_select submission_coll) in Hin as [Hdoc Hp].
  exists oid. auto.
Qed.

(** X14. With a non-empty [status] filter, every item [list_submissions]
    returns is a stored submission whose status is the one asked for,
    whatever the other filters and the page. *)
Theorem X14_status_filter (now : datetime) (authorization : option Token)
        (page page_size : Z) (q start_date end_date : option string) (wanted : string)
        (w : World) (response : ListResponse) :
  wanted <> EmptyString ->
  fst (list_submissions now authorization page page_size q (Some wanted)
         start_date end_date w) = inr response ->
  forall item,
    In item (items response) ->
    Status_str (status (model (item_doc item))) = wanted /\
    exists oid,
      item_id item = ObjectId.str oid /\
      submission (db w) !! oid = Some (item_doc item).
Proof.
  intros Hwanted Hok item Hitem.
  destruct (list_submissions_success _ _ _ _ _ _ _ _ _ _ Hok)
    as (query & p & Hquery & Hp & _ & -> & _).
  cbn [items] in Hitem.
  destruct (listed_items_selected _ _ _ _ _ _ Hitem) as (oid & Hid & Hdoc & Hpass).
  split; [|eauto].
  destruct (build_query_fields _ _ _ _ _ Hquery) as [Hstatus _].
  destruct wanted as [|c rest]; [contradiction|]. cbn in Hstatus.
  exact (proj1 (interpret_sound _ _ _ Hp Hpass) _ Hstatus).
Qed.

Lemma parse_bound_given (s : option string) (text : string) (bound : option datetime) :
  s = Some text -> text <> EmptyString -> parse_bound s = inr bound ->
  exists d, fromisoformat text = Some d /\ bound = Some d.
Proof.
  intros -> Hne. unfold parse_bound. destruct text as [|c rest]; [contradiction|].
  cbn [Str.truthy]. destruct (fromisoformat (String c rest)) as [d|]; [|discriminate].
  intros [= <-]. eauto.
Qed.

(** X15. Every item [list_submissions] returns has a submission date
    within the bounds given: not before a non-empty [start_date], not
    after a non-empty [end_date], both ends included, dates being taken
    to the millisecond. *)
Theorem X15_date_bounds (now : datetime) (authorization : option Token)
        (page page_size : Z) (q status start_date end_date : option string)
        (w : World) (response : ListResponse) (item : Item) :
  fst (list_submissions now authorization page page_size q status start_date end_date w)
  = inr response ->
  In item (items response) ->
  (forall text, start_date = Some text -> text <> EmptyString ->
                exists lo t, fromisoformat text = Some lo /\
                             submitted_at (model (item_doc item)) = Some t /\
                             millis lo <= millis t) /\
  (forall text, end_date = Some text -> text <> EmptyString ->
                exists hi t, fromisoformat text = Some hi /\
                             submitted_at (model (item_doc item)) = Some t /\
                             millis t <= millis hi).
Proof.
  intros Hok Hitem.
  destruct (list_submissions_success _ _ _ _ _ _ _ _ _ _ Hok)
    as (query & p & Hquery & Hp & _ & -> & _).
  cbn [items] in Hitem.
  destruct (listed_items_selected _ _ _ _ _ _ Hitem) as (oid & _ & _ & Hpass).
  destruct (build_query_fields _ _ _ _ _ Hquery) as (_ & gte & lte & Hgte & Hlte & Hdates).
  pose proof (proj2 (interpret_sound _ _ _ Hp Hpass)) as Hrange.
  split; intros text Htext Hne.
  - destruct (parse_bound_given _ _ _ Htext Hne Hgte) as (lo & Hlo & ->).
    assert (Hq : query_submitted_at query = Some (Some lo, lte))
      by (rewrite Hdates; now destruct lte).
    specialize (Hrange _ Hq). unfold in_range in Hrange. cbn [fst snd] in Hrange.
    destruct (submitted_at (model (item_doc item))) as [t|]; [|discriminate].
    apply andb_prop in Hrange as [Hlo' _]. apply Z.leb_le in Hlo'. eauto.
  - destruct (parse_bound_given _ _ _ Htext Hne Hlte) as (hi & Hhi & ->).
    assert (Hq : query_submitted_at query = Some (gte, Some hi))
      by (rewrite Hdates; now destruct gte).
    specialize (Hrange _ Hq). unfold in_range in Hrange. cbn [fst snd] in Hrange.
    destruct (submitted_at (model (item_doc item))) as [t|]; [|discriminate].
    apply andb_prop in Hrange as [_ Hhi']. apply Z.leb_le in Hhi'. eauto.
Qed.

(** The world a successful [list_submissions] leaves: the store as it
    was, two more calls in the log. *)
Lemma list_submissions_world (now : datetime) (authorization : option Token)
      (page page_size : Z) (q status start_date end_date : option string)
      (w : World) (response : ListResponse) :
  fst (list_submissions now authorization page page_size q status start_date end_date w)
  = inr response ->
  snd (list_submissions now authorization page page_size q status start_date end_date w)
  = mkWorld (db w)
      (calls w ++ [Call_count_documents "submission"; Call_find "submission"]).
Proof.
  intros Hok.
  destruct (list_submissions_success _ _ _ _ _ _ _ _ _ _ Hok)
    as (query & p & Hquery & Hp & Hskip & _ & token & admin & -> & Hadmin).
  now rewrite (list_submissions_run _ _ _ _ _ _ _ _ _ _ _ _ Hadmin Hquery Hp Hskip).
Qed.

(** X16. A successful [list_submissions] echoes [page] and [page_size]
    and returns no more items than [total] and, for a non-zero
    [page_size], no more than its absolute value. Asked next for page 1
    with [page_size] 0, with the same filters and a token still valid, it
    succeeds again with the same [total], returns that many items, and
    every item of the first answer is among them. *)
Theorem X16_pages (now later : datetime) (token : Token) (admin : Admin)
        (number size : Z) (q status start_date end_date : option string)
        (w : World) (response : ListResponse) :
  fst (list_submissions now (Some token) number size q status start_date end_date w)
  = inr response ->
  get_current_admin later token = inr admin ->
  page response = number /\
  page_size response = size /\
  Z.of_nat (length (items response)) <= total response /\
  (size <> 0 -> Z.of_nat (length (items response)) <= Z.abs size) /\
  exists everything,
    fst (list_submissions later (Some token) 1 0 q status start_date end_date
           (snd (list_submissions now (Some token) number size q status
                   start_date end_date w)))
    = inr everything /\
    total everything = total response /\
    Z.of_nat (length (items everything)) = total response /\
    forall item, In item (items response) -> In item (items everything).
Proof.
  intros Hok Hlater. rewrite (list_submissions_world _ _ _ _ _ _ _ _ _ _ Hok).
  destruct (list_submissions_success _ _ _ _ _ _ _ _ _ _ Hok)
    as (query & p & Hquery & Hp & Hskip & -> & _).
  cbn [page page_size items total].
  set (found := select submission_coll p (db w)).
  set (n := S (length (calls w))).
  assert (Hlen : forall m, length (listing m p (db w)) = length found)
    by (intros m; apply Permutation_length, listing_perm).
  destruct (length_window ((number - 1) * size) size (listing n p (db w)))
    as (Hle & Hsize & _).
  split; [reflexivity|]. split; [reflexivity|].
  rewrite length_map. split; [rewrite Hlen in Hle; lia|]. split; [exact Hsize|].
  assert (Hfirst : 0 <= (1 - 1) * 0) by discriminate.
  rewrite (list_submissions_run later token admin 1 0 q status start_date end_date
             query p _ Hlater Hquery Hp Hfirst).
  eexists. split; [reflexivity|]. cbn [fst items total db calls].
  fold found.
  match goal with
  | |- context [window ((1 - 1) * 0) 0 ?l] =>
      change (window ((1 - 1) * 0) 0 l) with l
  end.
  split; [reflexivity|]. split; [rewrite length_map, Hlen; lia|].
  intros item Hitem. apply in_map_iff in Hitem as (kv & <- & Hkv).
  apply in_map. apply in_window in Hkv.
  apply (Permutation_in _ (listing_perm n p (db w))) in Hkv.
  apply (Permutation_in (l := found)); [symmetry; apply listing_perm | exact Hkv].
Qed.

(** X17. The items [list_submissions] returns are ordered newest first:
    no item has a later submission date than the item before it. *)
Theorem X17_newest_first (now : datetime) (authorization : option Token)
        (number size : Z) (q status start_date end_date : option string)
        (w : World) (response : ListResponse) :
  fst (list_submissions now authorization number size q status start_date end_date w)
  = inr response ->
  Sorted not_older (items response).
Proof.
  intros Hok.
  destruct (list_submissions_success _ _ _ _ _ _ _ _ _ _ Hok)
    as (query & p & _ & _ & _ & -> & _).
  cbn [items].
  apply (Sorted_map (before sort_key) not_older to_item); [now intros [? ?] [? ?]|].
  apply window_sorted, listing_sorted.
Qed.

(** X18. A page before the first (a negative offset [(page - 1) *
    page_size]) is not refused as bad input. Whatever the filters, the
    answer is an exception that nothing catches (HTTP 500), the store is
    left as it was and no items are read. When the dates given can be
    read and the store accepts the pattern, the count is issued first and
    the exception is the [ValueError] of the cursor's [skip]. *)
Theorem X18_negative_offset (now : datetime) (token : Token) (admin : Admin)
        (number size : Z) (q status start_date end_date : option string) (w : World) :
  get_current_admin now token = inr admin ->
  (number - 1) * size < 0 ->
  (exists e rest,
      list_submissions now (Some token) number size q status start_date end_date w
      = (inl e, mkWorld (db w) (calls w ++ rest)) /\
      status_of e = 500 /\ ~ In (Call_find "submission") rest) /\
  forall query p,
    build_query q status start_date end_date = inr query ->
    interpret query = inr p ->
    list_submissions now (Some token) number size q status start_date end_date w
    = (inl (Unhandled "ValueError"),
       mkWorld (db w) (calls w ++ [Call_count_documents "submission"])).
Proof.
  intros Hadmin Hneg. apply Z.ltb_lt in Hneg.
  assert (Hrun : forall query p,
             build_query q status start_date end_date = inr query ->
             interpret query = inr p ->
             list_submissions now (Some token) number size q status start_date end_date w
             = (inl (Unhandled "ValueError"),
                mkWorld (db w) (calls w ++ [Call_count_documents "submission"]))).
  { intros query p Hquery Hp. unfold list_submissions.
    rewrite (depends_admin_accepted _ _ _ _ _ Hadmin).
    unfold bind, lift, count_documents, find_sorted, log, get_db, ret, raise, bind.
    rewrite Hquery, Hp. cbn. now rewrite Hneg. }
  split; [|exact Hrun].
  destruct (build_query q status start_date end_date) as [e|query] eqn:Hquery.
  - exists e, []. split; [|split; [|intros []]].
    + unfold list_submissions. rewrite (depends_admin_accepted _ _ _ _ _ Hadmin).
      unfold bind, lift. rewrite Hquery, app_nil_r. now destruct w.
    + unfold build_query in Hquery.
      destruct (Str.opt_truthy start_date || Str.opt_truthy end_date);
        [|discriminate].
      destruct (parse_bound_cases start_date) as [[_ Hs]|[gte Hs]];
        rewrite Hs in Hquery; [now injection Hquery as <-|].
      destruct (parse_bound_cases end_date) as [[_ He]|[lte He]];
        rewrite He in Hquery; [now injection Hquery as <-|].
      now destruct gte, lte.
  - destruct (interpret query) as [e|p] eqn:Hp.
    + exists e, [Call_count_documents "submission"]. split; [|split].
      * unfold list_submissions. rewrite (depends_admin_accepted _ _ _ _ _ Hadmin).
        unfold bind, lift, count_documents, log. now rewrite Hquery, Hp.
      * unfold interpret in Hp.
        destruct (query_or_regex query) as [pattern|]; [|discriminate].
        unfold regex_i in Hp.
        destruct (if Regex.printable pattern then Regex.compile pattern
                  else Regex.Unsupported); [discriminate|].
        destruct (regex_accepted pattern); [discriminate|].
        now injection Hp as <-.
      * intros [Hfind|[]]. discriminate Hfind.
    + exists (Unhandled "ValueError"), [Call_count_documents "submission"].
      split; [now apply (Hrun query p)|]. split; [reflexivity|].
      intros [Hfind|[]]. discriminate Hfind.
Qed.

(** A filter given as the empty string is no filter: in each of [q],
    [status], [start_date] and [end_date], the empty string gives the
    same answer as leaving the parameter out. *)
Lemma empty_filters_ignored (now : datetime) (authorization : option Token)
        (number size : Z) (q status start_date end_date : option string) (w : World) :
  list_submissions now authorization number size (Some EmptyString) status
    start_date end_date w
  = list_submissions now authorization number size None status start_date end_date w /\
  list_submissions now authorization number size q (Some EmptyString)
    start_date end_date w
  = list_submissions now authorization number size q None start_date end_date w /\
  list_submissions now authorization number size q status (Some EmptyString) end_date w
  = list_submissions now authorization number size q status None end_date w /\
  list_submissions now authorization number size q status start_date (Some EmptyString) w
  = list_submissions now authorization number size q status start_date None w.
Proof.
  repeat split.
Qed.

(** ** What the routes do to the store *)

Lemma depends_admin_cases {A} (now : datetime) (authorization : option Token)
      (k : M A) (w : World) :
  (exists e, (depends_admin now authorization;;; k) w = (inl e, w)) \/
  (exists token admin,
      authorization = Some token /\ get_current_admin now token = inr admin /\
      (depends_admin now authorization;;; k) w = k w).
Proof.
  destruct authorization as [token|].
  - destruct (get_current_admin now token) as [e|admin] eqn:Hadmin.
    + left. exists e. now apply depends_admin_rejected.
    + right. exists token, admin. split; [reflexivity|]. split; [exact Hadmin|].
      now apply (depends_admin_accepted now token admin).
  - left. eexists. reflexivity.
Qed.

Lemma get_file_db (file_id : string) (w : World) : db (snd (get_file file_id w)) = db w.
Proof.
  destruct (ObjectId.parse file_id) as [oid|] eqn:Hid.
  - rewrite (get_file_lookup _ _ _ Hid).
    match goal with
    | |- db (snd (match ?found with _ => _ end)) = _ => destruct found as [doc|]
    end; [|reflexivity].
    destruct (Base64.b64decode (content_b64 doc)); reflexivity.
  - unfold get_file, bind, or_raise, raise. now rewrite Hid.
Qed.

Lemma id_cases {A} (submission_id : string) (k : N -> M A) (w : World) :
  (ObjectId.parse submission_id = None /\
   (oid <- or_raise (ObjectId.parse submission_id) (Unhandled "InvalidId");; k oid) w
   = (inl (Unhandled "InvalidId"), w)) \/
  (exists oid, ObjectId.parse submission_id = Some oid /\
               (oid <- or_raise (ObjectId.parse submission_id) (Unhandled "InvalidId");;
                k oid) w = k oid w).
Proof.
  unfold bind, or_raise, raise, ret.
  destruct (ObjectId.parse submission_id) as [oid|]; [right; eauto | left; auto].
Qed.

Lemma list_submissions_db (now : datetime) (authorization : option Token)
      (number size : Z) (q status start_date end_date : option string) (w : World) :
  db (snd (list_submissions now authorization number size q status
             start_date end_date w)) = db w.
Proof.
  unfold list_submissions.
  match goal with
  | |- db (snd ((depends_admin _ _;;; ?k) _)) = _ =>
      destruct (depends_admin_cases now authorization k w)
        as [[e ->]|(token & admin & _ & _ & ->)]; [reflexivity|]
  end.
  unfold bind, lift, count_documents, find_sorted, log, get_db, ret, raise, bind.
  destruct (build_query q status start_date end_date) as [e|query]; [reflexivity|].
  destruct (interpret query) as [e|p]; [reflexivity|].
  destruct ((number - 1) * size <? 0); reflexivity.
Qed.

Lemma get_submission_db (now : datetime) (authorization : option Token)
      (submission_id : string) (w : World) :
  db (snd (get_submission now authorization submission_id w)) = db w.
Proof.
  unfold get_submission.
  match goal with
  | |- db (snd ((depends_admin _ _;;; ?k) _)) = _ =>
      destruct (depends_admin_cases now authorization k w)
        as [[e ->]|(token & admin & -> & Hadmin & _)]; [reflexivity|]
  end.
  fold (get_submission now (Some token) submission_id w).
  destruct (ObjectId.parse submission_id) as [oid|] eqn:Hid.
  - rewrite (get_submission_lookup _ _ _ _ _ _ Hadmin Hid). reflexivity.
  - unfold get_submission. rewrite (depends_admin_accepted _ _ _ _ _ Hadmin).
    unfold bind, or_raise, raise. now rewrite Hid.
Qed.

Lemma download_submission_pdf_db (now : datetime) (authorization : option Token)
      (submission_id : string) (w : World) :
  db (snd (download_submission_pdf now authorization submission_id w)) = db w.
Proof.
  unfold download_submission_pdf.
  match goal with
  | |- db (snd ((depends_admin _ _;;; ?k) _)) = _ =>
      destruct (depends_admin_cases now authorization k w)
        as [[e ->]|(token & admin & -> & Hadmin & _)]; [reflexivity|]
  end.
  fold (download_submission_pdf now (Some token) submission_id w).
  destruct (ObjectId.parse submission_id) as [oid|] eqn:Hid.
  - rewrite (download_lookup _ _ _ _ _ _ Hadmin Hid). cbv zeta.
    match goal with
    | |- db (snd (match ?found with _ => _ end)) = _ => destruct found as [doc|]
    end; [|reflexivity].
    destruct (Str.opt_truthy (file_key (model doc))); [|reflexivity].
    now rewrite get_file_db.
  - unfold download_submission_pdf. rewrite (depends_admin_accepted _ _ _ _ _ Hadmin).
    unfold bind, or_raise, raise. now rewrite Hid.
Qed.

(** X19. The routes that read change nothing in the store: after
    [get_file], [list_submissions], [get_submission] and
    [download_submission_pdf], whatever they are given and whatever they
    answer, the three collections and the identifier counter are as
    before. *)
Theorem X19_reads_leave_the_store (now : datetime) (authorization : option Token)
        (some_id : string) (number size : Z) (q status start_date end_date : option string)
        (w : World) :
  db (snd (get_file some_id w)) = db w /\
  db (snd (list_submissions now authorization number size q status
             start_date end_date w)) = db w /\
  db (snd (get_submission now authorization some_id w)) = db w /\
  db (snd (download_submission_pdf now authorization some_id w)) = db w.
Proof.
  split; [apply get_file_db|]. split; [apply list_submissions_db|].
  split; [apply get_submission_db | apply download_submission_pdf_db].
Qed.

(** *** Every route changes the store by single writes only *)

Lemma linked_keys (name email novel_title synopsis : string) (message : option string)
      (file : option UploadFile) (w w1 : World) (keys : option string * option string)
      (now : datetime) :
  store_upload file w = (inr keys, w1) ->
  linked (mkSubmission name email novel_title synopsis message (fst keys) (snd keys)
            Pending [] (Some now)).
Proof.
  intros Hup.
  destruct (store_upload_success _ _ _ _ Hup) as [(_ & -> & _)|(f & _ & _ & _ & -> & _)].
  - now left.
  - right. eexists. split; reflexivity.
Qed.

Lemma submit_project_writes (now now_logged : datetime)
      (name email novel_title synopsis : string) (message : option string)
      (file : option UploadFile) (w : World) :
  rtc store_write (db w)
    (db (snd (submit_project now now_logged name email novel_title synopsis message
                file w))).
Proof.
  destruct (store_upload file w) as [[e|keys] w1] eqn:Hup.
  - pose proof (store_upload_failure _ _ _ _ Hup) as ->.
    rewrite (submit_project_rejected _ _ _ _ _ _ _ _ _ _ Hup). reflexivity.
  - rewrite (submit_project_run _ _ _ _ _ _ _ _ _ _ _ Hup).
    assert (Hw1 : rtc store_write (db w) (db w1)).
    { destruct (store_upload_success _ _ _ _ Hup)
        as [(_ & _ & ->)|(f & _ & _ & _ & _ & ->)]; [reflexivity|].
      apply rtc_once. apply (write_file (db w)). }
    unfold Submission_new. destruct (validate_email email) as [address|]; [|exact Hw1].
    etrans; [exact Hw1|]. cbn [snd].
    eapply rtc_l.
    { apply (write_submission (db w1)
               (mkSubmission name address novel_title synopsis message (fst keys)
                  (snd keys) Pending [] (Some now))).
      exact (linked_keys _ _ _ _ _ _ _ _ _ _ Hup). }
    apply rtc_once.
    apply (write_notification
             (db (created submission_coll
                    (mkSubmissionDoc
                       (mkSubmission name address novel_title synopsis message
                          (fst keys) (snd keys) Pending [] (Some now)) None) w1))).
Qed.

Lemma update_submission_writes (now : datetime) (authorization : option Token)
      (submission_id : string) (payload : UpdateSubmission) (w : World) :
  rtc store_write (db w)
    (db (snd (update_submission now authorization submission_id payload w))).
Proof.
  unfold update_submission.
  match goal with
  | |- rtc _ _ (db (snd ((depends_admin _ _;;; ?k) _))) =>
      destruct (depends_admin_cases now authorization k w)
        as [[e ->]|(token & admin & -> & Hadmin & _)]; [reflexivity|]
  end.
  fold (update_submission now (Some token) submission_id payload w).
  destruct (ObjectId.parse submission_id) as [oid|] eqn:Hid.
  - rewrite (update_submission_run _ _ _ _ _ _ _ Hadmin Hid). cbn [snd db].
    unfold updated_submissions.
    destruct (Str.opt_truthy (add_note payload)).
    + eapply rtc_l; [apply (write_push (db w) (default EmptyString (add_note payload)) oid)|].
      apply rtc_once.
      pose proof (write_set
                    (coll_set submission_coll
                       (alter (push_note (default EmptyString (add_note payload))) oid
                          (submission (db w))) (db w))
                    now (new_status payload) oid) as Hset.
      cbn in Hset |- *. exact Hset.
    + apply rtc_once. apply (write_set (db w) now (new_status payload) oid).
  - unfold update_submission. rewrite (depends_admin_accepted _ _ _ _ _ Hadmin).
    unfold bind, or_raise, raise, ret. rewrite Hid.
    destruct (Str.opt_truthy (add_note payload)); reflexivity.
Qed.

Lemma delete_submission_writes (now : datetime) (authorization : option Token)
      (submission_id : string) (w : World) :
  rtc store_write (db w) (db (snd (delete_submission now authorization submission_id w))).
Proof.
  unfold delete_submission.
  match goal with
  | |- rtc _ _ (db (snd ((depends_admin _ _;;; ?k) _))) =>
      destruct (depends_admin_cases now authorization k w)
        as [[e ->]|(token & admin & -> & Hadmin & _)]; [reflexivity|]
  end.
  fold (delete_submission now (Some token) submission_id w).
  destruct (ObjectId.parse submission_id) as [oid|] eqn:Hid.
  - rewrite (delete_submission_run _ _ _ _ _ _ Hadmin Hid). cbn [snd db].
    apply rtc_once. apply (write_delete (db w) oid).
  - unfold delete_submission. rewrite (depends_admin_accepted _ _ _ _ _ Hadmin).
    unfold bind, or_raise, raise, ret. now rewrite Hid.
Qed.

Lemma serve_writes (r : Request) (w : World) : rtc store_write (db w) (db (serve r w)).
Proof.
  destruct r as [| |now now_logged form|file_id|now username password
                |now authorization number size q status start_date end_date
                |now authorization submission_id
                |now authorization submission_id payload
                |now authorization submission_id
                |now authorization submission_id]; cbn [serve].
  - reflexivity.
  - reflexivity.
  - unfold post_api_submit.
    destruct (Form_required (form_name form)); [|reflexivity].
    destruct (Form_required (form_email form)); [|reflexivity].
    destruct (Form_required (form_novel_title form)); [|reflexivity].
    destruct (Form_required (form_synopsis form)); [|reflexivity].
    apply submit_project_writes.
  - now rewrite get_file_db.
  - reflexivity.
  - now rewrite list_submissions_db.
  - now rewrite get_submission_db.
  - apply update_submission_writes.
  - apply delete_submission_writes.
  - now rewrite download_submission_pdf_db.
Qed.

Lemma serve_all_writes (rs : list Request) (w : World) :
  rtc store_write (db w) (db (serve_all rs w)).
Proof.
  unfold serve_all. revert w. induction rs as [|r rs IH]; intros w; cbn [fold_left].
  - reflexivity.
  - etrans; [apply serve_writes | apply IH].
Qed.

(** *** What single writes preserve *)

Lemma write_next_id (d d' : DB) : store_write d d' -> (next_id d <= next_id d')%N.
Proof. intros []; cbn; lia. Qed.

Lemma write_fresh (d d' : DB) : store_write d d' -> fresh_ids d -> fresh_ids d'.
Proof.
  intros Hw Hfresh k. destruct Hw; cbn; intros Hk.
  - destruct (Hfresh k ltac:(lia)) as (? & ? & ?).
    rewrite lookup_insert_ne by lia. auto.
  - destruct (Hfresh k ltac:(lia)) as (? & ? & ?).
    rewrite lookup_insert_ne by lia. auto.
  - destruct (Hfresh k ltac:(lia)) as (? & ? & ?).
    rewrite lookup_insert_ne by lia. auto.
  - destruct (Hfresh k Hk) as (? & ? & ?). rewrite lookup_alter_None. auto.
  - destruct (Hfresh k Hk) as (? & ? & ?). rewrite lookup_alter_None. auto.
  - destruct (Hfresh k Hk) as (Hs & ? & ?). split; [|auto].
    destruct (decide (oid = k)) as [->|Hne];
      [apply lookup_delete_eq | now rewrite lookup_delete_ne].
Qed.

Lemma write_keeps_files (d d' : DB) (k : N) (f : StoredFile) :
  store_write d d' -> fresh_ids d ->
  submission_files d !! k = Some f -> submission_files d' !! k = Some f.
Proof.
  intros Hw Hfresh Hk. destruct Hw; cbn; try exact Hk.
  rewrite lookup_insert_ne; [exact Hk|]. intros <-.
  destruct (Hfresh (next_id d) ltac:(lia)) as (_ & Hnone & _). congruence.
Qed.

Lemma write_keeps_notifications (d d' : DB) (k : N) (n : NotificationLog) :
  store_write d d' -> fresh_ids d ->
  notifications d !! k = Some n -> notifications d' !! k = Some n.
Proof.
  intros Hw Hfresh Hk. destruct Hw; cbn; try exact Hk.
  rewrite lookup_insert_ne; [exact Hk|]. intros <-.
  destruct (Hfresh (next_id d) ltac:(lia)) as (_ & _ & Hnone). congruence.
Qed.

Lemma write_linked (d d' : DB) : store_write d d' -> all_linked d -> all_linked d'.
Proof.
  intros Hw Hall k doc. destruct Hw as [f|data Hdata|n|note oid|now new oid|oid]; cbn.
  - apply Hall.
  - destruct (decide (next_id d = k)) as [<-|Hne].
    + rewrite lookup_insert_eq. now intros [= <-].
    + rewrite lookup_insert_ne by exact Hne. apply Hall.
  - apply Hall.
  - destruct (decide (oid = k)) as [<-|Hne].
    + rewrite lookup_alter_eq. destruct (submission d !! oid) as [old|] eqn:Hold;
        [|discriminate]. intros [= <-]. exact (Hall _ _ Hold).
    + rewrite lookup_alter_ne by exact Hne. apply Hall.
  - destruct (decide (oid = k)) as [<-|Hne].
    + rewrite lookup_alter_eq. destruct (submission d !! oid) as [old|] eqn:Hold;
        [|discriminate]. intros [= <-]. exact (Hall _ _ Hold).
    + rewrite lookup_alter_ne by exact Hne. apply Hall.
  - destruct (decide (oid = k)) as [<-|Hne].
    + now rewrite lookup_delete_eq.
    + rewrite lookup_delete_ne by exact Hne. apply Hall.
Qed.

Lemma evolves_refl (doc : SubmissionDoc) : evolves doc doc.
Proof. unfold evolves. repeat split. exists []. now rewrite app_nil_r. Qed.

Lemma evolves_trans (a b c : SubmissionDoc) : evolves a b -> evolves b c -> evolves a c.
Proof.
  unfold evolves.
  intros (? & ? & ? & ? & ? & ? & ? & ? & added1 & Hn1)
         (? & ? & ? & ? & ? & ? & ? & ? & added2 & Hn2).
  repeat split; try congruence.
  exists (added1 ++ added2). rewrite Hn2, Hn1. now rewrite app_assoc.
Qed.

Lemma push_note_evolves (note : string) (doc : SubmissionDoc) :
  evolves doc (push_note note doc).
Proof. unfold evolves. cbn. repeat split. now exists [note]. Qed.

Lemma set_updates_evolves (now : datetime) (new : option Status) (doc : SubmissionDoc) :
  evolves doc (set_updates now new doc).
Proof. unfold evolves. cbn. repeat split. exists []. now rewrite app_nil_r. Qed.

Lemma write_evolves (d d' : DB) (k : N) (doc : SubmissionDoc) :
  store_write d d' -> fresh_ids d ->
  submission d !! k = Some doc ->
  submission d' !! k = None \/
  exists doc', submission d' !! k = Some doc' /\ evolves doc doc'.
Proof.
  intros Hw Hfresh Hk.
  assert (Hsame : submission d !! k = None \/
                  exists doc', submission d !! k = Some doc' /\ evolves doc doc')
    by (right; exists doc; split; [exact Hk | apply evolves_refl]).
  destruct Hw as [f|data Hdata|n|note oid|now new oid|oid]; cbn; try exact Hsame.
  - right. exists doc. split; [|apply evolves_refl].
    rewrite lookup_insert_ne; [exact Hk|]. intros <-.
    destruct (Hfresh (next_id d) ltac:(lia)) as (Hnone & _). congruence.
  - right. destruct (decide (oid = k)) as [<-|Hne].
    + rewrite lookup_alter_eq, Hk. eexists. split; [reflexivity|]. apply push_note_evolves.
    + rewrite lookup_alter_ne by exact Hne. exists doc. split; [exact Hk|apply evolves_refl].
  - right. destruct (decide (oid = k)) as [<-|Hne].
    + rewrite lookup_alter_eq, Hk. eexists. split; [reflexivity|].
      apply set_updates_evolves.
    + rewrite lookup_alter_ne by exact Hne. exists doc. split; [exact Hk|apply evolves_refl].
  - destruct (decide (oid = k)) as [<-|Hne].
    + left. apply lookup_delete_eq.
    + rewrite lookup_delete_ne by exact Hne. exact Hsame.
Qed.

Lemma write_no_return (d d' : DB) (k : N) :
  store_write d d' -> (k < next_id d)%N ->
  submission d !! k = None -> submission d' !! k = None.
Proof.
  intros Hw Hk Hnone. destruct Hw; cbn; try exact Hnone.
  - rewrite lookup_insert_ne by lia. exact Hnone.
  - now rewrite lookup_alter_None.
  - now rewrite lookup_alter_None.
  - destruct (decide (oid = k)) as [<-|Hne];
      [apply lookup_delete_eq | now rewrite lookup_delete_ne].
Qed.

(** *** ... and so do all sequences of writes *)

Lemma writes_next_id (d d' : DB) : rtc store_write d d' -> (next_id d <= next_id d')%N.
Proof.
  induction 1 as [|d d1 d' Hw _ IH]; [lia|].
  pose proof (write_next_id _ _ Hw). lia.
Qed.

Lemma writes_fresh (d d' : DB) : rtc store_write d d' -> fresh_ids d -> fresh_ids d'.
Proof. induction 1 as [|d d1 d' Hw _ IH]; eauto using write_fresh. Qed.

Lemma writes_keep_files (d d' : DB) (k : N) (f : StoredFile) :
  rtc store_write d d' -> fresh_ids d ->
  submission_files d !! k = Some f -> submission_files d' !! k = Some f.
Proof.
  induction 1 as [|d d1 d' Hw _ IH]; eauto using write_fresh, write_keeps_files.
Qed.

Lemma writes_keep_notifications (d d' : DB) (k : N) (n : NotificationLog) :
  rtc store_write d d' -> fresh_ids d ->
  notifications d !! k = Some n -> notifications d' !! k = Some n.
Proof.
  induction 1 as [|d d1 d' Hw _ IH]; eauto using write_fresh, write_keeps_notifications.
Qed.

Lemma writes_linked (d d' : DB) : rtc store_write d d' -> all_linked d -> all_linked d'.
Proof. induction 1 as [|d d1 d' Hw _ IH]; eauto using write_linked. Qed.

Lemma writes_no_return (d d' : DB) (k : N) :
  rtc store_write d d' -> (k < next_id d)%N ->
  submission d !! k = None -> submission d' !! k = None.
Proof.
  induction 1 as [|d d1 d' Hw _ IH]; [auto|]. intros Hk Hnone.
  apply IH; [pose proof (write_next_id _ _ Hw); lia|].
  now apply (write_no_return d d1).
Qed.

Lemma writes_evolve (d d' : DB) (k : N) (doc : SubmissionDoc) :
  rtc store_write d d' -> fresh_ids d ->
  submission d !! k = Some doc ->
  submission d' !! k = None \/
  exists doc', submission d' !! k = Some doc' /\ evolves doc doc'.
Proof.
  intros Hws. revert doc. induction Hws as [|d d1 d' Hw Hws IH]; intros doc Hfresh Hk.
  - right. exists doc. split; [exact Hk | apply evolves_refl].
  - assert (Hlt : (k < next_id d)%N).
    { destruct (N.lt_ge_cases k (next_id d)) as [Hlt|Hge]; [exact Hlt|].
      destruct (Hfresh k Hge) as (Hnone & _). congruence. }
    destruct (write_evolves _ _ _ _ Hw Hfresh Hk) as [Hgone|(doc1 & Hk1 & Hev1)].
    + left. apply (writes_no_return d1 d'); [exact Hws| |exact Hgone].
      pose proof (write_next_id _ _ Hw). lia.
    + destruct (IH doc1 (write_fresh _ _ Hw Hfresh) Hk1) as [Hgone|(doc2 & Hk2 & Hev2)];
        [now left|].
      right. exists doc2. split; [exact Hk2|]. now apply (evolves_trans doc doc1 doc2).
Qed.

(** *** The store over any sequence of requests *)

(** X20. Starting from a store in which no document sits under an
    identifier not yet handed out, this stays so after any sequence of
    requests, and a submission that succeeds then is stored under an
    identifier no document of any collection had: [create_document] never
    overwrites. *)
Theorem X20_identifiers_are_new (rs : list Request) (w : World)
        (now now_logged : datetime) (name email novel_title synopsis : string)
        (message : option string) (file : option UploadFile) (response : SubmitResponse) :
  fresh_ids (db w) ->
  fst (submit_project now now_logged name email novel_title synopsis message file
         (serve_all rs w)) = inr response ->
  fresh_ids (db (serve_all rs w)) /\
  exists oid,
    id response = ObjectId.str oid /\
    submission (db (serve_all rs w)) !! oid = None /\
    submission_files (db (serve_all rs w)) !! oid = None /\
    notifications (db (serve_all rs w)) !! oid = None.
Proof.
  intros Hfresh Hok.
  pose proof (writes_fresh _ _ (serve_all_writes rs w) Hfresh) as Hfresh'.
  split; [exact Hfresh'|].
  destruct (submit_project_success _ _ _ _ _ _ _ _ _ _ Hok)
    as (address & keys & w1 & _ & Hup & -> & _).
  exists (next_id (db w1)). split; [reflexivity|].
  apply Hfresh'.
  destruct (store_upload_success _ _ _ _ Hup) as [(_ & _ & ->)|(f & _ & _ & _ & _ & ->)];
    cbn; lia.
Qed.

(** X21. No route changes or removes a stored file or a logged
    notification: whatever requests are served, each is found afterwards
    under its identifier as it was written. *)
Theorem X21_files_and_logs_are_kept (rs : list Request) (w : World) :
  fresh_ids (db w) ->
  (forall k f, submission_files (db w) !! k = Some f ->
               submission_files (db (serve_all rs w)) !! k = Some f) /\
  (forall k n, notifications (db w) !! k = Some n ->
               notifications (db (serve_all rs w)) !! k = Some n).
Proof.
  intros Hfresh. split; intros k x Hk.
  - exact (writes_keep_files _ _ _ _ (serve_all_writes rs w) Hfresh Hk).
  - exact (writes_keep_notifications _ _ _ _ (serve_all_writes rs w) Hfresh Hk).
Qed.

(** X22. Once [submit_project] has stored a PDF, the file endpoint serves
    the uploaded bytes and MIME type under its identifier after any
    further requests, deletions of submissions included. *)
Theorem X22_upload_stays_served (now now_logged : datetime)
        (name email novel_title synopsis : string) (message : option string)
        (f : UploadFile) (w : World) (rs : list Request) :
  Str.endswith ".pdf" (Str.lower (upload_filename f)) = true ->
  Z.of_nat (length (upload_content f)) <= 10 * 1024 * 1024 ->
  fresh_ids (db w) ->
  (next_id (db w) < ObjectId.limit)%N ->
  fst (get_file (ObjectId.str (next_id (db w)))
         (serve_all rs
            (snd (submit_project now now_logged name email novel_title synopsis message
                    (Some f) w))))
  = inr (mkFileResponse (upload_content f) (str_or (content_type f) "application/pdf")).
Proof.
  intros Hpdf Hsize Hfresh Hid.
  set (w1 := snd (submit_project now now_logged name email novel_title synopsis message
                    (Some f) w)).
  assert (Hstored : submission_files (db w1) !! next_id (db w) = Some (stored_file_of f)).
  { subst w1.
    rewrite (submit_project_run _ _ _ _ _ _ _ _ _ _ _ (store_upload_accepted f w Hpdf Hsize)).
    unfold Submission_new. destruct (validate_email email); cbn; apply lookup_insert_eq. }
  assert (Hfresh1 : fresh_ids (db w1))
    by (subst w1; exact (writes_fresh _ _ (submit_project_writes _ _ _ _ _ _ _ _ _) Hfresh)).
  pose proof (writes_keep_files _ _ _ _ (serve_all_writes rs w1) Hfresh1 Hstored) as Hkept.
  rewrite (get_file_run _ _ _ _ _ (ObjectIdFacts.parse_str _ Hid) Hkept
             (Base64Facts.b64decode_b64encode _)).
  reflexivity.
Qed.

(** X23. In every stored submission [file_url] and [file_key] are both
    absent, or both present with the URL "/api/files/" followed by the
    key: no sequence of requests breaks this. *)
Theorem X23_file_fields_go_together (rs : list Request) (w : World)
        (k : N) (doc : SubmissionDoc) :
  all_linked (db w) ->
  submission (db (serve_all rs w)) !! k = Some doc ->
  (file_url (model doc) = None /\ file_key (model doc) = None) \/
  exists key, file_key (model doc) = Some key /\
              file_url (model doc) = Some ("/api/files/" +:+ key).
Proof.
  intros Hall Hk. exact (writes_linked _ _ (serve_all_writes rs w) Hall k doc Hk).
Qed.

(** X24. Whatever requests are served, a stored submission is afterwards
    either deleted or still holds what the author submitted (name,
    address, title, synopsis, message, file fields, submission date), and
    its notes are the old notes with further notes after them: notes are
    never edited, removed or reordered. *)
Theorem X24_submissions_only_gain_notes (rs : list Request) (w : World)
        (k : N) (doc : SubmissionDoc) :
  fresh_ids (db w) ->
  submission (db w) !! k = Some doc ->
  submission (db (serve_all rs w)) !! k = None \/
  exists doc',
    submission (db (serve_all rs w)) !! k = Some doc' /\
    name (model doc') = name (model doc) /\
    email (model doc') = email (model doc) /\
    novel_title (model doc') = novel_title (model doc) /\
    synopsis (model doc') = synopsis (model doc) /\
    message (model doc') = message (model doc) /\
    file_url (model doc') = file_url (model doc) /\
    file_key (model doc') = file_key (model doc) /\
    submitted_at (model doc') = submitted_at (model doc) /\
    exists added, notes (model doc') = notes (model doc) ++ added.
Proof.
  intros Hfresh Hk.
  exact (writes_evolve _ _ _ _ (serve_all_writes rs w) Hfresh Hk).
Qed.

(** X25. A deleted submission does not come back: after
    [delete_submission] of a stored submission and any further requests,
    [get_submission] answers its identifier with 404. *)
Theorem X25_deleted_stays_deleted (now later : datetime) (token token' : Token)
        (admin admin' : Admin) (submission_id : string) (oid : N) (doc : SubmissionDoc)
        (w : World) (rs : list Request) :
  get_current_admin now token = inr admin ->
  get_current_admin later token' = inr admin' ->
  ObjectId.parse submission_id = Some oid ->
  fresh_ids (db w) ->
  submission (db w) !! oid = Some doc ->
  fst (get_submission later (Some token') submission_id
         (serve_all rs (snd (delete_submission now (Some token) submission_id w))))
  = inl (HTTPException 404 "Not found").
Proof.
  intros Hadmin Hadmin' Hid Hfresh Hdoc.
  rewrite (delete_submission_run _ _ _ _ _ _ Hadmin Hid). cbn [snd].
  rewrite (get_submission_lookup _ _ _ _ _ _ Hadmin' Hid). cbn [fst].
  assert (Hlt : (oid < next_id (db w))%N).
  { destruct (N.lt_ge_cases oid (next_id (db w))) as [Hlt|Hge]; [exact Hlt|].
    destruct (Hfresh oid Hge) as (Hnone & _). congruence. }
  match goal with
  | |- context [serve_all rs ?w1] =>
      assert (Hgone : submission (db (serve_all rs w1)) !! oid = None)
  end.
  { apply (writes_no_return _ _ _ (serve_all_writes rs _)); cbn; [exact Hlt|].
    apply lookup_delete_eq. }
  now rewrite Hgone.
Qed.

End MoreFacts.


(** ** The further properties at concrete requests *)

Lemma empty_store_fresh : fresh_ids Demo.empty_db.
Proof. intros k _. repeat split; apply lookup_empty. Qed.

Lemma one_store_fresh : fresh_ids (db Demo.one_world).
Proof.
  intros k Hk. cbn in Hk. repeat split; cbn; try apply lookup_empty.
  apply lookup_singleton_ne. lia.
Qed.

Lemma one_store_linked : all_linked (db Demo.one_world).
Proof.
  intros k doc. cbn. intros Hk. apply lookup_singleton_Some in Hk as [_ <-]. now left.
Qed.

Lemma token_valid_later :
  get_current_admin (E := Demo.env) Scenario.later Demo.token
  = inr (mkAdmin "admin@arstudios.com").
Proof. reflexivity. Qed.

Lemma X1_witness :
  Str.lower "Admin@ARStudios.com" = Str.lower (ADMIN_EMAIL (Env := Demo.env)) /\
  verify_admin_password (Env := Demo.env) "admin1234" = Some true /\
  exists response,
    admin_login (E := Demo.env) Demo.t0 "Admin@ARStudios.com" "admin1234" = inr response /\
    token_type response = "bearer"%string /\
    (timegm Scenario.later <= timegm Demo.t0 + 12 * 3600 ->
     get_current_admin (E := Demo.env) Scenario.later (access_token response)
     = inr (mkAdmin (ADMIN_EMAIL (Env := Demo.env)))) /\
    (timegm Demo.t0 + 12 * 3600 < timegm Scenario.later ->
     get_current_admin (E := Demo.env) Scenario.later (access_token response)
     = inl (HTTPException 401 "Could not validate credentials")).
Proof.
  split; [reflexivity|]. split; [reflexivity|].
  exact (X1_login_token_window (E := Demo.env) Demo.t0 Scenario.later
           "Admin@ARStudios.com" "admin1234" eq_refl eq_refl).
Defined.


Lemma X3_witness :
  representable
    (Demo.t0 + (if timedelta_of_hours 1 =? 0 then timedelta_of_hours 12
                else timedelta_of_hours 1)) /\
  (get_current_admin (E := Demo.env) Scenario.later
     (create_access_token (E := Demo.env) Demo.t0
        (mkClaims (Some (ADMIN_EMAIL (Env := Demo.env))) None)
        (Some (timedelta_of_hours 1)))
   = inr (mkAdmin (ADMIN_EMAIL (Env := Demo.env)))
   <-> timegm Scenario.later
       <= timegm (Demo.t0 + (if timedelta_of_hours 1 =? 0 then timedelta_of_hours 12
                             else timedelta_of_hours 1))).
Proof.
  assert (Hrange : representable
                     (Demo.t0 + (if timedelta_of_hours 1 =? 0 then timedelta_of_hours 12
                                 else timedelta_of_hours 1)))
    by (split; discriminate).
  split; [exact Hrange|].
  exact (X3_explicit_lifetime (E := Demo.env) Demo.t0 Scenario.later
           (timedelta_of_hours 1) Hrange).
Defined.

Lemma X4_witness :
  ObjectId.parse (ObjectId.str 9%N) = Some 9%N /\
  submission_files (db Demo.one_world) !! 9%N = None /\
  get_file (ObjectId.str 9%N) Demo.one_world
  = (inl (HTTPException 404 "File not found"),
     mkWorld (db Demo.one_world)
       (calls Demo.one_world ++ [Call_find_one "submission_files" 9%N])).
Proof.
  assert (Hid : ObjectId.parse (ObjectId.str 9%N) = Some 9%N) by reflexivity.
  assert (Hnone : submission_files (db Demo.one_world) !! 9%N = None) by reflexivity.
  split; [exact Hid|]. split; [exact Hnone|].
  exact (X4_get_file_not_found (ObjectId.str 9%N) 9%N Demo.one_world Hid Hnone).
Defined.

Lemma X5_witness :
  get_current_admin (E := Demo.env) Demo.t0 Demo.token = inr (mkAdmin "admin@arstudios.com") /\
  String.length "42" <> 24%nat /\
  get_submission (E := Demo.env) Demo.t0 (Some Demo.token) "42" Demo.one_world
  = (inl (Unhandled "InvalidId"), Demo.one_world).
Proof.
  assert (Hlen : String.length "42" <> 24%nat) by discriminate.
  split; [reflexivity|]. split; [exact Hlen|].
  exact (proj1 (proj2 (X5_malformed_id_is_a_server_error (E := Demo.env) Demo.t0 Demo.token
                         (mkAdmin "admin@arstudios.com") "42"
                         (mkUpdateSubmission None None) Demo.one_world eq_refl Hlen))).
Defined.

Lemma X6_witness :
  fst Scenario.without_file = inr (mkSubmitResponse true (ObjectId.str 1%N)) /\
  get_current_admin (E := Demo.env) Scenario.later Demo.token
  = inr (mkAdmin "admin@arstudios.com") /\
  (next_id (db Demo.empty_world) + 1 < ObjectId.limit)%N /\
  exists address url key stored_at,
    validate_email (Env := Demo.env) "bob@Example.org" = Some address /\
    fst (get_submission (E := Demo.env) Scenario.later (Some Demo.token)
           (id (mkSubmitResponse true (ObjectId.str 1%N))) (snd Scenario.without_file))
    = inr (mkItem (id (mkSubmitResponse true (ObjectId.str 1%N)))
             (mkSubmissionDoc
                (mkSubmission "Bob" address "Title" "Synopsis" None url key
                   Pending [] (Some stored_at)) None)) /\
    same_millisecond stored_at Demo.t0 /\
    (key = None <-> @None UploadFile = None) /\
    (url = None <-> @None UploadFile = None).
Proof.
  assert (Hok : fst Scenario.without_file = inr (mkSubmitResponse true (ObjectId.str 1%N)))
    by (vm_compute; reflexivity).
  assert (Hlimit : (next_id (db Demo.empty_world) + 1 < ObjectId.limit)%N) by reflexivity.
  split; [exact Hok|]. split; [exact token_valid_later|]. split; [exact Hlimit|].
  exact (X6_submit_then_get (E := Demo.env) Demo.t0 Demo.t0 Scenario.later "Bob"
           "bob@Example.org" "Title" "Synopsis" None None Demo.empty_world
           (mkSubmitResponse true (ObjectId.str 1%N)) Demo.token
           (mkAdmin "admin@arstudios.com") Hok token_valid_later Hlimit).
Defined.

Lemma X7_witness :
  fst Scenario.with_pdf = inr (mkSubmitResponse true (ObjectId.str 2%N)) /\
  get_current_admin (E := Demo.env) Scenario.later Demo.token
  = inr (mkAdmin "admin@arstudios.com") /\
  (next_id (db Demo.empty_world) + 1 < ObjectId.limit)%N /\
  fst (download_submission_pdf (E := Demo.env) Scenario.later (Some Demo.token)
         (id (mkSubmitResponse true (ObjectId.str 2%N))) (snd Scenario.with_pdf))
  = inr (mkFileResponse (upload_content Demo.pdf)
           (str_or (content_type Demo.pdf) "application/pdf")).
Proof.
  assert (Hok : fst Scenario.with_pdf = inr (mkSubmitResponse true (ObjectId.str 2%N)))
    by (vm_compute; reflexivity).
  assert (Hlimit : (next_id (db Demo.empty_world) + 1 < ObjectId.limit)%N) by reflexivity.
  split; [exact Hok|]. split; [exact token_valid_later|]. split; [exact Hlimit|].
  exact (X7_submit_then_download (E := Demo.env) Demo.t0 Demo.t0 Scenario.later "Bob"
           "bob@Example.org" "Title" "Synopsis" None Demo.pdf Demo.empty_world
           (mkSubmitResponse true (ObjectId.str 2%N)) Demo.token
           (mkAdmin "admin@arstudios.com") Hok token_valid_later Hlimit).
Defined.

Lemma X8_witness :
  get_current_admin (E := Demo.env) Scenario.later Demo.token
  = inr (mkAdmin "admin@arstudios.com") /\
  ObjectId.parse Scenario.abc_id = Some 1%N /\
  (forall doc, submission (db Demo.one_world) !! 1%N = Some doc ->
               Str.opt_truthy (file_key (model doc)) = false) /\
  download_submission_pdf (E := Demo.env) Scenario.later (Some Demo.token) Scenario.abc_id
    Demo.one_world
  = (inl (HTTPException 404 "File not found"),
     mkWorld (db Demo.one_world) (calls Demo.one_world ++ [Call_find_one "submission" 1%N])).
Proof.
  assert (Hid : ObjectId.parse Scenario.abc_id = Some 1%N) by reflexivity.
  assert (Hnofile : forall doc, submission (db Demo.one_world) !! 1%N = Some doc ->
                                Str.opt_truthy (file_key (model doc)) = false).
  { intros doc Hdoc. cbn in Hdoc. apply lookup_singleton_Some in Hdoc as [_ <-].
    reflexivity. }
  split; [exact token_valid_later|]. split; [exact Hid|]. split; [exact Hnofile|].
  exact (X8_download_without_file (E := Demo.env) Scenario.later Demo.token
           (mkAdmin "admin@arstudios.com") Scenario.abc_id 1%N Demo.one_world
           token_valid_later Hid Hnofile).
Defined.

Lemma X9_witness :
  Str.endswith ".pdf" (Str.lower (upload_filename Demo.pdf)) = true /\
  Z.of_nat (length (upload_content Demo.pdf)) <= 10 * 1024 * 1024 /\
  validate_email (Env := Demo.env) "bob" = None /\
  fst Scenario.bad_address = inl (Unhandled "ValidationError").
Proof.
  assert (Hsize : Z.of_nat (length (upload_content Demo.pdf)) <= 10 * 1024 * 1024)
    by (vm_compute; discriminate).
  split; [reflexivity|]. split; [exact Hsize|]. split; [reflexivity|].
  exact (proj1 (X9_no_rollback_of_upload (E := Demo.env) Demo.t0 Demo.t0 "Bob" "bob"
                  "Title" "Synopsis" None Demo.pdf Demo.empty_world eq_refl Hsize eq_refl)).
Defined.

Lemma X10_witness :
  fst Scenario.without_file = inr (mkSubmitResponse true (ObjectId.str 1%N)) /\
  exists oid data,
    id (mkSubmitResponse true (ObjectId.str 1%N)) = ObjectId.str oid /\
    submission (db (snd Scenario.without_file)) !! oid = Some (mkSubmissionDoc data None) /\
    notifications (db (snd Scenario.without_file)) !! (oid + 1)%N
    = Some (mkNotificationLog "new_submission" (STUDIO_EMAIL (Env := Demo.env))
              ("New Submission: " +:+ "Title") data Demo.t0) /\
    (forall k, k <> (oid + 1)%N ->
               notifications (db (snd Scenario.without_file)) !! k
               = notifications (db Demo.empty_world) !! k) /\
    exists earlier,
      calls (snd Scenario.without_file)
      = earlier ++ [Call_insert_one "submission" oid;
                    Call_insert_one "notifications" (oid + 1)%N].
Proof.
  assert (Hok : fst Scenario.without_file = inr (mkSubmitResponse true (ObjectId.str 1%N)))
    by (vm_compute; reflexivity).
  split; [exact Hok|].
  exact (X10_notification_logged (E := Demo.env) Demo.t0 Demo.t0 "Bob" "bob@Example.org"
           "Title" "Synopsis" None None Demo.empty_world
           (mkSubmitResponse true (ObjectId.str 1%N)) Hok).
Defined.



Lemma X13_witness :
  get_current_admin (E := Demo.env) Demo.t0 Demo.token = inr (mkAdmin "admin@arstudios.com") /\
  get_current_admin (E := Demo.env) Scenario.later Demo.token
  = inr (mkAdmin "admin@arstudios.com") /\
  ObjectId.parse Scenario.abc_id = Some 1%N /\
  fst (get_submission (E := Demo.env) Scenario.later (Some Demo.token) Scenario.abc_id
         (snd (delete_submission (E := Demo.env) Demo.t0 (Some Demo.token) Scenario.abc_id
                 Demo.one_world)))
  = inl (HTTPException 404 "Not found").
Proof.
  assert (Hid : ObjectId.parse Scenario.abc_id = Some 1%N) by reflexivity.
  split; [reflexivity|]. split; [exact token_valid_later|]. split; [exact Hid|].
  exact (proj1 (proj2 (X13_delete_then_read (E := Demo.env) Demo.t0 Scenario.later
                         Demo.token Demo.token (mkAdmin "admin@arstudios.com")
                         (mkAdmin "admin@arstudios.com") Scenario.abc_id 1%N Demo.one_world
                         eq_refl token_valid_later Hid))).
Defined.

Lemma X14_witness :
  "Approved"%string <> EmptyString /\
  fst (list_submissions (E := Demo.env) Scenario.later (Some Demo.token) 1 10 (Some "^o")
         (Some "Approved") None None Scenario.two_world)
  = inr (mkListResponse [mkItem (ObjectId.str 2%N) Scenario.older] 1 1 10) /\
  forall item,
    In item (items (mkListResponse [mkItem (ObjectId.str 2%N) Scenario.older] 1 1 10)) ->
    Status_str (status (model (item_doc item))) = "Approved"%string /\
    exists oid,
      item_id item = ObjectId.str oid /\
      submission (db Scenario.two_world) !! oid = Some (item_doc item).
Proof.
  assert (Hne : "Approved"%string <> EmptyString) by discriminate.
  assert (Hok : fst (list_submissions (E := Demo.env) Scenario.later (Some Demo.token) 1 10
                       (Some "^o") (Some "Approved") None None Scenario.two_world)
                = inr (mkListResponse [mkItem (ObjectId.str 2%N) Scenario.older] 1 1 10))
    by (vm_compute; reflexivity).
  split; [exact Hne|]. split; [exact Hok|].
  exact (X14_status_filter (E := Demo.env) Scenario.later (Some Demo.token) 1 10
           (Some "^o") None None "Approved" Scenario.two_world _ Hne Hok).
Defined.

Lemma X15_witness :
  fst (list_submissions (E := Demo.env) Scenario.later (Some Demo.token) 1 10 None None
         (Some "2024-01-01") None Scenario.two_world)
  = inr (mkListResponse [mkItem (ObjectId.str 1%N) Demo.abc] 1 1 10) /\
  In (mkItem (ObjectId.str 1%N) Demo.abc)
     (items (mkListResponse [mkItem (ObjectId.str 1%N) Demo.abc] 1 1 10)) /\
  forall text, Some "2024-01-01"%string = Some text -> text <> EmptyString ->
               exists lo t, fromisoformat (Env := Demo.env) text = Some lo /\
                            submitted_at (model Demo.abc) = Some t /\
                            millis lo <= millis t.
Proof.
  assert (Hok : fst (list_submissions (E := Demo.env) Scenario.later (Some Demo.token) 1 10
                       None None (Some "2024-01-01") None Scenario.two_world)
                = inr (mkListResponse [mkItem (ObjectId.str 1%N) Demo.abc] 1 1 10))
    by (vm_compute; reflexivity).
  assert (Hin : In (mkItem (ObjectId.str 1%N) Demo.abc)
                   (items (mkListResponse [mkItem (ObjectId.str 1%N) Demo.abc] 1 1 10)))
    by (left; reflexivity).
  split; [exact Hok|]. split; [exact Hin|].
  exact (proj1 (X15_date_bounds (E := Demo.env) Scenario.later (Some Demo.token) 1 10 None
                  None (Some "2024-01-01") None Scenario.two_world _ _ Hok Hin)).
Defined.

Lemma X16_witness :
  fst (list_submissions (E := Demo.env) Demo.t0 (Some Demo.token) 2 1 None None
         None None Scenario.two_world)
  = inr (mkListResponse [mkItem (ObjectId.str 2%N) Scenario.older] 2 2 1) /\
  get_current_admin (E := Demo.env) Scenario.later Demo.token
  = inr (mkAdmin "admin@arstudios.com") /\
  exists everything,
    fst (list_submissions (E := Demo.env) Scenario.later (Some Demo.token) 1 0 None None
           None None
           (snd (list_submissions (E := Demo.env) Demo.t0 (Some Demo.token) 2 1
                   None None None None Scenario.two_world)))
    = inr everything /\
    total everything = 2 /\
    Z.of_nat (length (items everything)) = 2 /\
    In (mkItem (ObjectId.str 2%N) Scenario.older) (items everything).
Proof.
  assert (Hok : fst (list_submissions (E := Demo.env) Demo.t0 (Some Demo.token) 2 1
                       None None None None Scenario.two_world)
                = inr (mkListResponse [mkItem (ObjectId.str 2%N) Scenario.older] 2 2 1))
    by (vm_compute; reflexivity).
  split; [exact Hok|]. split; [exact token_valid_later|].
  destruct (X16_pages (E := Demo.env) Demo.t0 Scenario.later Demo.token
              (mkAdmin "admin@arstudios.com") 2 1 None None None None
              Scenario.two_world _ Hok token_valid_later)
    as (_ & _ & _ & _ & everything & Hall & Htotal & Hlength & Hitems).
  exists everything. split; [exact Hall|]. split; [exact Htotal|].
  split; [exact Hlength|]. apply Hitems. left. reflexivity.
Defined.

Lemma X17_witness :
  fst (list_submissions (E := Demo.env) Scenario.later (Some Demo.token) 1 10 None None
         None None Scenario.two_world)
  = inr (mkListResponse
           [mkItem (ObjectId.str 1%N) Demo.abc; mkItem (ObjectId.str 2%N) Scenario.older]
           2 1 10) /\
  Sorted not_older
    (items (mkListResponse
              [mkItem (ObjectId.str 1%N) Demo.abc; mkItem (ObjectId.str 2%N) Scenario.older]
              2 1 10)).
Proof.
  assert (Hok : fst (list_submissions (E := Demo.env) Scenario.later (Some Demo.token) 1 10
                       None None None None Scenario.two_world)
                = inr (mkListResponse
                         [mkItem (ObjectId.str 1%N) Demo.abc;
                          mkItem (ObjectId.str 2%N) Scenario.older] 2 1 10))
    by (vm_compute; reflexivity).
  split; [exact Hok|].
  exact (X17_newest_first (E := Demo.env) Scenario.later (Some Demo.token) 1 10 None None
           None None Scenario.two_world _ Hok).
Defined.

Lemma X18_witness :
  get_current_admin (E := Demo.env) Scenario.later Demo.token
  = inr (mkAdmin "admin@arstudios.com") /\
  (0 - 1) * 10 < 0 /\
  exists e rest,
    list_submissions (E := Demo.env) Scenario.later (Some Demo.token) 0 10 (Some "ab")
      (Some "Pending") (Some "2024-01-01") None Scenario.two_world
    = (inl e, mkWorld (db Scenario.two_world) (calls Scenario.two_world ++ rest)) /\
    status_of e = 500 /\ ~ In (Call_find "submission") rest.
Proof.
  assert (Hneg : (0 - 1) * 10 < 0) by reflexivity.
  split; [exact token_valid_later|]. split; [exact Hneg|].
  exact (proj1 (X18_negative_offset (E := Demo.env) Scenario.later Demo.token
                  (mkAdmin "admin@arstudios.com") 0 10 (Some "ab") (Some "Pending")
                  (Some "2024-01-01") None Scenario.two_world token_valid_later Hneg)).
Defined.

Lemma X20_witness :
  fresh_ids (db Demo.one_world) /\
  fst (submit_project (E := Demo.env) Scenario.later Scenario.later "Bob" "bob@Example.org"
         "Title" "Synopsis" None None
         (serve_all (E := Demo.env) Scenario.requests Demo.one_world))
  = inr (mkSubmitResponse true (ObjectId.str 5%N)) /\
  fresh_ids (db (serve_all (E := Demo.env) Scenario.requests Demo.one_world)).
Proof.
  assert (Hok : fst (submit_project (E := Demo.env) Scenario.later Scenario.later "Bob"
                       "bob@Example.org" "Title" "Synopsis" None None
                       (serve_all (E := Demo.env) Scenario.requests Demo.one_world))
                = inr (mkSubmitResponse true (ObjectId.str 5%N)))
    by (vm_compute; reflexivity).
  split; [exact one_store_fresh|]. split; [exact Hok|].
  exact (proj1 (X20_identifiers_are_new (E := Demo.env) Scenario.requests Demo.one_world
                  Scenario.later Scenario.later "Bob" "bob@Example.org" "Title" "Synopsis"
                  None None _ one_store_fresh Hok)).
Defined.

Lemma X21_witness :
  fresh_ids (db (snd Scenario.with_pdf)) /\
  submission_files (db (snd Scenario.with_pdf)) !! 1%N = Some (stored_file_of Demo.pdf) /\
  (exists n, notifications (db (snd Scenario.with_pdf)) !! 3%N = Some n) /\
  submission (db (serve_all (E := Demo.env) Scenario.after_upload (snd Scenario.with_pdf)))
  !! 2%N = None /\
  submission_files
    (db (serve_all (E := Demo.env) Scenario.after_upload (snd Scenario.with_pdf)))
  !! 1%N = Some (stored_file_of Demo.pdf) /\
  forall k n, notifications (db (snd Scenario.with_pdf)) !! k = Some n ->
              notifications
                (db (serve_all (E := Demo.env) Scenario.after_upload
                       (snd Scenario.with_pdf))) !! k = Some n.
Proof.
  assert (Hfresh : fresh_ids (db (snd Scenario.with_pdf))).
  { apply (writes_fresh (db Demo.empty_world)); [|exact empty_store_fresh].
    apply (submit_project_writes (E := Demo.env)). }
  assert (Hfile : submission_files (db (snd Scenario.with_pdf)) !! 1%N
                  = Some (stored_file_of Demo.pdf)) by (vm_compute; reflexivity).
  split; [exact Hfresh|]. split; [exact Hfile|].
  split; [eexists; vm_compute; reflexivity|]. split; [vm_compute; reflexivity|].
  pose proof (X21_files_and_logs_are_kept (E := Demo.env) Scenario.after_upload
                (snd Scenario.with_pdf) Hfresh) as [Hfiles Hlogs].
  split; [exact (Hfiles _ _ Hfile) | exact Hlogs].
Defined.

Lemma X22_witness :
  Str.endswith ".pdf" (Str.lower (upload_filename Demo.pdf)) = true /\
  Z.of_nat (length (upload_content Demo.pdf)) <= 10 * 1024 * 1024 /\
  fresh_ids (db Demo.empty_world) /\
  (next_id (db Demo.empty_world) < ObjectId.limit)%N /\
  fst (get_file (ObjectId.str (next_id (db Demo.empty_world)))
         (serve_all (E := Demo.env) Scenario.requests (snd Scenario.with_pdf)))
  = inr (mkFileResponse (upload_content Demo.pdf)
           (str_or (content_type Demo.pdf) "application/pdf")).
Proof.
  assert (Hsize : Z.of_nat (length (upload_content Demo.pdf)) <= 10 * 1024 * 1024)
    by (vm_compute; discriminate).
  assert (Hid : (next_id (db Demo.empty_world) < ObjectId.limit)%N) by reflexivity.
  split; [reflexivity|]. split; [exact Hsize|]. split; [exact empty_store_fresh|].
  split; [exact Hid|].
  exact (X22_upload_stays_served (E := Demo.env) Demo.t0 Demo.t0 "Bob" "bob@Example.org"
           "Title" "Synopsis" None Demo.pdf Demo.empty_world Scenario.requests
           eq_refl Hsize empty_store_fresh Hid).
Defined.

Lemma X23_witness :
  all_linked (db Demo.one_world) /\
  submission (db (serve_all (E := Demo.env) Scenario.requests Demo.one_world)) !! 3%N
  = Some Scenario.eve /\
  ((file_url (model Scenario.eve) = None /\ file_key (model Scenario.eve) = None) \/
   exists key, file_key (model Scenario.eve) = Some key /\
               file_url (model Scenario.eve) = Some ("/api/files/" +:+ key)).
Proof.
  assert (Hdoc : submission (db (serve_all (E := Demo.env) Scenario.requests Demo.one_world))
                 !! 3%N = Some Scenario.eve) by (vm_compute; reflexivity).
  split; [exact one_store_linked|]. split; [exact Hdoc|].
  exact (X23_file_fields_go_together (E := Demo.env) Scenario.requests Demo.one_world 3%N
           Scenario.eve one_store_linked Hdoc).
Defined.

Lemma X24_witness :
  fresh_ids (db Demo.one_world) /\
  submission (db Demo.one_world) !! 1%N = Some Demo.abc /\
  (submission
     (db (serve_all (E := Demo.env) (firstn 1 Scenario.requests) Demo.one_world)) !! 1%N
   = None \/
   exists doc',
     submission
       (db (serve_all (E := Demo.env) (firstn 1 Scenario.requests) Demo.one_world)) !! 1%N
     = Some doc' /\
     name (model doc') = name (model Demo.abc) /\
     email (model doc') = email (model Demo.abc) /\
     novel_title (model doc') = novel_title (model Demo.abc) /\
     synopsis (model doc') = synopsis (model Demo.abc) /\
     message (model doc') = message (model Demo.abc) /\
     file_url (model doc') = file_url (model Demo.abc) /\
     file_key (model doc') = file_key (model Demo.abc) /\
     submitted_at (model doc') = submitted_at (model Demo.abc) /\
     exists added, notes (model doc') = notes (model Demo.abc) ++ added).
Proof.
  assert (Hdoc : submission (db Demo.one_world) !! 1%N = Some Demo.abc) by reflexivity.
  split; [exact one_store_fresh|]. split; [exact Hdoc|].
  exact (X24_submissions_only_gain_notes (E := Demo.env) (firstn 1 Scenario.requests)
           Demo.one_world 1%N Demo.abc one_store_fresh Hdoc).
Defined.

Lemma X25_witness :
  get_current_admin (E := Demo.env) Demo.t0 Demo.token = inr (mkAdmin "admin@arstudios.com") /\
  get_current_admin (E := Demo.env) Scenario.later Demo.token
  = inr (mkAdmin "admin@arstudios.com") /\
  ObjectId.parse Scenario.abc_id = Some 1%N /\
  fresh_ids (db Demo.one_world) /\
  submission (db Demo.one_world) !! 1%N = Some Demo.abc /\
  fst (get_submission (E := Demo.env) Scenario.later (Some Demo.token) Scenario.abc_id
         (serve_all (E := Demo.env) Scenario.requests
            (snd (delete_submission (E := Demo.env) Demo.t0 (Some Demo.token)
                    Scenario.abc_id Demo.one_world))))
  = inl (HTTPException 404 "Not found").
Proof.
  assert (Hid : ObjectId.parse Scenario.abc_id = Some 1%N) by reflexivity.
  assert (Hdoc : submission (db Demo.one_world) !! 1%N = Some Demo.abc) by reflexivity.
  split; [reflexivity|]. split; [exact token_valid_later|]. split; [exact Hid|].
  split; [exact one_store_fresh|]. split; [exact Hdoc|].
  exact (X25_deleted_stays_deleted (E := Demo.env) Demo.t0 Scenario.later Demo.token
           Demo.token (mkAdmin "admin@arstudios.com") (mkAdmin "admin@arstudios.com")
           Scenario.abc_id 1%N Demo.abc Demo.one_world Scenario.requests
           eq_refl token_valid_later Hid one_store_fresh Hdoc).
Defined.
